(** * Tool-use conversation loop with context-window management

    A shallow embedding of the Python scripts of the repository
    (src/Python/11-mcp-client.py, src/11-mcp-server.py and
    src/08-type-scroll-tools.py) and the properties of their transcript
    handling: the empty-text filter, media stripping, summarization, tool
    dispatch, the scroll and write_file tools.

    Conventions.
    - A Python [str] is a [string]; each character stands for the code point
      of the same number (the Latin-1 range).
    - A Python dict that the code uses as a record is a Rocq record.  A key
      the code reads unguarded ([msg['role']]) is a plain field; a key it
      tests first (['text' in content_item], [msg.get('content', [])]) is an
      [option] field, [None] meaning that the key is absent.
    - Calls that leave the program (the model endpoint, the MCP session, the
      browser page, the file system) are fields of a record standing for the
      Python object they are methods of; each returns [inl e] when the call
      raises the exception [e].
    - [print] and logging calls are left out: they do not change any value
      the functions return. *)

From Stdlib Require Import ZArith String Ascii List DecimalString Lia.
From stdpp Require Import gmap strings list.
From iris.proofmode Require proofmode.
From iris.base_logic.lib Require gen_heap.

Local Open Scope string_scope.
Local Open Scope list_scope.
Set Warnings "-register-all".

(** ** Python built-ins used by the scripts *)

Module Py.

(** An exception value; [str e] is the only thing the scripts do with it. *)
Inductive exn : Type := Exception (msg : string).

Definition str_exn (e : exn) : string :=
  match e with Exception msg => msg end.

(** JSON-like Python values (tool inputs, tool outputs). A dict is the
    list of its items in insertion order. *)
Inductive value : Type :=
| VNone
| VBool (b : bool)
| VInt (z : Z)
| VStr (s : string)
| VList (l : list value)
| VDict (d : list (string * value)).

(** [d.get(key)] on the items of a dict. *)
Fixpoint dict_get (key : string) (d : list (string * value)) : option value :=
  match d with
  | [] => None
  | (k, v) :: d' => if String.eqb k key then Some v else dict_get key d'
  end.

(** Truth value of an object in a condition. *)
Definition truthy (v : value) : bool :=
  match v with
  | VNone => false
  | VBool b => b
  | VInt z => negb (Z.eqb z 0)
  | VStr s => negb (String.eqb s "")
  | VList l => match l with [] => false | _ => true end
  | VDict d => match d with [] => false | _ => true end
  end.

Definition code (c : ascii) : N := N_of_ascii c.

(** [c.isspace()] for a code point below 256: TAB..CR, FS..US, space,
    NEL and the no-break space. *)
Definition isspace (c : ascii) : bool :=
  let n := code c in
  ((9 <=? n) && (n <=? 13) || (28 <=? n) && (n <=? 32)
   || (n =? 133) || (n =? 160))%N.

(** [s.lstrip()], [s.rstrip()] and [s.strip()] without argument. *)
Fixpoint lstrip (s : string) : string :=
  match s with
  | EmptyString => EmptyString
  | String c s' => if isspace c then lstrip s' else s
  end.

Fixpoint rstrip (s : string) : string :=
  match s with
  | EmptyString => EmptyString
  | String c s' =>
      let r := rstrip s' in
      if isspace c && String.eqb r "" then EmptyString else String c r
  end.

Definition strip (s : string) : string := rstrip (lstrip s).

(** Truth value of a string: non-empty. *)
Definition truthy_str (s : string) : bool := negb (String.eqb s "").

(** [c.lower()] for a code point below 256: A..Z and the Latin-1 capitals
    (all of U+00C0..U+00DE but the multiplication sign) move up by 32. *)
Definition lower_char (c : ascii) : ascii :=
  let n := code c in
  if ((65 <=? n) && (n <=? 90)
      || (192 <=? n) && (n <=? 222) && negb (n =? 215))%N
  then ascii_of_N (n + 32) else c.

Fixpoint lower (s : string) : string :=
  match s with
  | EmptyString => EmptyString
  | String c s' => String (lower_char c) (lower s')
  end.

(** [c.upper()] for the ASCII letters; the role names the scripts
    upper-case are ASCII. *)
Definition upper_char (c : ascii) : ascii :=
  let n := code c in
  if ((97 <=? n) && (n <=? 122))%N then ascii_of_N (n - 32) else c.

Fixpoint upper (s : string) : string :=
  match s with
  | EmptyString => EmptyString
  | String c s' => String (upper_char c) (upper s')
  end.

(** [s.endswith(suffix)]. *)
Definition endswith (s suffix : string) : bool :=
  let n := String.length s in
  let k := String.length suffix in
  (k <=? n)%nat && String.eqb (String.substring (n - k) k s) suffix.

(** [str(n)] for an int. *)
Definition str_int (z : Z) : string := NilZero.string_of_int (Z.to_int z).

(** [l[lo:hi]] for indices [0 <= lo], [0 <= hi]. *)
Definition slice {A} (lo hi : nat) (l : list A) : list A :=
  firstn (hi - lo) (skipn lo l).

End Py.

(** ** The transcript: messages and content items (Bedrock Converse shapes) *)

Record Image : Type := mkImage {
  img_format : string;
  img_bytes : string
}.

(** The dict under the key ['toolUse']: [tool['name']] is read unguarded,
    [tool.get('toolUseId')] and [tool.get('input', {})] are guarded. *)
Record ToolUse : Type := mkToolUse {
  tu_toolUseId : option string;
  tu_name : string;
  tu_input : option Py.value
}.

(** An item of the content of a tool result: a dict with one of the keys
    ['json'], ['image'], ['text']. *)
Inductive ToolResultContent : Type :=
| TRJson (v : Py.value)
| TRImage (img : Image)
| TRText (s : string).

(** The dict under the key ['toolResult']; the id is whatever
    [tool.get('toolUseId')] gave, [None] included. *)
Record ToolResult : Type := mkToolResult {
  tr_toolUseId : option string;
  tr_content : list ToolResultContent
}.

(** A content item is a dict; the code only ever asks which of the keys
    ['text'], ['image'], ['json'], ['toolUse'], ['toolResult'] it has.
    [other_keys] holds whatever else the dict carries (['document'], ...). *)
Record ContentItem : Type := mkItem {
  text : option string;
  image : option Image;
  json : option Py.value;
  toolUse : option ToolUse;
  toolResult : option ToolResult;
  other_keys : list (string * Py.value)
}.

Record Message : Type := mkMessage {
  role : string;
  content : option (list ContentItem)
}.

(** The dict literals of the scripts. *)
Definition text_item (s : string) : ContentItem :=
  mkItem (Some s) None None None None [].
Definition image_item (img : Image) : ContentItem :=
  mkItem None (Some img) None None None [].
Definition json_item (v : Py.value) : ContentItem :=
  mkItem None None (Some v) None None [].
Definition toolUse_item (tu : ToolUse) : ContentItem :=
  mkItem None None None (Some tu) None [].
Definition toolResult_item (tr : ToolResult) : ContentItem :=
  mkItem None None None None (Some tr) [].

(** ['key' in content_item]. *)
Definition has_text (it : ContentItem) : bool := bool_decide (is_Some (text it)).
Definition has_image (it : ContentItem) : bool := bool_decide (is_Some (image it)).
Definition has_json (it : ContentItem) : bool := bool_decide (is_Some (json it)).
Definition has_toolUse (it : ContentItem) : bool := bool_decide (is_Some (toolUse it)).
Definition has_toolResult (it : ContentItem) : bool := bool_decide (is_Some (toolResult it)).

(** [msg.get('content', [])]. *)
Definition get_content (msg : Message) : list ContentItem :=
  default [] (content msg).

Definition is_user (msg : Message) : bool := String.eqb (role msg) "user".
Definition is_assistant (msg : Message) : bool := String.eqb (role msg) "assistant".

(** ** src/Python/11-mcp-client.py: transcript handling *)

(** [filter_empty_text_content] (the same text in 03-loop.py, 04-invoke-tool.py,
    06-human-in-loop.py, 08-type-scroll-tools.py, 10-mcp-client.py and
    11-mcp-client.py).  The loop keeps an item when
    ['text' not in content_item or content_item['text'].strip()]. *)
Definition keeps_item (content_item : ContentItem) : bool :=
  match text content_item with
  | None => true
  | Some s => Py.truthy_str (Py.strip s)
  end.

Fixpoint filter_loop (items filtered_content : list ContentItem) : list ContentItem :=
  match items with
  | [] => filtered_content
  | content_item :: rest =>
      if keeps_item content_item
      then filter_loop rest (filtered_content ++ [content_item])
      else filter_loop rest filtered_content
  end.

Definition filter_empty_text_content (message : Message) : Message :=
  match content message with
  | None => message
  | Some items =>
      {| role := role message; content := Some (filter_loop items []) |}
  end.

(** [remove_media_except_last_turn].  The scan for the last two user
    messages runs from the end of the list; [rev_msgs] is the part of the
    reversed list still to visit and [i] the index of its first message. *)
Fixpoint find_user_indices (rev_msgs : list Message) (i : nat)
    (last_user_index second_last_user_index : option nat)
    : option nat * option nat :=
  match rev_msgs with
  | [] => (last_user_index, second_last_user_index)
  | msg :: rest =>
      if is_user msg then
        match last_user_index with
        | None => find_user_indices rest (i - 1) (Some i) second_last_user_index
        | Some _ => (last_user_index, Some i)
        end
      else find_user_indices rest (i - 1) last_user_index second_last_user_index
  end.

(** The inner loop over [message['content']]. *)
Fixpoint strip_loop (items new_content : list ContentItem) (removed_media : bool)
    : list ContentItem * bool :=
  match items with
  | [] => (new_content, removed_media)
  | content_item :: rest =>
      if has_text content_item then
        strip_loop rest (new_content ++ [content_item]) removed_media
      else if has_image content_item || has_json content_item then
        strip_loop rest new_content true
      else
        strip_loop rest (new_content ++ [content_item]) removed_media
  end.

Definition media_placeholder : ContentItem :=
  text_item "An image or document was removed for brevity.".

(** The body of the second loop for a message that is not skipped. *)
Definition strip_message (message : Message) : Message :=
  match content message with
  | None => message
  | Some items =>
      let '(new_content, removed_media) := strip_loop items [] false in
      let new_content :=
        if removed_media && bool_decide (new_content = [])
        then new_content ++ [media_placeholder] else new_content in
      {| role := role message; content := Some new_content |}
  end.

(** The condition under which the second loop skips index [i]. *)
Definition in_last_turn (last_user_index : option nat) (len i : nat) : bool :=
  match last_user_index with
  | Some lu => (lu <=? i)%nat
  | None => false
  end || (i =? len - 1)%nat.

Definition remove_media_except_last_turn (messages : list Message) : list Message :=
  if (length messages <? 2)%nat then messages
  else
    (* copy.deepcopy gives a list of equal value; module Store keeps the
       objects apart *)
    let processed_messages := messages in
    let len := length processed_messages in
    let '(last_user_index, _) :=
      find_user_indices (reverse processed_messages) (len - 1) None None in
    imap (fun i message =>
            if in_last_turn last_user_index len i then message
            else strip_message message)
         processed_messages.

(** *** Summarization *)

Definition SUMMARY_MODEL_ID : string := "us.amazon.nova-micro-v1:0".
Definition SUMMARIZATION_TOKEN_THRESHOLD : Z := 5000.
Definition KEEP_LAST_TURNS : nat := 2.

(** What [converse] returns, as far as the scripts read it:
    [response.get('output', {}).get('message', {})], [response.get('stopReason')]
    and [response.get('usage', {}).get('inputTokens', 0)]. *)
Record ConverseResponse : Type := mkResponse {
  output_message : option Message;
  stopReason : option string;
  inputTokens : option Z
}.

(** [bedrock_client]: the call [converse(modelId=..., messages=...)]. *)
Record BedrockClient : Type := mkBedrock {
  converse : string -> list Message -> Py.exn + ConverseResponse
}.

(** The loop that collects the last turns, from the last message down.
    [rev_msgs] starts at [processed_messages[i]]; its next element, when there
    is one, is [processed_messages[i-1]] (so [i > 0]). *)
Fixpoint collect_last (rev_msgs last_messages : list Message)
    (message_count turn_count : nat) : list Message * nat * nat :=
  match rev_msgs with
  | [] => (last_messages, message_count, turn_count)
  | msg :: rest =>
      let last_messages := msg :: last_messages in
      let message_count := message_count + 1 in
      let turn_count :=
        if is_user msg
           && match rest with prev :: _ => is_assistant prev | [] => false end
        then turn_count + 1 else turn_count in
      if (KEEP_LAST_TURNS <=? turn_count)%nat
      then (last_messages, message_count, turn_count)
      else collect_last rest last_messages message_count turn_count
  end.

(** [last_messages] and [message_count] after that loop. *)
Definition last_messages_of (processed_messages : list Message) : list Message :=
  (collect_last (reverse processed_messages) [] 0 0).1.1.
Definition message_count_of (processed_messages : list Message) : nat :=
  (collect_last (reverse processed_messages) [] 0 0).1.2.

(** [processed_messages[1:len(processed_messages) - message_count]]. *)
Definition to_summarize_of (processed_messages : list Message) : list Message :=
  Py.slice 1 (length processed_messages - message_count_of processed_messages)
    processed_messages.

(** The tool use requests of the last message to summarize. *)
Definition tool_use_content_of (to_summarize : list Message) : list ContentItem :=
  match last to_summarize with
  | Some last_message_to_summarize =>
      if is_assistant last_message_to_summarize
      then List.filter has_toolUse (get_content last_message_to_summarize)
      else []
  | None => []
  end.

Definition nl : string := String (ascii_of_nat 10) EmptyString.

Definition summarization_header : string :=
  "Please summarize the following conversation while preserving key information, decisions, and context."
  +:+ nl +:+
  "Focus on the steps we went through and what we've accomplished so far. Include any important findings or decisions made."
  +:+ nl +:+
  "Provide a concise but comprehensive summary that will help continue the conversation effectively:"
  +:+ nl +:+ nl.

(** The flattened text of one message. *)
Fixpoint content_text_of (items : list ContentItem) (content_text : string) : string :=
  match items with
  | [] => content_text
  | content_item :: rest =>
      content_text_of rest
        match text content_item with
        | Some s => content_text +:+ s +:+ " "
        | None =>
            if has_json content_item then content_text +:+ "[JSON data] "
            else if has_image content_item then content_text +:+ "[IMAGE] "
            else
              match toolUse content_item with
              | Some tool => content_text +:+ "[TOOL USE: " +:+ tu_name tool +:+ "] "
              | None =>
                  if has_toolResult content_item
                  then content_text +:+ "[TOOL RESULT] "
                  else content_text
              end
        end
  end.

Fixpoint summarization_prompt_of (to_summarize : list Message) (prompt : string) : string :=
  match to_summarize with
  | [] => prompt
  | msg :: rest =>
      let content_text := content_text_of (get_content msg) "" in
      summarization_prompt_of rest
        (if Py.truthy_str (Py.strip content_text)
         then prompt +:+ Py.upper (role msg) +:+ ": " +:+ content_text +:+ nl +:+ nl
         else prompt)
  end.

(** The text of the summary: the text items of the response, concatenated. *)
Fixpoint summary_text_of (items : list ContentItem) (summary_text : string) : string :=
  match items with
  | [] => summary_text
  | content_item :: rest =>
      summary_text_of rest
        match text content_item with
        | Some s => summary_text +:+ s
        | None => summary_text
        end
  end.

(** The two counters of the final check. *)
Fixpoint count_items (p : ContentItem -> bool) (items : list ContentItem) (n : nat) : nat :=
  match items with
  | [] => n
  | content_item :: rest => count_items p rest (if p content_item then n + 1 else n)
  end.

Fixpoint count_tools (result : list Message) (tool_use_count tool_result_count : nat)
    : nat * nat :=
  match result with
  | [] => (tool_use_count, tool_result_count)
  | msg :: rest =>
      if is_assistant msg then
        count_tools rest (count_items has_toolUse (get_content msg) tool_use_count)
          tool_result_count
      else if is_user msg then
        count_tools rest tool_use_count
          (count_items has_toolResult (get_content msg) tool_result_count)
      else count_tools rest tool_use_count tool_result_count
  end.

Definition tool_use_count (result : list Message) : nat := (count_tools result 0 0).1.
Definition tool_result_count (result : list Message) : nat := (count_tools result 0 0).2.

(** The synthesized summary message and the reassembled list. *)
Definition summary_message_of (summary_text : string) (tool_use_content : list ContentItem)
    : Message :=
  let summary_content := [text_item ("[CONVERSATION SUMMARY: " +:+ summary_text +:+ "]")] in
  let summary_content :=
    match tool_use_content with
    | [] => summary_content
    | _ => summary_content ++ tool_use_content
    end in
  {| role := "assistant"; content := Some summary_content |}.

(** The messages sent to the summarization model. *)
Definition summary_request (to_summarize : list Message) : list Message :=
  let summarization_prompt := summarization_prompt_of to_summarize summarization_header in
  [ {| role := "user"; content := Some [text_item summarization_prompt] |} ].

(** [summary_text] as read from the response. *)
Definition summary_text_from (summary_response : ConverseResponse) : string :=
  summary_text_of
    match output_message summary_response with
    | Some output_message => get_content output_message
    | None => []
    end "".

(** [result] as the [try] block builds it from the response. *)
Definition summarized_result (first_message : Message)
    (summary_response : ConverseResponse) (tool_use_content : list ContentItem)
    (last_messages : list Message) : list Message :=
  let summary_text := summary_text_from summary_response in
  let summary_message := summary_message_of summary_text tool_use_content in
  [first_message; summary_message] ++ last_messages.

Definition summarize_conversation (messages : list Message) (bedrock_client : BedrockClient)
    : list Message :=
  if bool_decide (messages = []) || (length messages <=? KEEP_LAST_TURNS * 2 + 1)%nat
  then messages
  else
    (* copy.deepcopy, as in remove_media_except_last_turn *)
    let processed_messages := messages in
    match processed_messages with
    | [] => messages
    | first_message :: _ =>
        let last_messages := last_messages_of processed_messages in
        let to_summarize := to_summarize_of processed_messages in
        if bool_decide (to_summarize = []) then processed_messages
        else
          let tool_use_content := tool_use_content_of to_summarize in
          match converse bedrock_client SUMMARY_MODEL_ID (summary_request to_summarize) with
          | inr summary_response =>
              let result :=
                summarized_result first_message summary_response tool_use_content
                  last_messages in
              if bool_decide (tool_use_count result ≠ tool_result_count result)
              then messages
              else result
          | inl e => processed_messages
          end
    end.

(** ** Effects: state and exceptions

    A computation over a state [St] returns a value or raises, and leaves a
    state either way: what a [try] block did before it raised stays done. *)

Definition M (St A : Type) : Type := St -> (Py.exn + A) * St.

Definition ret {St A} (a : A) : M St A := fun s => (inr a, s).

Definition bind {St A B} (m : M St A) (k : A -> M St B) : M St B :=
  fun s =>
    match m s with
    | (inr a, s') => k a s'
    | (inl e, s') => (inl e, s')
    end.

Definition raise {St A} (e : Py.exn) : M St A := fun s => (inl e, s).

(** [try: body except Exception as e: handler e]. *)
Definition try_except {St A} (body : M St A) (handler : Py.exn -> M St A) : M St A :=
  fun s =>
    match body s with
    | (inr a, s') => (inr a, s')
    | (inl e, s') => handler e s'
    end.

(** A pure call that may raise. *)
Definition lift_result {St A} (r : Py.exn + A) : M St A :=
  match r with
  | inr a => ret a
  | inl e => raise e
  end.

Declare Scope py_scope.
Delimit Scope py_scope with py.
Notation "'let*' x ':=' m 'in' k" := (bind m (fun x => k))
  (at level 10, x name, m at level 100, k at level 200) : py_scope.
Notation "m ';;' k" := (bind m (fun _ => k))
  (at level 100, k at level 200, right associativity) : py_scope.
Local Open Scope py_scope.

(** ** src/Python/11-mcp-client.py: tool dispatch over the MCP session *)

(** The content types of [mcp.types] a tool call can return. *)
Inductive ResourceContents : Type :=
| TextResourceContents (uri : string) (mimeType : option string) (text : string)
| BlobResourceContents (uri : string) (mimeType : option string) (blob : string).

Definition resource_uri (r : ResourceContents) : string :=
  match r with
  | TextResourceContents uri _ _ => uri
  | BlobResourceContents uri _ _ => uri
  end.

Definition resource_mimeType (r : ResourceContents) : option string :=
  match r with
  | TextResourceContents _ mimeType _ => mimeType
  | BlobResourceContents _ mimeType _ => mimeType
  end.

Inductive McpContent : Type :=
| TextContent (text : string)
| ImageContent (data : string) (mimeType : string)
| EmbeddedResource (resource : ResourceContents)
| OtherContent (type : string).

Record CallToolResult : Type := mkCallToolResult {
  ctr_content : list McpContent;
  isError : bool
}.

(** The state of the client: the world behind the session and the global
    list [artifact_uris]. A URL object is the string it prints as. *)
Record ClientState (W : Type) : Type := mkClientState {
  world : W;
  artifact_uris : list string
}.
Arguments mkClientState {W} _ _.
Arguments world {W} _.
Arguments artifact_uris {W} _.

(** [session]: the call [session.call_tool(name, arguments)]. *)
Record ClientSession (W : Type) : Type := mkSession {
  call_tool : string -> Py.value -> M W CallToolResult
}.
Arguments call_tool {W} _ _ _.

Section McpClient.

Context {W : Type}.

(** Library calls: [base64.b64decode], [json.loads] and [str] of a JSON
    value. *)
Variable b64decode : string -> Py.exn + string.
Variable json_loads : string -> Py.exn + Py.value.
Variable str_value : Py.value -> string.

Variable session : ClientSession W.

(** A call through the session acts on the world and leaves the list of
    artifacts alone. *)
Definition session_call_tool (tool_name : string) (tool_input : Py.value)
    : M (ClientState W) CallToolResult :=
  fun st =>
    let '(r, w') := call_tool session tool_name tool_input (world st) in
    (r, mkClientState w' (artifact_uris st)).

(** [artifact_uris.append(uri)]. *)
Definition track_artifact (uri : string) : M (ClientState W) unit :=
  fun st => (inr tt, mkClientState (world st) (artifact_uris st ++ [uri])).

(** The loop over [result.content] of [process_tool_request]. *)
Fixpoint convert_content (items : list McpContent)
    (bedrock_content : list ToolResultContent)
    : M (ClientState W) (list ToolResultContent) :=
  match items with
  | [] => ret bedrock_content
  | content_item :: rest =>
      match content_item with
      | ImageContent data _ =>
          let* image_data := lift_result (b64decode data) in
          convert_content rest
            (bedrock_content
             ++ [TRJson (Py.VDict [("filename", Py.VStr "screenshot.jpeg")])]
             ++ [TRImage (mkImage "jpeg" image_data)])
      | TextContent text =>
          convert_content rest
            (bedrock_content ++ [TRJson (Py.VDict [("text", Py.VStr text)])])
      | EmbeddedResource resource =>
          let bedrock_content :=
            bedrock_content
            ++ [TRJson (Py.VDict [("resource", Py.VStr (resource_uri resource))])] in
          track_artifact (resource_uri resource) ;;
          convert_content rest
            match resource with
            | TextResourceContents _ _ text =>
                bedrock_content ++ [TRJson (Py.VDict [("resource", Py.VStr text)])]
            | BlobResourceContents _ _ _ => bedrock_content
            end
      | OtherContent _ => convert_content rest bedrock_content
      end
  end.

Definition process_tool_request (tool_name : string) (tool_id : option string)
    (tool_input : Py.value) : M (ClientState W) ContentItem :=
  try_except
    (let* result := session_call_tool tool_name tool_input in
     let* bedrock_content := convert_content (ctr_content result) [] in
     ret (toolResult_item
            {| tr_toolUseId := tool_id; tr_content := bedrock_content |}))
    (fun e =>
       ret (toolResult_item
              {| tr_toolUseId := tool_id;
                 tr_content := [TRJson (Py.VDict [("error", Py.VStr (Py.str_exn e))])] |})).

(** The [for content in output_message.get('content', [])] loop of
    [run_client]: every toolUse goes through [process_tool_request]. *)
Fixpoint dispatch_tool_uses (items : list ContentItem) (tool_content : list ContentItem)
    : M (ClientState W) (list ContentItem) :=
  match items with
  | [] => ret tool_content
  | content :: rest =>
      match toolUse content with
      | Some tool =>
          let tool_name := tu_name tool in
          let tool_id := tu_toolUseId tool in
          let* tool_input :=
            match default (Py.VDict []) (tu_input tool) with
            | Py.VStr s => lift_result (json_loads s)
            | tool_input => ret tool_input
            end in
          let* result_content := process_tool_request tool_name tool_id tool_input in
          dispatch_tool_uses rest (tool_content ++ [result_content])
      | None => dispatch_tool_uses rest tool_content
      end
  end.

(** [page_info_text], from the first content item of the page-info result. *)
Definition page_info_text_of (page_info_content : ToolResultContent) : string :=
  match page_info_content with
  | TRJson (Py.VDict d) =>
      match Py.dict_get "text" d with
      | Some (Py.VStr s) => s
      | Some v => str_value v
      | None => str_value (Py.VDict d)
      end
  | TRJson v => str_value v
  | _ => "Page info not available"
  end.

(** The body of the [while stop_reason == 'tool_use'] loop of [run_client]
    up to [messages.append(tool_result_message)]: it returns
    [tool_result_message]. *)
Definition run_client_tool_turn (output_message : Message)
    : M (ClientState W) Message :=
  let* tool_content := dispatch_tool_uses (get_content output_message) [] in
  let* page_info_result :=
    process_tool_request "get_page_info" (Some "page_info") (Py.VDict []) in
  let* page_info_content :=
    match toolResult page_info_result with
    | Some tr =>
        match tr_content tr with
        | c :: _ => ret c
        | [] => raise (Py.Exception "list index out of range")
        end
    | None => raise (Py.Exception "'toolResult'")
    end in
  let browser_content :=
    text_item ("Current page: " +:+ page_info_text_of page_info_content) in
  let tool_content := tool_content ++ [browser_content] in
  ret {| role := "user"; content := Some tool_content |}.

End McpClient.

(** ** The browser page and the operating system

    [page] is the Playwright page; [os] gathers [uuid.uuid4], [open] for
    writing and for reading, and [input]. [asyncio.sleep] only waits and is
    left out. *)

Record Page (W : Type) : Type := mkPage {
  goto : Py.value -> M W unit;
  title : M W string;
  url : M W string;
  screenshot : string -> M W unit;
  mouse_click : Py.value -> Py.value -> M W unit;
  evaluate : string -> M W unit;
  keyboard_type : Py.value -> M W unit;
  keyboard_press : string -> M W unit
}.
Arguments goto {W} _ _.
Arguments title {W} _.
Arguments url {W} _.
Arguments screenshot {W} _ _.
Arguments mouse_click {W} _ _ _.
Arguments evaluate {W} _ _.
Arguments keyboard_type {W} _ _.
Arguments keyboard_press {W} _ _.

Record Os (W : Type) : Type := mkOs {
  uuid4 : M W string;
  write_text : string -> string -> M W unit;
  read_bytes : string -> M W string;
  input : string -> M W string
}.
Arguments uuid4 {W} _.
Arguments write_text {W} _ _ _.
Arguments read_bytes {W} _ _.
Arguments input {W} _ _.

(** What a tool function returns: a content object or a plain dict. *)
Inductive ToolOutput : Type :=
| OutContent (c : McpContent)
| OutValue (v : Py.value).

(** ** src/11-mcp-server.py: the scroll and write_file tools *)

Section McpServer.

Context {W : Type}.
Variable SESSION_ID : string.
Variable page : Page W.
Variable os : Os W.

(** The two branches that scroll fall through to the final [return]; the
    [else] branch returns at once. *)
Definition scroll (direction : string) (amount : Z) : M W Py.value :=
  let scrolled :=
    ret (Py.VDict [("scrolled", Py.VBool true);
                   ("direction", Py.VStr direction);
                   ("amount", Py.VInt amount)]) in
  if String.eqb (Py.lower direction) "down" then
    evaluate page ("window.scrollBy(0, " +:+ Py.str_int amount +:+ ")") ;;
    scrolled
  else if String.eqb (Py.lower direction) "up" then
    evaluate page ("window.scrollBy(0, -" +:+ Py.str_int amount +:+ ")") ;;
    scrolled
  else
    ret (Py.VDict [("scrolled", Py.VBool false);
                   ("error", Py.VStr ("Invalid direction: " +:+ direction))]).

(** The MIME type [write_file] and [get_artifact] infer from the name. *)
Definition mime_type_of (filename : string) : string :=
  let mime_type := "text/plain" in
  if Py.endswith filename ".md" then "text/markdown"
  else if Py.endswith filename ".html" then "text/html"
  else if Py.endswith filename ".json" then "application/json"
  else mime_type.

Definition write_file (filename content : string) : M W ToolOutput :=
  let full_filename := "artefacts/" +:+ SESSION_ID +:+ "/" +:+ filename in
  try_except
    (write_text os full_filename content ;;
     let resource_uri := "artifact://" +:+ SESSION_ID +:+ "/" +:+ filename in
     let mime_type := mime_type_of filename in
     let resource :=
       TextResourceContents resource_uri (Some mime_type)
         (String.substring 0 100 content) in
     ret (OutContent (EmbeddedResource resource)))
    (fun e =>
       ret (OutValue (Py.VDict [("written", Py.VBool false);
                                ("error", Py.VStr (Py.str_exn e))]))).

End McpServer.

(** ** src/08-type-scroll-tools.py: the tools and the loop of [run_example] *)

Module TypeScrollTools.
Section TypeScrollTools.

Context {W : Type}.
Variable SESSION_ID : string.
Variable json_loads : string -> Py.exn + Py.value.
Variable str_value : Py.value -> string.
Variable page : Page W.
Variable os : Os W.

(** [f"{v}"]: a str prints as itself. *)
Definition fmt (v : Py.value) : string :=
  match v with
  | Py.VStr s => s
  | _ => str_value v
  end.

(** [tool_input.get(key, default)]; an object that is not a dict has no
    [get]. *)
Definition input_get (tool_input : Py.value) (key : string) (default_value : Py.value)
    : M W Py.value :=
  match tool_input with
  | Py.VDict d => ret (default default_value (Py.dict_get key d))
  | _ => raise (Py.Exception "object has no attribute 'get'")
  end.

Definition navigate (url : Py.value) : M W Py.value :=
  goto page url ;;
  let* t := title page in
  ret (Py.VDict [("title", Py.VStr t)]).

Definition take_screenshot : M W Py.value :=
  let* u := uuid4 os in
  let filename := "screenshot/" +:+ SESSION_ID +:+ "/screenshot_" +:+ u +:+ ".png" in
  screenshot page filename ;;
  ret (Py.VDict [("filename", Py.VStr filename)]).

Definition click (x y : Py.value) : M W Py.value :=
  mouse_click page x y ;;
  ret (Py.VDict [("clicked_at", Py.VDict [("x", x); ("y", y)])]).

Definition scroll (direction amount : Py.value) : M W Py.value :=
  match direction with
  | Py.VStr d =>
      let scrolled :=
        ret (Py.VDict [("scrolled", Py.VBool true);
                       ("direction", direction);
                       ("amount", amount)]) in
      if String.eqb (Py.lower d) "down" then
        evaluate page ("window.scrollBy(0, " +:+ fmt amount +:+ ")") ;;
        scrolled
      else if String.eqb (Py.lower d) "up" then
        evaluate page ("window.scrollBy(0, -" +:+ fmt amount +:+ ")") ;;
        scrolled
      else
        ret (Py.VDict [("scrolled", Py.VBool false);
                       ("error", Py.VStr ("Invalid direction: " +:+ d))])
  | _ => raise (Py.Exception "object has no attribute 'lower'")
  end.

Definition type_text (text submit : Py.value) : M W Py.value :=
  try_except
    (keyboard_type page text ;;
     if Py.truthy submit then
       keyboard_press page "Enter" ;;
       ret (Py.VDict [("typed", Py.VBool true); ("text", text);
                      ("submitted", Py.VBool true)])
     else
       ret (Py.VDict [("typed", Py.VBool true); ("text", text);
                      ("submitted", Py.VBool false)]))
    (fun e =>
       ret (Py.VDict [("typed", Py.VBool false);
                      ("error", Py.VStr (Py.str_exn e))])).

Definition ask_user (question : Py.value) : M W Py.value :=
  let* user_response := input os "Your answer: " in
  ret (Py.VDict [("response", Py.VStr user_response)]).

(** [get_page_info] returns the dict with the keys title and url; the pair
    stands for it. *)
Definition get_page_info : M W (string * string) :=
  try_except
    (let* t := title page in
     let* u := url page in
     ret (t, u))
    (fun e => ret ("Unknown", "Unknown")).

Definition json_result (tool_id : option string) (result : Py.value) : ContentItem :=
  toolResult_item {| tr_toolUseId := tool_id; tr_content := [TRJson result] |}.

(** The [for content in output_message.get('content', [])] loop: the
    [if]/[elif] chain over the tool name has no final [else]. *)
Fixpoint dispatch_tool_uses (items tool_content : list ContentItem)
    : M W (list ContentItem) :=
  match items with
  | [] => ret tool_content
  | content :: rest =>
      match toolUse content with
      | Some tool =>
          let tool_name := tu_name tool in
          let tool_id := tu_toolUseId tool in
          let* tool_input :=
            match default (Py.VDict []) (tu_input tool) with
            | Py.VStr s => lift_result (json_loads s)
            | tool_input => ret tool_input
            end in
          let* tool_content :=
            if String.eqb tool_name "navigate" then
              let* url := input_get tool_input "url" (Py.VStr "https://aws.amazon.com") in
              let* result := navigate url in
              ret (tool_content ++ [json_result tool_id result])
            else if String.eqb tool_name "screenshot" then
              let* result := take_screenshot in
              let* filename :=
                match result with
                | Py.VDict d =>
                    match Py.dict_get "filename" d with
                    | Some (Py.VStr f) => ret f
                    | _ => raise (Py.Exception "'filename'")
                    end
                | _ => raise (Py.Exception "'filename'")
                end in
              let* image_bytes := read_bytes os filename in
              ret (tool_content
                   ++ [toolResult_item
                         {| tr_toolUseId := tool_id;
                            tr_content :=
                              [TRJson (Py.VDict [("filename", Py.VStr filename)]);
                               TRImage (mkImage "png" image_bytes)] |}])
            else if String.eqb tool_name "click" then
              let* x := input_get tool_input "x" (Py.VInt 0) in
              let* y := input_get tool_input "y" (Py.VInt 0) in
              let* result := click x y in
              ret (tool_content ++ [json_result tool_id result])
            else if String.eqb tool_name "scroll" then
              let* direction := input_get tool_input "direction" (Py.VStr "down") in
              let* amount := input_get tool_input "amount" (Py.VInt 500) in
              let* result := scroll direction amount in
              ret (tool_content ++ [json_result tool_id result])
            else if String.eqb tool_name "type" then
              let* text := input_get tool_input "text" (Py.VStr "") in
              let* submit := input_get tool_input "submit" (Py.VBool false) in
              let* result := type_text text submit in
              ret (tool_content ++ [json_result tool_id result])
            else if String.eqb tool_name "ask_user" then
              let* question :=
                input_get tool_input "question"
                  (Py.VStr "What would you like to do next?") in
              let* result := ask_user question in
              ret (tool_content ++ [json_result tool_id result])
            else ret tool_content in
          dispatch_tool_uses rest tool_content
      | None => dispatch_tool_uses rest tool_content
      end
  end.

(** The body of the [while stop_reason == 'tool_use'] loop of
    [run_example] up to [messages.append(tool_result_message)]: it returns
    [tool_result_message]. *)
Definition run_example_tool_turn (output_message : Message) : M W Message :=
  let* tool_content := dispatch_tool_uses (get_content output_message) [] in
  let* page_info := get_page_info in
  let browser_content :=
    text_item ("Current page: Title: '" +:+ page_info.1 +:+ "', URL: '"
               +:+ page_info.2 +:+ "'") in
  let tool_content := tool_content ++ [browser_content] in
  ret {| role := "user"; content := Some tool_content |}.

End TypeScrollTools.
End TypeScrollTools.

(** ** The two compaction functions over the object store

    The functions above work on values. Whether a function changes the list
    it is given is a question about objects: here a message list, a message
    dict and a content list are objects in a store, held by reference, and
    [copy.deepcopy], [list.append], [list.insert], [list.extend] and
    [message['content'] = ...] act on the store. A content item is an object
    too; the two functions never write into one, so the dicts under its keys
    are kept as the value of the item. Loops that only read (the prompt, the
    counters) load the values and run the functions above. *)

Module Store.

Definition loc : Type := positive.

Inductive obj : Type :=
| OList (elems : list loc)
| OMessage (role : string) (content : option loc)
| OItem (item : ContentItem).

Abbreviation heap := (gmap loc obj).

(** The references an object holds. *)
Definition refs (o : obj) : list loc :=
  match o with
  | OList elems => elems
  | OMessage _ content => option_list content
  | OItem _ => []
  end.

Definition type_error {A} : M heap A := raise (Py.Exception "TypeError").

(** A new object lives at a location the store does not use yet. *)
Definition alloc (o : obj) : M heap loc :=
  fun h => let l := fresh (dom h) in (inr l, <[l := o]> h).

Definition read (l : loc) : M heap obj :=
  fun h =>
    match h !! l with
    | Some o => (inr o, h)
    | None => type_error h
    end.

Definition write (l : loc) (o : obj) : M heap unit :=
  fun h => (inr tt, <[l := o]> h).

Definition read_list (l : loc) : M heap (list loc) :=
  let* o := read l in
  match o with
  | OList elems => ret elems
  | _ => type_error
  end.

Definition read_message (l : loc) : M heap (string * option loc) :=
  let* o := read l in
  match o with
  | OMessage r c => ret (r, c)
  | _ => type_error
  end.

Definition read_item (l : loc) : M heap ContentItem :=
  let* o := read l in
  match o with
  | OItem it => ret it
  | _ => type_error
  end.

(** [l.append(x)], [l.insert(0, x)], [l.extend(other)]. *)
Definition list_append (l x : loc) : M heap unit :=
  let* elems := read_list l in
  write l (OList (elems ++ [x])).

Definition list_insert0 (l x : loc) : M heap unit :=
  let* elems := read_list l in
  write l (OList (x :: elems)).

Definition list_extend (l other : loc) : M heap unit :=
  let* xs := read_list other in
  let* elems := read_list l in
  write l (OList (elems ++ xs)).

(** [message['content'] = new_content]. *)
Definition set_content (l new_content : loc) : M heap unit :=
  let* rc := read_message l in
  write l (OMessage rc.1 (Some new_content)).

Fixpoint mapM {A B} (f : A -> M heap B) (xs : list A) : M heap (list B) :=
  match xs with
  | [] => ret []
  | x :: rest =>
      let* y := f x in
      let* ys := mapM f rest in
      ret (y :: ys)
  end.

(** The value of a message and of a message list held in the store. *)
Definition load_message (l : loc) : M heap Message :=
  let* rc := read_message l in
  match rc.2 with
  | None => ret {| role := rc.1; content := None |}
  | Some cl =>
      let* item_locs := read_list cl in
      let* items := mapM read_item item_locs in
      ret {| role := rc.1; content := Some items |}
  end.

Definition load_messages (l : loc) : M heap (list Message) :=
  let* message_locs := read_list l in
  mapM load_message message_locs.

(** [copy.deepcopy(x, memo)]: an object already copied is found in the
    memo; a list or a dict is created empty, recorded in the memo, then
    filled with the copies of what it holds. [fuel] is the depth the
    recursion may reach. *)
Fixpoint copy_elems (copy : loc -> gmap loc loc -> M heap (loc * gmap loc loc))
    (y : loc) (elems : list loc) (memo : gmap loc loc) : M heap (gmap loc loc) :=
  match elems with
  | [] => ret memo
  | a :: rest =>
      let* r := copy a memo in
      list_append y r.1 ;;
      copy_elems copy y rest r.2
  end.

Fixpoint deepcopy (fuel : nat) (x : loc) (memo : gmap loc loc)
    : M heap (loc * gmap loc loc) :=
  match memo !! x with
  | Some y => ret (y, memo)
  | None =>
      match fuel with
      | 0 => raise (Py.Exception "maximum recursion depth exceeded")
      | S fuel =>
          let* o := read x in
          match o with
          | OItem it =>
              let* y := alloc (OItem it) in
              ret (y, <[x := y]> memo)
          | OList elems =>
              let* y := alloc (OList []) in
              let* memo := copy_elems (deepcopy fuel) y elems (<[x := y]> memo) in
              ret (y, memo)
          | OMessage r c =>
              let* y := alloc (OMessage r None) in
              let memo := <[x := y]> memo in
              match c with
              | None => ret (y, memo)
              | Some cl =>
                  let* r := deepcopy fuel cl memo in
                  set_content y r.1 ;;
                  ret (y, r.2)
              end
          end
      end
  end.

Section Compaction.

(** The depth [copy.deepcopy] may recurse to. *)
Variable recursion_limit : nat.

Definition deepcopy_messages (messages : loc) : M heap loc :=
  let* r := deepcopy recursion_limit messages ∅ in
  ret r.1.

(** *** remove_media_except_last_turn *)

Fixpoint find_user_indices (rev_locs : list loc) (i : nat)
    (last_user_index second_last_user_index : option nat)
    : M heap (option nat * option nat) :=
  match rev_locs with
  | [] => ret (last_user_index, second_last_user_index)
  | msg :: rest =>
      let* rc := read_message msg in
      if String.eqb rc.1 "user" then
        match last_user_index with
        | None => find_user_indices rest (i - 1) (Some i) second_last_user_index
        | Some _ => ret (last_user_index, Some i)
        end
      else find_user_indices rest (i - 1) last_user_index second_last_user_index
  end.

Fixpoint strip_loop (item_locs : list loc) (new_content : loc) (removed_media : bool)
    : M heap bool :=
  match item_locs with
  | [] => ret removed_media
  | content_item :: rest =>
      let* it := read_item content_item in
      if has_text it then
        list_append new_content content_item ;;
        strip_loop rest new_content removed_media
      else if has_image it || has_json it then
        strip_loop rest new_content true
      else
        list_append new_content content_item ;;
        strip_loop rest new_content removed_media
  end.

Definition strip_message (message : loc) : M heap unit :=
  let* rc := read_message message in
  match rc.2 with
  | None => ret tt
  | Some cl =>
      let* item_locs := read_list cl in
      let* new_content := alloc (OList []) in
      let* removed_media := strip_loop item_locs new_content false in
      let* kept := read_list new_content in
      (if removed_media && bool_decide (kept = []) then
         let* placeholder := alloc (OItem media_placeholder) in
         list_append new_content placeholder
       else ret tt) ;;
      set_content message new_content
  end.

Fixpoint strip_all (message_locs : list loc) (i len : nat)
    (last_user_index : option nat) : M heap unit :=
  match message_locs with
  | [] => ret tt
  | message :: rest =>
      (if in_last_turn last_user_index len i then ret tt
       else strip_message message) ;;
      strip_all rest (i + 1) len last_user_index
  end.

Definition remove_media_except_last_turn (messages : loc) : M heap loc :=
  let* message_locs := read_list messages in
  if (length message_locs <? 2)%nat then ret messages
  else
    let* processed_messages := deepcopy_messages messages in
    let* processed_locs := read_list processed_messages in
    let len := length processed_locs in
    let* indices := find_user_indices (reverse processed_locs) (len - 1) None None in
    strip_all processed_locs 0 len indices.1 ;;
    ret processed_messages.

(** *** summarize_conversation *)

Fixpoint collect_last (rev_locs : list loc) (last_messages : loc)
    (message_count turn_count : nat) : M heap (nat * nat) :=
  match rev_locs with
  | [] => ret (message_count, turn_count)
  | msg :: rest =>
      list_insert0 last_messages msg ;;
      let message_count := message_count + 1 in
      let* rc := read_message msg in
      let* turn :=
        if String.eqb rc.1 "user" then
          match rest with
          | prev :: _ =>
              let* rp := read_message prev in
              ret (String.eqb rp.1 "assistant")
          | [] => ret false
          end
        else ret false in
      let turn_count := if turn then turn_count + 1 else turn_count in
      if (KEEP_LAST_TURNS <=? turn_count)%nat
      then ret (message_count, turn_count)
      else collect_last rest last_messages message_count turn_count
  end.

Fixpoint collect_tool_use (item_locs : list loc) (tool_use_content : loc) : M heap unit :=
  match item_locs with
  | [] => ret tt
  | content_item :: rest =>
      let* it := read_item content_item in
      (if has_toolUse it then list_append tool_use_content content_item else ret tt) ;;
      collect_tool_use rest tool_use_content
  end.

Definition summarize_conversation (messages : loc) (bedrock_client : BedrockClient)
    : M heap loc :=
  let* message_locs := read_list messages in
  if bool_decide (message_locs = [])
     || (length message_locs <=? KEEP_LAST_TURNS * 2 + 1)%nat
  then ret messages
  else
    let* processed_messages := deepcopy_messages messages in
    let* processed_locs := read_list processed_messages in
    match processed_locs with
    | [] => raise (Py.Exception "list index out of range")
    | first_message :: _ =>
        let* last_messages := alloc (OList []) in
        let* counts := collect_last (reverse processed_locs) last_messages 0 0 in
        let message_count := counts.1 in
        let* to_summarize :=
          alloc (OList (Py.slice 1 (length processed_locs - message_count)
                          processed_locs)) in
        let* to_summarize_locs := read_list to_summarize in
        if bool_decide (to_summarize_locs = []) then ret processed_messages
        else
          let* tool_use_content := alloc (OList []) in
          match last to_summarize_locs with
          | Some last_message_to_summarize =>
              let* rc := read_message last_message_to_summarize in
              if String.eqb rc.1 "assistant" then
                match rc.2 with
                | Some cl =>
                    let* item_locs := read_list cl in
                    collect_tool_use item_locs tool_use_content
                | None => ret tt
                end
              else ret tt
          | None => ret tt
          end ;;
          let* to_summarize_values := mapM load_message to_summarize_locs in
          try_except
            (let* summary_response :=
               lift_result (converse bedrock_client SUMMARY_MODEL_ID
                              (summary_request to_summarize_values)) in
             let summary_text := summary_text_from summary_response in
             let* summary_item :=
               alloc (OItem (text_item ("[CONVERSATION SUMMARY: " +:+ summary_text
                                        +:+ "]"))) in
             let* summary_content := alloc (OList [summary_item]) in
             let* requests := read_list tool_use_content in
             (if bool_decide (requests = []) then ret tt
              else list_extend summary_content tool_use_content) ;;
             let* summary_message :=
               alloc (OMessage "assistant" (Some summary_content)) in
             let* result := alloc (OList [first_message; summary_message]) in
             list_extend result last_messages ;;
             let* result_values := load_messages result in
             if bool_decide (tool_use_count result_values
                             ≠ tool_result_count result_values)
             then ret messages
             else ret result)
            (fun e => ret processed_messages)
    end.

End Compaction.

End Store.

(** ** src/Python/11-mcp-client.py: one pass of the loop of [run_client] *)

(** Conversation management before a request: media stripping, then
    summarization when the input tokens of the previous response exceed the
    threshold ([response.get('usage', {}).get('inputTokens', 0)]). *)
Definition run_client_manage_context (messages : list Message)
    (response : ConverseResponse) (bedrock_client : BedrockClient) : list Message :=
  let processed_messages := remove_media_except_last_turn messages in
  let input_tokens := default 0%Z (inputTokens response) in
  if (SUMMARIZATION_TOKEN_THRESHOLD <? input_tokens)%Z
  then summarize_conversation processed_messages bedrock_client
  else processed_messages.

Section RunClientStep.

Context {W : Type}.
Variable b64decode : string -> Py.exn + string.
Variable json_loads : string -> Py.exn + Py.value.
Variable str_value : Py.value -> string.
Variable session : ClientSession W.
Variable bedrock_client : BedrockClient.

(** The body of the [while] loop from its start to the next request: the
    tool turn is appended to [messages], and what is returned is the list
    passed as [messages=] to the next call of [converse]. [response] is the
    previous response and [output_message] its filtered message, the last
    element of [messages]. *)
Definition run_client_step (messages : list Message) (response : ConverseResponse)
    (output_message : Message) : M (ClientState W) (list Message) :=
  let* tool_result_message :=
    run_client_tool_turn b64decode json_loads str_value session output_message in
  let messages := messages ++ [tool_result_message] in
  ret (run_client_manage_context messages response bedrock_client).

End RunClientStep.

(** ** src/Python/11-mcp-client.py: [convert_to_bedrock_tools] *)

(** A tool as the MCP session lists it: [tool.description] may be [None];
    [hasattr(tool, 'inputSchema')] is tested, so the schema is optional. *)
Record Tool : Type := mkTool {
  tool_name : string;
  tool_description : option string;
  tool_inputSchema : option Py.value
}.

(** The dict under ['toolSpec'], with ['inputSchema']['json'] as
    [ts_json]. *)
Record ToolSpec : Type := mkToolSpec {
  ts_name : string;
  ts_description : string;
  ts_json : Py.value
}.

(** [del d[key]] and the value of [d] after [d[key] = v] for a key [d] has:
    the item keeps its place. A dict has each key once; [dict_del] drops
    every item with the key. *)
Fixpoint dict_del (key : string) (d : list (string * Py.value))
    : list (string * Py.value) :=
  match d with
  | [] => []
  | (k, v) :: d' =>
      if String.eqb k key then dict_del key d' else (k, v) :: dict_del key d'
  end.

Fixpoint dict_set (key : string) (v : Py.value) (d : list (string * Py.value))
    : list (string * Py.value) :=
  match d with
  | [] => [(key, v)]
  | (k, v0) :: d' =>
      if String.eqb k key then (k, v) :: d' else (k, v0) :: dict_set key v d'
  end.

(** The schema used when the tool has none. *)
Definition default_schema : Py.value :=
  Py.VDict [("type", Py.VStr "object"); ("properties", Py.VDict []);
            ("required", Py.VList [])].

(** The filter on the ['ctx'] parameter:
    [if json['properties'].get('ctx'): del json['properties']['ctx']].
    The deletion acts on the dict held under ['properties']; the value
    returned is the schema as it reads afterwards. *)
Definition filter_ctx (schema : Py.value) : Py.exn + Py.value :=
  match schema with
  | Py.VDict d =>
      match Py.dict_get "properties" d with
      | None => inl (Py.Exception "'properties'")
      | Some (Py.VDict properties) =>
          if Py.truthy (default Py.VNone (Py.dict_get "ctx" properties))
          then inr (Py.VDict (dict_set "properties"
                                (Py.VDict (dict_del "ctx" properties)) d))
          else inr schema
      | Some _ => inl (Py.Exception "object has no attribute 'get'")
      end
  | _ => inl (Py.Exception "object is not subscriptable")
  end.

(** [tool.description or f"Use the {name} tool"]. *)
Definition description_of (tool : Tool) : string :=
  match tool_description tool with
  | Some description =>
      if Py.truthy_str description then description
      else "Use the " +:+ tool_name tool +:+ " tool"
  | None => "Use the " +:+ tool_name tool +:+ " tool"
  end.

Fixpoint convert_loop (tools : list Tool) (bedrock_tools : list ToolSpec)
    : Py.exn + list ToolSpec :=
  match tools with
  | [] => inr bedrock_tools
  | tool :: rest =>
      let name := tool_name tool in
      let description := description_of tool in
      match filter_ctx (default default_schema (tool_inputSchema tool)) with
      | inr json =>
          convert_loop rest
            (bedrock_tools
             ++ [ {| ts_name := name; ts_description := description;
                     ts_json := json |} ])
      | inl e => inl e
      end
  end.

(** [mcp_tools.tools] is the argument. *)
Definition convert_to_bedrock_tools (mcp_tools : list Tool) : Py.exn + list ToolSpec :=
  convert_loop mcp_tools [].

(** ** src/11-mcp-server.py: the resources and the other tools *)

(** [os.path.exists], [open(path, 'r').read()] and [os.listdir]. *)
Record Files (W : Type) : Type := mkFiles {
  path_exists : string -> M W bool;
  read_text : string -> M W string;
  listdir : string -> M W (list string)
}.
Arguments path_exists {W} _ _.
Arguments read_text {W} _ _.
Arguments listdir {W} _ _.

(** What a resource function returns: an object of the class
    [ResourceContents] built with a text, or a [TextResourceContents]. *)
Inductive ArtifactContents : Type :=
| PlainContents (uri text mimeType : string)
| TextContents (uri text mimeType : string).

Definition artifact_uri (c : ArtifactContents) : string :=
  match c with
  | PlainContents uri _ _ => uri
  | TextContents uri _ _ => uri
  end.

Definition artifact_text (c : ArtifactContents) : string :=
  match c with
  | PlainContents _ text _ => text
  | TextContents _ text _ => text
  end.

Definition artifact_mimeType (c : ArtifactContents) : string :=
  match c with
  | PlainContents _ _ mimeType => mimeType
  | TextContents _ _ mimeType => mimeType
  end.

Section McpServerResources.

Context {W : Type}.
Variable SESSION_ID : string.
Variable page : Page W.
Variable files : Files W.

Definition get_artifact (session_id filename : string) : M W (list ArtifactContents) :=
  let uri := "artifact://" +:+ session_id +:+ "/" +:+ filename in
  try_except
    (let file_path := "artefacts/" +:+ session_id +:+ "/" +:+ filename in
     let* found := path_exists files file_path in
     if negb found then
       ret [PlainContents uri ("Error: Artifact not found: " +:+ filename) "text/plain"]
     else
       let* content := read_text files file_path in
       let mime_type := mime_type_of filename in
       ret [TextContents uri content mime_type])
    (fun e => ret [TextContents uri ("Error: " +:+ Py.str_exn e) "text/plain"]).

(** The loop [for file in files: artifact_list.append(...)]. *)
Fixpoint artifact_lines (file_names artifact_list : list string) : list string :=
  match file_names with
  | [] => artifact_list
  | file :: rest =>
      artifact_lines rest
        (artifact_list
         ++ ["- " +:+ file +:+ ": artifact://" +:+ SESSION_ID +:+ "/" +:+ file])
  end.

Definition list_artifacts : M W (list ArtifactContents) :=
  try_except
    (let artifacts_dir := "artefacts/" +:+ SESSION_ID in
     let* found := path_exists files artifacts_dir in
     if negb found then
       ret [PlainContents "artifact://list" "No artifacts found for this session"
              "text/plain"]
     else
       let* file_names := listdir files artifacts_dir in
       let artifact_list := artifact_lines file_names ["Available artifacts:"] in
       ret [PlainContents "artifact://list" (String.concat nl artifact_list)
              "text/plain"])
    (fun e =>
       ret [PlainContents "artifact://list"
              ("Error listing artifacts: " +:+ Py.str_exn e) "text/plain"]).

(** The tool [type]. *)
Definition type (text : string) (submit : bool) : M W Py.value :=
  try_except
    (keyboard_type page (Py.VStr text) ;;
     if submit then
       keyboard_press page "Enter" ;;
       ret (Py.VDict [("typed", Py.VBool true); ("text", Py.VStr text);
                      ("submitted", Py.VBool true)])
     else
       ret (Py.VDict [("typed", Py.VBool true); ("text", Py.VStr text);
                      ("submitted", Py.VBool false)]))
    (fun e =>
       ret (Py.VDict [("typed", Py.VBool false);
                      ("error", Py.VStr (Py.str_exn e))])).

(** The tool [get_page_info] returns a string. *)
Definition get_page_info : M W string :=
  try_except
    (let* t := title page in
     let* u := url page in
     ret ("Current page: Title: '" +:+ t +:+ "', URL: '" +:+ u +:+ "'"))
    (fun e => ret ("Error getting page info: " +:+ Py.str_exn e)).

End McpServerResources.

(** ** The tool loops of the earlier scripts *)

(** The parsing of [tool.get('input', {})], the same in every script. *)
Definition parse_tool_input (json_loads : string -> Py.exn + Py.value) (tool : ToolUse)
    : Py.exn + Py.value :=
  match default (Py.VDict []) (tu_input tool) with
  | Py.VStr s => json_loads s
  | tool_input => inr tool_input
  end.

(** *** src/Python/03-loop.py: no tool is run *)

Module Loop.
Section Loop.

Variable json_loads : string -> Py.exn + Py.value.

Fixpoint dispatch_tool_uses (items tool_content : list ContentItem)
    : Py.exn + list ContentItem :=
  match items with
  | [] => inr tool_content
  | content :: rest =>
      match toolUse content with
      | Some tool =>
          let tool_id := tu_toolUseId tool in
          match parse_tool_input json_loads tool with
          | inr tool_input =>
              let result := Py.VDict [("tool_executed", Py.VBool true)] in
              dispatch_tool_uses rest
                (tool_content ++ [TypeScrollTools.json_result tool_id result])
          | inl e => inl e
          end
      | None => dispatch_tool_uses rest tool_content
      end
  end.

Definition run_example_tool_turn (output_message : Message) : Py.exn + Message :=
  match dispatch_tool_uses (get_content output_message) [] with
  | inr tool_content => inr {| role := "user"; content := Some tool_content |}
  | inl e => inl e
  end.

End Loop.
End Loop.

(** *** src/04-invoke-tool.py: two stand-in tools *)

Module InvokeTool.
Section InvokeTool.

Context {W : Type}.
Variable json_loads : string -> Py.exn + Py.value.
Variable os : Os W.

Definition navigate (url : Py.value) : M W Py.value :=
  ret (Py.VDict [("title", Py.VStr "fake title")]).

Definition take_screenshot : M W Py.value :=
  let* u := uuid4 os in
  let filename := "screenshot_" +:+ u +:+ ".png" in
  ret (Py.VDict [("filename", Py.VStr filename)]).

Fixpoint dispatch_tool_uses (items tool_content : list ContentItem)
    : M W (list ContentItem) :=
  match items with
  | [] => ret tool_content
  | content :: rest =>
      match toolUse content with
      | Some tool =>
          let tool_name := tu_name tool in
          let tool_id := tu_toolUseId tool in
          let* tool_input := lift_result (parse_tool_input json_loads tool) in
          let* result :=
            if String.eqb tool_name "navigate" then
              let* url :=
                TypeScrollTools.input_get tool_input "url"
                  (Py.VStr "https://aws.amazon.com") in
              navigate url
            else if String.eqb tool_name "screenshot" then take_screenshot
            else ret (Py.VDict []) in
          dispatch_tool_uses rest
            (tool_content ++ [TypeScrollTools.json_result tool_id result])
      | None => dispatch_tool_uses rest tool_content
      end
  end.

Definition run_example_tool_turn (output_message : Message) : M W Message :=
  let* tool_content := dispatch_tool_uses (get_content output_message) [] in
  ret {| role := "user"; content := Some tool_content |}.

End InvokeTool.
End InvokeTool.

(** *** src/Python/06-human-in-loop.py: navigate, screenshot and ask_user *)

Module HumanInLoop.
Section HumanInLoop.

Context {W : Type}.
Variable SESSION_ID : string.
Variable json_loads : string -> Py.exn + Py.value.
Variable page : Page W.
Variable os : Os W.

Definition BLUE : string := String (ascii_of_nat 27) "[34m".
Definition RESET : string := String (ascii_of_nat 27) "[0m".

Definition navigate (url : Py.value) : M W Py.value :=
  goto page url ;;
  let* t := title page in
  ret (Py.VDict [("title", Py.VStr t)]).

Definition take_screenshot : M W Py.value :=
  let* u := uuid4 os in
  let filename := "screenshot/" +:+ SESSION_ID +:+ "/screenshot_" +:+ u +:+ ".png" in
  screenshot page filename ;;
  ret (Py.VDict [("filename", Py.VStr filename)]).

Definition ask_user (question : Py.value) : M W Py.value :=
  let* user_response := input os (BLUE +:+ "Your answer: " +:+ RESET) in
  ret (Py.VDict [("response", Py.VStr user_response)]).

Definition get_page_info : M W (string * string) :=
  try_except
    (let* t := title page in
     let* u := url page in
     ret (t, u))
    (fun e => ret ("Unknown", "Unknown")).

Fixpoint dispatch_tool_uses (items tool_content : list ContentItem)
    : M W (list ContentItem) :=
  match items with
  | [] => ret tool_content
  | content :: rest =>
      match toolUse content with
      | Some tool =>
          let tool_name := tu_name tool in
          let tool_id := tu_toolUseId tool in
          let* tool_input := lift_result (parse_tool_input json_loads tool) in
          let* result :=
            if String.eqb tool_name "navigate" then
              let* url :=
                TypeScrollTools.input_get tool_input "url"
                  (Py.VStr "https://aws.amazon.com") in
              navigate url
            else if String.eqb tool_name "screenshot" then take_screenshot
            else if String.eqb tool_name "ask_user" then
              let* question :=
                TypeScrollTools.input_get tool_input "question"
                  (Py.VStr "What would you like to do next?") in
              ask_user question
            else ret (Py.VDict []) in
          dispatch_tool_uses rest
            (tool_content ++ [TypeScrollTools.json_result tool_id result])
      | None => dispatch_tool_uses rest tool_content
      end
  end.

Definition run_example_tool_turn (output_message : Message) : M W Message :=
  let* tool_content := dispatch_tool_uses (get_content output_message) [] in
  let* page_info := get_page_info in
  let browser_content :=
    text_item ("Current page: Title: '" +:+ page_info.1 +:+ "', URL: '"
               +:+ page_info.2 +:+ "'") in
  let tool_content := tool_content ++ [browser_content] in
  ret {| role := "user"; content := Some tool_content |}.

End HumanInLoop.
End HumanInLoop.

(* ===================================================================== *)
(** * Specification vocabulary and sample data *)
(* ===================================================================== *)

(** ** Predicates the properties are stated with *)

(** Every character of [s] is white space (the empty string included). *)
Fixpoint all_whitespace (s : string) : bool :=
  match s with
  | EmptyString => true
  | String c s' => Py.isspace c && all_whitespace s'
  end.

(** An item that has a text key whose string is empty or all white space. *)
Definition blank_text (it : ContentItem) : bool :=
  match text it with
  | Some s => all_whitespace s
  | None => false
  end.

(** The filter as the claim words it: the items dropped are those whose
    text is the empty string. *)
Definition is_empty_text (it : ContentItem) : bool :=
  match text it with
  | Some s => String.eqb s ""
  | None => false
  end.

Definition spec_filter_empty_text (message : Message) : list ContentItem :=
  List.filter (fun it => negb (is_empty_text it)) (get_content message).

(** An item the inner loop drops: no text key, and an image or json key. *)
Definition carries_media (it : ContentItem) : bool :=
  negb (has_text it) && (has_image it || has_json it).

(** The number of places in [l] where a user message directly follows an
    assistant message: what the collecting loop counts as a turn. *)
Fixpoint turn_pairs (l : list Message) : nat :=
  match l with
  | a :: (b :: _) as t =>
      (if is_assistant a && is_user b then 1 else 0) + turn_pairs t
  | _ => 0
  end.

(** The tool-pairing invariant: as many toolUse items in assistant turns as
    toolResult items in user turns (the counters of the final check). *)
Definition tool_pairing (messages : list Message) : Prop :=
  tool_use_count messages = tool_result_count messages.

(** The candidate result for a transcript and a response of the model. *)
Definition candidate_result (messages : list Message) (resp : ConverseResponse)
    : list Message :=
  match messages with
  | first_message :: _ =>
      summarized_result first_message resp
        (tool_use_content_of (to_summarize_of messages)) (last_messages_of messages)
  | [] => []
  end.

(** The shape of the result as C5 words it: the first message, a summary
    turn of the assistant, then the last [K] complete user/assistant pairs
    verbatim, that is a tail of [2 * K] messages that ends the transcript. *)
Definition spec_summarized_shape (K : nat) (messages result : list Message) : Prop :=
  exists first_message summary_message tail,
    head messages = Some first_message
    /\ role summary_message = "assistant"
    /\ tail `suffix_of` messages
    /\ length tail = 2 * K
    /\ result = first_message :: summary_message :: tail.

(** The content of a tool result that reports the exception [e]. *)
Definition error_content (e : Py.exn) : list ToolResultContent :=
  [TRJson (Py.VDict [("error", Py.VStr (Py.str_exn e))])].

(** The content of the result for a tool that answered with texts: one
    structured item [{text: t}] per text. *)
Definition text_content (texts : list string) : list ToolResultContent :=
  (fun t => TRJson (Py.VDict [("text", Py.VStr t)])) <$> texts.

(** A result item answers a request when it is a toolResult carrying the
    id of the request. *)
Definition answers (tool : ToolUse) (result_content : ContentItem) : Prop :=
  exists bedrock_content,
    result_content
    = toolResult_item
        {| tr_toolUseId := tu_toolUseId tool; tr_content := bedrock_content |}.

(** What [scroll] returns for a direction it does not know. *)
Definition invalid_direction (direction : string) : Py.value :=
  Py.VDict [("scrolled", Py.VBool false);
            ("error", Py.VStr ("Invalid direction: " +:+ direction))].

(** The names the [if]/[elif] chain of [run_example] has a branch for. *)
Definition known_tools : list string :=
  ["navigate"; "screenshot"; "click"; "scroll"; "type"; "ask_user"].

Section PageVocabulary.

Context {W : Type}.
Variable page : Page W.

(** The page evaluates scripts without raising in the world [w]. *)
Definition evaluates (w : W) : Prop :=
  forall script, exists w', evaluate page script w = (inr tt, w').

(** What [scroll] does on a direction that lower-cases to "down" or "up":
    it runs one script on the page; it returns the scrolled result when the
    page returns and raises what the page raises. *)
Definition scrolls_or_propagates (run : M W Py.value) (result : Py.value) (w : W)
    : Prop :=
  exists script,
    run w = match evaluate page script w with
            | (inr _, w') => (inr result, w')
            | (inl e, w') => (inl e, w')
            end.

End PageVocabulary.

(** ** Sample transcripts, clients, sessions, pages *)


(** A transcript with an image turn and an empty turn. *)
Definition media_transcript : list Message :=
  [ {| role := "user"; content := Some [image_item (mkImage "png" "...")] |};
    {| role := "assistant"; content := Some [] |};
    {| role := "user"; content := Some [text_item "Current page: x"] |} ].

(** A transcript with an image turn. *)
Definition image_transcript : list Message :=
  [ {| role := "user"; content := Some [image_item (mkImage "png" "...")] |};
    {| role := "assistant"; content := Some [text_item "I see a shop."] |};
    {| role := "user"; content := Some [text_item "Current page: x"] |} ].

(** A transcript of seven alternating turns with three answered tool
    requests, and a summarization model that answers with one text item. *)
Definition tool_request (id name : string) : ContentItem :=
  toolUse_item (mkToolUse (Some id) name (Some (Py.VDict []))).
Definition tool_answer (id : string) : ContentItem :=
  toolResult_item (mkToolResult (Some id) [TRJson (Py.VDict [("text", Py.VStr "ok")])]).

Definition seven_turns : list Message :=
  [ {| role := "user"; content := Some [text_item "Search the price"] |};
    {| role := "assistant";
       content := Some [text_item "I will open the shop."; tool_request "t1" "navigate"] |};
    {| role := "user"; content := Some [tool_answer "t1"; text_item "Current page: shop"] |};
    {| role := "assistant"; content := Some [tool_request "t2" "screenshot"] |};
    {| role := "user"; content := Some [tool_answer "t2"; text_item "Current page: shop"] |};
    {| role := "assistant"; content := Some [tool_request "t3" "click"] |};
    {| role := "user"; content := Some [tool_answer "t3"; text_item "Current page: item"] |} ].

Definition answering_client (summary : string) : BedrockClient :=
  {| converse := fun _ _ =>
       inr {| output_message :=
                Some {| role := "assistant"; content := Some [text_item summary] |};
              stopReason := Some "end_turn";
              inputTokens := Some 120%Z |} |}.

Definition failing_client : BedrockClient :=
  {| converse := fun _ _ => inl (Py.Exception "ThrottlingException") |}.

(** A session that knows one tool and raises on every other name. *)
Definition one_tool_session : ClientSession unit :=
  {| call_tool := fun tool_name _ =>
       if String.eqb tool_name "get_page_info"
       then ret {| ctr_content :=
                     [TextContent "Current page: Title: 'Shop', URL: 'https://x'"];
                   isError := false |}
       else raise (Py.Exception ("Unknown tool: " +:+ tool_name)) |}.

(** A session that reports a tool it does not know by the result it
    returns: the result is flagged [isError] and its text is the message. *)
Definition reporting_session : ClientSession unit :=
  {| call_tool := fun tool_name _ =>
       if String.eqb tool_name "get_page_info"
       then ret {| ctr_content :=
                     [TextContent "Current page: Title: 'Shop', URL: 'https://x'"];
                   isError := false |}
       else ret {| ctr_content := [TextContent ("Unknown tool: " +:+ tool_name)];
                   isError := true |} |}.

(** A session whose connection is closed: every call raises. *)
Definition closed_session : ClientSession unit :=
  {| call_tool := fun _ _ => raise (Py.Exception "Connection closed") |}.

(** Stands for [base64.b64decode] where the data is not looked at. *)
Definition b64decode_ok (s : string) : Py.exn + string := inr s.

(** Stands for [json.loads] where no input is a string. *)
Definition json_loads_none (s : string) : Py.exn + Py.value :=
  inl (Py.Exception "Expecting value").

(** Stands for [str] of a JSON value where only ints and strs are printed. *)
Definition str_value_int (v : Py.value) : string :=
  match v with
  | Py.VInt z => Py.str_int z
  | Py.VStr s => s
  | _ => "?"
  end.

(** A page that answers every call and records the scripts it is asked to
    run. *)
Definition recording_page : Page (list string) :=
  {| goto := fun _ => ret tt;
     title := ret "Shop";
     url := ret "https://x";
     screenshot := fun _ => ret tt;
     mouse_click := fun _ _ => ret tt;
     evaluate := fun script w => (inr tt, w ++ [script]);
     keyboard_type := fun _ => ret tt;
     keyboard_press := fun _ => ret tt |}.

(** An operating system for the world of [recording_page]: fixed answers,
    no files kept. *)
Definition quiet_os : Os (list string) :=
  {| uuid4 := ret "0b1f";
     write_text := fun _ _ => ret tt;
     read_bytes := fun _ => ret "";
     input := fun _ => ret "yes" |}.

(** An operating system that keeps the files written and refuses to open a
    path that names a directory. *)
Definition directory_os : Os (list (string * string)) :=
  {| uuid4 := ret "0b1f";
     write_text := fun path data w =>
       if Py.endswith path "/"
       then (inl (Py.Exception ("[Errno 21] Is a directory: '" +:+ path +:+ "'")), w)
       else (inr tt, w ++ [(path, data)]);
     read_bytes := fun _ => ret "";
     input := fun _ => ret "" |}.

(** A session whose write_file tool is the function of the server, run on
    [directory_os]. *)
Definition write_file_session : ClientSession (list (string * string)) :=
  {| call_tool := fun tool_name tool_input w =>
       match tool_name, tool_input with
       | "write_file", Py.VDict d =>
           match Py.dict_get "filename" d, Py.dict_get "content" d with
           | Some (Py.VStr filename), Some (Py.VStr data) =>
               match write_file "s1" directory_os filename data w with
               | (inr (OutContent c), w') =>
                   (inr {| ctr_content := [c]; isError := false |}, w')
               | (inr (OutValue v), w') =>
                   (inr {| ctr_content := [TextContent "{...}"]; isError := false |}, w')
               | (inl e, w') => (inl e, w')
               end
           | _, _ => (inl (Py.Exception "validation error"), w)
           end
       | _, _ => (inl (Py.Exception "Unknown tool"), w)
       end |}.

(** A request for a tool that 08-type-scroll-tools.py has no branch for. *)
Definition write_file_request : ToolUse :=
  mkToolUse (Some "t7") "write_file"
    (Some (Py.VDict [("filename", Py.VStr "r.md"); ("content", Py.VStr "# Title")])).

(** ** The object store: layouts, the invariant of a run, readers *)

Module StoreSpec.

(** The functions on values, under names that stay in reach once the
    functions on the store are imported. *)
Abbreviation remove_media_value := remove_media_except_last_turn (only parsing).
Abbreviation summarize_value := summarize_conversation (only parsing).

Import Store.

(** Laying a transcript out in the store: one object per content item, per
    content list and per message, and one for the list. *)
Definition store_message (m : Message) : M heap loc :=
  match content m with
  | None => alloc (OMessage (role m) None)
  | Some items =>
      let* item_locs := mapM (fun it => alloc (OItem it)) items in
      let* cl := alloc (OList item_locs) in
      alloc (OMessage (role m) (Some cl))
  end.

Definition store_messages (messages : list Message) : M heap loc :=
  let* message_locs := mapM store_message messages in
  alloc (OList message_locs).

(** Run [f] on the stored transcript and load what it returns, together
    with the transcript as it is found afterwards at the old place. *)
Definition run_on (messages : list Message) (f : loc -> M heap loc)
    : Py.exn + (list Message * list Message) :=
  fst ((let* l := store_messages messages in
        let* r := f l in
        let* result := load_messages r in
        let* input_after := load_messages l in
        ret (result, input_after)) ∅).

(** [image_transcript] and [seven_turns] laid out in the empty store. *)
Definition image_store : heap := (store_messages image_transcript ∅).2.
Definition image_messages : loc :=
  match (store_messages image_transcript ∅).1 with
  | inr l => l
  | inl _ => 1%positive
  end.

Definition seven_store : heap := (store_messages seven_turns ∅).2.
Definition seven_messages : loc :=
  match (store_messages seven_turns ∅).1 with
  | inr l => l
  | inl _ => 1%positive
  end.

(** A computation that only reads: it leaves the store as it is and
    returns the same from a larger store. *)
Definition reader {A} (m : M heap A) : Prop :=
  forall h h' a h1,
    h ⊆ h' -> m h = (inr a, h1) -> h1 = h /\ m h' = (inr a, h').

(** [h0] is the store at the call. An object is new when [h0] has nothing
    at its location. The invariant of a run: every object of [h0] is still
    there, unchanged, and a new object refers to new objects only. *)

Section Invariant.

Variable h0 : heap.

Definition new (l : loc) : Prop := h0 !! l = None.

Definition inv (h : heap) : Prop :=
  h0 ⊆ h /\ forall y o, new y -> h !! y = Some o -> Forall new (refs o).

(** [safe m Q]: from a store that satisfies the invariant, [m] leaves a
    store that satisfies it, and a value that satisfies [Q] when it
    returns. *)
Definition safe {A} (m : M heap A) (Q : A -> Prop) : Prop :=
  forall h, inv h ->
    inv (m h).2 /\ match (m h).1 with inr a => Q a | inl _ => True end.

(** The copies a memo records are new objects. *)
Definition memo_new (memo : gmap loc loc) : Prop :=
  forall x y, memo !! x = Some y -> new y.

End Invariant.

End StoreSpec.

(** ** Vocabulary of the further properties *)

(** What a message counts for in the final check of
    [summarize_conversation]: the toolUse items of an assistant message, the
    toolResult items of a user message. *)
Definition uses_of (m : Message) : nat :=
  if is_assistant m then length (List.filter has_toolUse (get_content m)) else 0.

Definition results_of (m : Message) : nat :=
  if is_user m then length (List.filter has_toolResult (get_content m)) else 0.

(** No item of the message that media stripping drops is a tool request or
    a tool result. *)
Definition media_apart (m : Message) : Prop :=
  Forall (fun it => carries_media it = true ->
                    has_toolUse it = false /\ has_toolResult it = false)
         (get_content m).

(** No user message in [l]. *)
Definition no_user (l : list Message) : Prop :=
  Forall (fun m => is_user m = false) l.

(** The uris of the embedded resources of a tool result, in order. *)
Definition resource_uris (items : list McpContent) : list string :=
  omap (fun c => match c with
                 | EmbeddedResource resource => Some (resource_uri resource)
                 | _ => None
                 end) items.

(** What one item of a tool result becomes in the content of the
    toolResult, when its image data decodes. *)
Definition converted (b64decode : string -> Py.exn + string) (c : McpContent)
    : list ToolResultContent :=
  match c with
  | ImageContent data _ =>
      match b64decode data with
      | inr image_data =>
          [TRJson (Py.VDict [("filename", Py.VStr "screenshot.jpeg")]);
           TRImage (mkImage "jpeg" image_data)]
      | inl _ => []
      end
  | TextContent text => [TRJson (Py.VDict [("text", Py.VStr text)])]
  | EmbeddedResource resource =>
      TRJson (Py.VDict [("resource", Py.VStr (resource_uri resource))])
      :: match resource with
         | TextResourceContents _ _ text =>
             [TRJson (Py.VDict [("resource", Py.VStr text)])]
         | BlobResourceContents _ _ _ => []
         end
  | OtherContent _ => []
  end.

(** The image data of the item decodes. *)
Definition decodes (b64decode : string -> Py.exn + string) (c : McpContent) : Prop :=
  match c with
  | ImageContent data _ => exists image_data, b64decode data = inr image_data
  | _ => True
  end.

(** The string inputs of the tool requests parse. *)
Definition inputs_parse (json_loads : string -> Py.exn + Py.value)
    (items : list ContentItem) : Prop :=
  Forall (fun content =>
            forall tool s,
              toolUse content = Some tool -> tu_input tool = Some (Py.VStr s) ->
              exists v, json_loads s = inr v) items.

(** The schema of the tool is a dict that holds a dict under
    ['properties']. *)
Definition schema_ok (tool : Tool) : Prop :=
  exists d properties,
    default default_schema (tool_inputSchema tool) = Py.VDict d
    /\ Py.dict_get "properties" d = Some (Py.VDict properties).

(** [json['properties'].get('ctx')] is not truthy. *)
Definition no_ctx (json : Py.value) : Prop :=
  exists d properties,
    json = Py.VDict d
    /\ Py.dict_get "properties" d = Some (Py.VDict properties)
    /\ Py.truthy (default Py.VNone (Py.dict_get "ctx" properties)) = false.

(** The tool request has one of the names the chain of [run_example] of
    08-type-scroll-tools.py has a branch for. *)
Definition known (tool : ToolUse) : bool := bool_decide (tu_name tool ∈ known_tools).

(** A computation of the client that never removes a tracked artifact:
    whether it returns or raises, the list it leaves starts with the list
    it found. *)
Definition grows {W A : Type} (m : M (ClientState W) A) : Prop :=
  forall st, artifact_uris st `prefix_of` artifact_uris (m st).2.

(** [json] is [schema] up to the ['ctx'] property: both are dicts with the
    same items but ['properties'], and their properties agree on every key
    but ['ctx']. *)
Definition same_but_ctx (schema json : Py.value) : Prop :=
  exists d properties d' properties',
    schema = Py.VDict d /\ json = Py.VDict d'
    /\ Py.dict_get "properties" d = Some (Py.VDict properties)
    /\ Py.dict_get "properties" d' = Some (Py.VDict properties')
    /\ (forall key, key <> "ctx" ->
          Py.dict_get key properties' = Py.dict_get key properties)
    /\ (forall key, key <> "properties" -> Py.dict_get key d' = Py.dict_get key d).

(** The item with its payloads blanked: its keys stay, and so do its text
    and the name of the tool it requests. *)
Definition redact (it : ContentItem) : ContentItem :=
  {| text := text it;
     image := (fun _ => mkImage "" "") <$> image it;
     json := (fun _ => Py.VNone) <$> json it;
     toolUse := (fun tool => mkToolUse None (tu_name tool) None) <$> toolUse it;
     toolResult := (fun _ => mkToolResult None []) <$> toolResult it;
     other_keys := [] |}.

Definition redact_message (m : Message) : Message :=
  {| role := role m;
     content := (fun items : list ContentItem => redact <$> items) <$> content m |}.

(** ** Further sample data *)

(** An assistant turn that requests a tool no server knows, the response
    that carried it, and the user turn [run_client] builds for it over
    [one_tool_session]. *)
Definition frobnicate_turn : Message :=
  {| role := "assistant";
     content := Some [toolUse_item (mkToolUse (Some "t7") "frobnicate" None)] |}.

Definition frobnicate_response : ConverseResponse :=
  {| output_message := Some frobnicate_turn;
     stopReason := Some "tool_use";
     inputTokens := Some 120%Z |}.

Definition frobnicate_answer : Message :=
  {| role := "user";
     content :=
       Some [toolResult_item
               {| tr_toolUseId := Some "t7";
                  tr_content :=
                    [TRJson (Py.VDict [("error", Py.VStr "Unknown tool: frobnicate")])] |};
             text_item "Current page: Current page: Title: 'Shop', URL: 'https://x'"] |}.

Definition first_prompt : Message :=
  {| role := "user"; content := Some [text_item "Search the price"] |}.

(** A transcript with media before the last user message: a prompt that
    comes with an image, and a user turn that holds a json item beside the
    tool result. *)
Definition media_turns : list Message :=
  [ {| role := "user";
       content := Some [image_item (mkImage "png" "...");
                         text_item "What does this page sell?"] |};
    {| role := "assistant"; content := Some [tool_request "t1" "navigate"] |};
    {| role := "user";
       content := Some [tool_answer "t1";
                         json_item (Py.VDict [("title", Py.VStr "Shop")])] |};
    {| role := "assistant"; content := Some [text_item "It sells shoes."] |};
    {| role := "user"; content := Some [text_item "Thanks"] |} ].

(** A page that records what is typed and the keys that are pressed. *)
Definition typing_page : Page (list string) :=
  {| goto := fun _ => ret tt;
     title := ret "Shop";
     url := ret "https://x";
     screenshot := fun _ => ret tt;
     mouse_click := fun _ _ => ret tt;
     evaluate := fun _ => ret tt;
     keyboard_type := fun text w =>
       (inr tt, w ++ [match text with Py.VStr s => s | _ => "?" end]);
     keyboard_press := fun key w => (inr tt, w ++ [key]) |}.

(** A session whose get_page_info tool answers with no content. *)
Definition silent_session : ClientSession unit :=
  {| call_tool := fun _ _ => ret {| ctr_content := []; isError := false |} |}.

(** Two tools as a server lists them: one with a ['ctx'] parameter in its
    schema, one without description and schema. *)
Definition navigate_schema : Py.value :=
  Py.VDict [("type", Py.VStr "object");
            ("properties",
             Py.VDict [("url", Py.VDict [("type", Py.VStr "string")]);
                       ("ctx", Py.VDict [("title", Py.VStr "Ctx")])]);
            ("required", Py.VList [Py.VStr "url"; Py.VStr "ctx"])].

Definition sample_tools : list Tool :=
  [ {| tool_name := "navigate";
       tool_description := Some "Navigate to a specified URL";
       tool_inputSchema := Some navigate_schema |};
    {| tool_name := "screenshot"; tool_description := None;
       tool_inputSchema := None |} ].

(** A tool whose schema has no ['properties']. *)
Definition bare_tool : Tool :=
  {| tool_name := "ping"; tool_description := Some "";
     tool_inputSchema := Some (Py.VDict [("type", Py.VStr "object")]) |}.

(** A page whose keyboard raises. *)
Definition locked_page : Page (list string) :=
  {| goto := fun _ => ret tt;
     title := raise (Py.Exception "Target closed");
     url := ret "https://x";
     screenshot := fun _ => ret tt;
     mouse_click := fun _ _ => ret tt;
     evaluate := fun _ => ret tt;
     keyboard_type := fun _ => raise (Py.Exception "Target closed");
     keyboard_press := fun key w => (inr tt, w ++ [key]) |}.

(** The files [directory_os] keeps, read back: a path exists when a file
    was written at it or below it; a file reads as what was written last. *)
Definition directory_files : Files (list (string * string)) :=
  {| path_exists := fun path w =>
       (inr (existsb (fun f => String.eqb f.1 path
                               || String.prefix (path +:+ "/") f.1) w), w);
     read_text := fun path w =>
       match List.find (fun f => String.eqb f.1 path) (reverse w) with
       | Some f => (inr f.2, w)
       | None => (inl (Py.Exception ("[Errno 2] No such file or directory: '"
                                     +:+ path +:+ "'")), w)
       end;
     listdir := fun path w =>
       (inr (omap (fun f =>
                     if String.prefix (path +:+ "/") f.1
                     then Some (String.substring (String.length path + 1)
                                  (String.length f.1 - String.length path - 1) f.1)
                     else None) w), w) |}.

(** ** The object store as a resource

    A separation logic over the store: an object is owned, in whole or in
    part, by the assertion that describes it, so that a list, its messages,
    their content lists and their items are known to be different objects.
    [wp m Φ] says that the computation [m] returns, without raising, a
    value that satisfies [Φ]. *)

Module StoreLogic.

Import iris.proofmode.proofmode iris.base_logic.lib.gen_heap.

(** The functions on values, under names that stay in reach once the
    functions on the store are imported. *)
Abbreviation find_user_indices_value := find_user_indices (only parsing).
Abbreviation strip_loop_value := strip_loop (only parsing).
Abbreviation strip_message_value := strip_message (only parsing).
Abbreviation collect_last_value := collect_last (only parsing).

Import Store.

(** The places of the items that satisfy [p]. *)
Fixpoint filter_locs (p : ContentItem -> bool) (locs : list loc)
    (items : list ContentItem) : list loc :=
  match locs, items with
  | l :: locs, it :: items =>
      if p it then l :: filter_locs p locs items else filter_locs p locs items
  | _, _ => []
  end.

Section Logic.

Context `{!gen_heapGS loc obj Σ}.

Local Notation "l ↦{# q } o" := (pointsto l (DfracOwn q) o)
  (at level 20, q at level 50, format "l  ↦{# q }  o") : bi_scope.
Local Notation "l ↦ o" := (pointsto l (DfracOwn 1) o)
  (at level 20, format "l  ↦  o") : bi_scope.

Definition wp {A} (m : M heap A) (Φ : A -> iProp Σ) : iProp Σ :=
  ∀ σ, gen_heap_interp σ ==∗
       ∃ a σ', ⌜m σ = (inr a, σ')⌝ ∗ gen_heap_interp σ' ∗ Φ a.

(** The part [q] of an item, of a message with its content list and items,
    and of a list of messages, holding given values. *)
Definition is_item (q : Qp) (l : loc) (it : ContentItem) : iProp Σ :=
  l ↦{#q} OItem it.

(** A list object whose elements are described by [P]. *)
Definition is_list {V} (P : Qp -> loc -> V -> iProp Σ) (q : Qp) (l : loc)
    (vals : list V) : iProp Σ :=
  ∃ locs, l ↦{#q} OList locs ∗ [∗ list] a;v ∈ locs;vals, P q a v.

Definition is_content (q : Qp) (c : option loc) (items : option (list ContentItem))
    : iProp Σ :=
  match c, items with
  | None, None => True
  | Some cl, Some items => is_list is_item q cl items
  | _, _ => False
  end.

Definition is_message (q : Qp) (l : loc) (m : Message) : iProp Σ :=
  ∃ c, l ↦{#q} OMessage (role m) c ∗ is_content q c (content m).

Definition is_messages (q : Qp) (l : loc) (messages : list Message) : iProp Σ :=
  is_list is_message q l messages.

(** The originals a memo records have been visited: half of each is kept
    with the memo. *)
Definition visited (memo : gmap loc loc) : iProp Σ :=
  [∗ map] x ↦ _ ∈ memo, ∃ o, x ↦{#1/2} o.

(** [copy] copies what [P] describes: from the whole of an original that
    has not been visited it returns a new object of the same value, and
    keeps half of the original with the memo. *)
Definition copies {V} (P : Qp -> loc -> V -> iProp Σ)
    (copy : loc -> gmap loc loc -> M heap (loc * gmap loc loc)) : Prop :=
  forall a v memo Ψ,
    P 1%Qp a v -∗ visited memo
    -∗ (∀ b memo', P (1/2)%Qp a v -∗ P 1%Qp b v -∗ visited memo' -∗ Ψ (b, memo'))
    -∗ wp (copy a memo) Ψ.

End Logic.

End StoreLogic.

(* ===================================================================== *)
(** * Properties *)
(* ===================================================================== *)

(** ** Strings *)

Lemma lstrip_empty s : Py.lstrip s = "" <-> all_whitespace s = true.
Proof.
  induction s as [|c s IH]; simpl; [done|].
  destruct (Py.isspace c); simpl; [done|]. split; discriminate.
Qed.

Lemma lstrip_head s c r : Py.lstrip s = String c r -> Py.isspace c = false.
Proof.
  induction s as [|c' s IH]; simpl; [discriminate|].
  destruct (Py.isspace c') eqn:E; [done|]. intros [= <- _]. done.
Qed.

Lemma strip_empty s : Py.strip s = "" <-> all_whitespace s = true.
Proof.
  rewrite <- lstrip_empty. unfold Py.strip.
  destruct (Py.lstrip s) as [|c r] eqn:E; [done|].
  apply lstrip_head in E. simpl. rewrite E. simpl. split; discriminate.
Qed.

Lemma truthy_strip s : Py.truthy_str (Py.strip s) = negb (all_whitespace s).
Proof.
  unfold Py.truthy_str. destruct (all_whitespace s) eqn:E.
  - apply strip_empty in E. by rewrite E.
  - destruct (String.eqb_spec (Py.strip s) "") as [H|H]; [|done].
    apply strip_empty in H. congruence.
Qed.

(** ** The empty-text filter *)

Lemma filter_loop_filter items acc :
  filter_loop items acc = acc ++ List.filter keeps_item items.
Proof.
  revert acc. induction items as [|it items IH]; intros acc; simpl.
  - by rewrite app_nil_r.
  - destruct (keeps_item it); rewrite IH; [|done].
    by rewrite <- app_assoc.
Qed.

Lemma keeps_item_blank it : keeps_item it = negb (blank_text it).
Proof.
  unfold keeps_item, blank_text. destruct (text it); [|done].
  apply truthy_strip.
Qed.

(** C9, as stated, fails: a text item holding one space is not an empty
    text, and the filter drops it. *)
Lemma C9_whitespace_text_dropped :
  let message := {| role := "assistant"; content := Some [text_item " "] |} in
  filter_empty_text_content message = {| role := "assistant"; content := Some [] |}
  /\ spec_filter_empty_text message = [text_item " "]
  /\ get_content (filter_empty_text_content message) <> spec_filter_empty_text message.
Proof. vm_compute. split; [done|]. split; [done|]. discriminate. Qed.

(** C9, amended: the filter keeps the role, and its content is the content
    of the received turn, in order, without the items that have a text key
    whose string is empty or consists of white space only; items without a
    text key and items whose text has a character that is not white space
    all stay. A message without content is returned as it is. *)
Theorem C9_filter_empty_text_content (message : Message) :
  role (filter_empty_text_content message) = role message
  /\ content (filter_empty_text_content message)
     = List.filter (fun it => negb (blank_text it)) <$> content message.
Proof.
  unfold filter_empty_text_content. destruct (content message) as [items|] eqn:E.
  - simpl. split; [done|]. f_equal. rewrite filter_loop_filter. simpl.
    apply List.filter_ext. intros it. apply keeps_item_blank.
  - rewrite E. done.
Qed.

(** ** Media stripping *)

Lemma strip_loop_spec items acc removed :
  strip_loop items acc removed
  = (acc ++ List.filter (fun it => negb (carries_media it)) items,
     removed || existsb carries_media items).
Proof.
  revert acc removed.
  induction items as [|it items IH]; intros acc removed; simpl.
  - by rewrite app_nil_r, orb_false_r.
  - assert (carries_media it
            = negb (has_text it) && (has_image it || has_json it)) as -> by done.
    destruct (has_text it); simpl.
    + rewrite IH. by rewrite <- app_assoc.
    + destruct (has_image it || has_json it); simpl; rewrite IH.
      * by rewrite orb_true_r.
      * by rewrite <- app_assoc.
Qed.

Lemma filter_all_kept {A} (p : A -> bool) (l : list A) :
  existsb (fun x => negb (p x)) l = false -> List.filter p l = l.
Proof.
  induction l as [|x l IH]; simpl; [done|].
  destruct (p x); simpl; [|discriminate]. intros H. by rewrite IH.
Qed.

Lemma existsb_carries_media items :
  existsb carries_media items
  = existsb (fun it => negb (negb (carries_media it))) items.
Proof.
  induction items as [|it items IH]; simpl; [done|].
  by rewrite negb_involutive, IH.
Qed.

(** What [strip_message] does to the content of a message that has one. *)
Lemma strip_message_content message items :
  content message = Some items ->
  strip_message message
  = {| role := role message;
       content :=
         Some (if existsb carries_media items
               then match List.filter (fun it => negb (carries_media it)) items with
                    | [] => [media_placeholder]
                    | kept => kept
                    end
               else items) |}.
Proof.
  intros E. unfold strip_message. rewrite E, strip_loop_spec. simpl.
  f_equal. f_equal.
  destruct (existsb carries_media items) eqn:Hr; simpl.
  - by destruct (List.filter _ items).
  - rewrite existsb_carries_media in Hr. by rewrite filter_all_kept.
Qed.

Lemma strip_message_no_content message :
  content message = None -> strip_message message = message.
Proof. intros E. unfold strip_message. by rewrite E. Qed.

Lemma filter_nonempty_of_kept {A} (p : A -> bool) (l : list A) :
  existsb (fun x => negb (p x)) l = false -> List.filter p l = [] -> l = [].
Proof. intros H. by rewrite (filter_all_kept _ _ H). Qed.

(** Stripping never empties a content. *)
Lemma strip_message_empty message :
  get_content (strip_message message) = [] -> get_content message = [].
Proof.
  unfold get_content. destruct (content message) as [items|] eqn:E.
  - rewrite (strip_message_content _ _ E). simpl.
    destruct (existsb carries_media items); [|done].
    destruct (List.filter _ items); discriminate.
  - by rewrite (strip_message_no_content _ E), E.
Qed.

(** A stripped message differs from the message only when media was removed. *)
Lemma strip_message_changed message :
  strip_message message <> message ->
  exists items,
    content message = Some items
    /\ role (strip_message message) = role message
    /\ content (strip_message message)
       = Some match List.filter (fun it => negb (carries_media it)) items with
              | [] => [media_placeholder]
              | kept => kept
              end.
Proof.
  destruct (content message) as [items|] eqn:E.
  - rewrite (strip_message_content _ _ E).
    destruct (existsb carries_media items).
    + intros _. by exists items.
    + intros H. exfalso. apply H. destruct message; simpl in *. by subst.
  - rewrite (strip_message_no_content _ E). done.
Qed.

Lemma remove_media_lookup messages i m' :
  remove_media_except_last_turn messages !! i = Some m' ->
  exists m, messages !! i = Some m /\ (m' = m \/ m' = strip_message m).
Proof.
  unfold remove_media_except_last_turn.
  destruct (length messages <? 2)%nat; [by eauto|].
  destruct (find_user_indices _ _ _ _) as [last_user_index second].
  rewrite list_lookup_imap_Some. intros (m & Hm & ->). exists m.
  split; [done|]. destruct (in_last_turn _ _ _); auto.
Qed.




(** How such a turn enters the list of [run_client]: the empty-text filter
    leaves an assistant message that holds only blank text with the empty
    list, and the message is appended as it is. *)
Lemma blank_answer_filtered_to_empty :
  filter_empty_text_content
    {| role := "assistant"; content := Some [text_item " "] |}
  = {| role := "assistant"; content := Some [] |}.
Proof. reflexivity. Qed.

(** What the function does keep: the number of turns; it never empties a
    turn, an output turn with an empty (or absent) content sits where the
    input turn already had an empty (or absent) content; and a turn that
    stripping changes holds the items that carry no media, in order, or the
    single placeholder text item when none is left. *)
Lemma remove_media_never_empties (messages : list Message) :
  length (remove_media_except_last_turn messages) = length messages
  /\ (forall i m', remove_media_except_last_turn messages !! i = Some m' ->
        get_content m' = [] ->
        exists m, messages !! i = Some m /\ get_content m = [])
  /\ (forall i m m', messages !! i = Some m ->
        remove_media_except_last_turn messages !! i = Some m' ->
        m' <> m ->
        exists items,
          content m = Some items /\ role m' = role m
          /\ content m'
             = Some match List.filter (fun it => negb (carries_media it)) items with
                    | [] => [media_placeholder]
                    | kept => kept
                    end).
Proof.
  split; [|split].
  - unfold remove_media_except_last_turn.
    destruct (length messages <? 2)%nat; [done|].
    destruct (find_user_indices _ _ _ _). apply length_imap.
  - intros i m' Hi Hempty. apply remove_media_lookup in Hi as (m & Hm & [->| ->]).
    + eauto.
    + exists m. split; [done|]. by apply strip_message_empty.
  - intros i m m' Hm Hi Hne.
    apply remove_media_lookup in Hi as (m0 & Hm0 & H).
    assert (m0 = m) as -> by congruence.
    destruct H as [->| ->]; [done|]. by apply strip_message_changed.
Qed.

Lemma remove_media_placeholder_example :
  remove_media_except_last_turn media_transcript
  = [ {| role := "user"; content := Some [media_placeholder] |};
      {| role := "assistant"; content := Some [] |};
      {| role := "user"; content := Some [text_item "Current page: x"] |} ].
Proof. reflexivity. Qed.

(** ** Summarization *)

(** The collecting loop takes a prefix [taken] of the reversed list; it stops
    either at the end of the list, with fewer turns than [KEEP_LAST_TURNS],
    or at a user message that follows an assistant message, when the turns
    counted reach [KEEP_LAST_TURNS]. *)
Local Opaque KEEP_LAST_TURNS.

Lemma collect_last_spec rev_msgs acc mc tc :
  tc < KEEP_LAST_TURNS ->
  tc = turn_pairs (option_list (head rev_msgs) ++ acc) ->
  exists taken rest tc',
    rev_msgs = taken ++ rest
    /\ collect_last rev_msgs acc mc tc = (reverse taken ++ acc, mc + length taken, tc')
    /\ ((rest = [] /\ tc' < KEEP_LAST_TURNS)
        \/ (exists u a,
              head (reverse taken ++ acc) = Some u /\ is_user u = true
              /\ head rest = Some a /\ is_assistant a = true
              /\ turn_pairs (a :: reverse taken ++ acc) = KEEP_LAST_TURNS)).
Proof.
  revert acc mc tc.
  induction rev_msgs as [|msg rest0 IH]; intros acc mc tc Hlt Htc.
  - exists [], [], tc. simpl. rewrite Nat.add_0_r. auto.
  - simpl in Htc. simpl.
    set (inc := is_user msg
                && match rest0 with prev :: _ => is_assistant prev | [] => false end).
    set (tc1 := if inc then tc + 1 else tc).
    assert (Htc1 : tc1 = turn_pairs (option_list (head rest0) ++ msg :: acc)).
    { subst tc1 inc. destruct rest0 as [|prev rest1]; simpl.
      - rewrite andb_false_r. done.
      - rewrite (andb_comm (is_assistant prev)).
        destruct (is_user msg && is_assistant prev); simpl; lia. }
    destruct (KEEP_LAST_TURNS <=? tc1)%nat eqn:Hk.
    + apply Nat.leb_le in Hk.
      exists [msg], rest0, tc1. simpl. split; [done|]. split; [done|]. right.
      destruct inc eqn:Hinc; subst tc1; [|lia].
      subst inc. apply andb_true_iff in Hinc as [Hu Ha].
      destruct rest0 as [|prev rest1]; [discriminate|].
      exists msg, prev. simpl in *. rewrite Ha, Hu. simpl.
      repeat split; try done. simpl in Htc1. rewrite Ha, Hu in Htc1. simpl in Htc1.
      lia.
    + apply Nat.leb_gt in Hk.
      destruct (IH (msg :: acc) (mc + 1) tc1 Hk Htc1)
        as (taken & rest & tc' & -> & Hc & Hend).
      exists (msg :: taken), rest, tc'. rewrite reverse_cons, <- app_assoc. simpl.
      split; [done|]. split; [rewrite Hc; f_equal; f_equal; lia|]. done.
Qed.

Local Transparent KEEP_LAST_TURNS.

(** The transcript splits into a prefix and the collected tail. *)
Lemma last_messages_split messages :
  exists prefix,
    messages = prefix ++ last_messages_of messages
    /\ message_count_of messages = length (last_messages_of messages)
    /\ (prefix = []
        \/ exists u a,
             head (last_messages_of messages) = Some u /\ is_user u = true
             /\ last prefix = Some a /\ is_assistant a = true
             /\ turn_pairs (a :: last_messages_of messages) = KEEP_LAST_TURNS).
Proof.
  unfold last_messages_of, message_count_of.
  destruct (collect_last_spec (reverse messages) [] 0 0)
    as (taken & rest & tc' & Hsplit & Hc & Hend).
  { unfold KEEP_LAST_TURNS. lia. }
  { by destruct (reverse messages) as [|? [|? ?]]. }
  rewrite Hc. simpl. rewrite app_nil_r in *.
  exists (reverse rest). split; [|split].
  - rewrite <- reverse_app, <- Hsplit. by rewrite reverse_involutive.
  - by rewrite length_reverse.
  - destruct Hend as [[-> _]|(u & a & Hu & Hu' & Ha & Ha' & Hn)]; [by left|].
    right. exists u, a. rewrite last_reverse. done.
Qed.

Lemma to_summarize_split messages :
  to_summarize_of messages <> [] ->
  exists first_message u a,
    messages = first_message :: to_summarize_of messages ++ last_messages_of messages
    /\ head (last_messages_of messages) = Some u /\ is_user u = true
    /\ last (to_summarize_of messages) = Some a /\ is_assistant a = true
    /\ turn_pairs (a :: last_messages_of messages) = KEEP_LAST_TURNS.
Proof.
  unfold to_summarize_of, Py.slice.
  destruct (last_messages_split messages) as (prefix & Hm & Hcount & Hend).
  rewrite Hcount.
  assert (Hlen : length messages - length (last_messages_of messages) = length prefix).
  { rewrite Hm at 1. rewrite length_app. lia. }
  rewrite Hlen.
  destruct prefix as [|first_message middle]; [done|].
  assert (Hmid : firstn (length (first_message :: middle) - 1) (skipn 1 messages)
                 = middle).
  { rewrite Hm. simpl. rewrite Nat.sub_0_r. apply take_app_length. }
  rewrite Hmid. intros Hne.
  destruct Hend as [|(u & a & Hu & Hu' & Ha & Ha' & Hn)]; [done|].
  exists first_message, u, a. repeat split; try done.
  destruct middle as [|m middle]; [done|]. done.
Qed.

Lemma assistant_not_user m : is_assistant m = true -> is_user m = false.
Proof.
  unfold is_assistant, is_user. intros H. apply String.eqb_eq in H. by rewrite H.
Qed.

(** On a transcript that ends with assistant, user, assistant, user, the
    tail collected is the last three messages. *)
Lemma last_messages_alternating prefix a1 u1 a2 u2 :
  is_assistant a1 = true -> is_user u1 = true ->
  is_assistant a2 = true -> is_user u2 = true ->
  last_messages_of (prefix ++ [a1; u1; a2; u2]) = [u1; a2; u2]
  /\ to_summarize_of (prefix ++ [a1; u1; a2; u2]) = skipn 1 (prefix ++ [a1]).
Proof.
  intros Ha1 Hu1 Ha2 Hu2.
  assert (Hc : collect_last (reverse (prefix ++ [a1; u1; a2; u2])) [] 0 0
               = ([u1; a2; u2], 3, 2)).
  { rewrite reverse_app. change (reverse [a1; u1; a2; u2]) with [u2; a2; u1; a1].
    simpl. rewrite Hu2, Ha2, (assistant_not_user _ Ha2), Hu1, Ha1. reflexivity. }
  unfold to_summarize_of, message_count_of, last_messages_of. rewrite Hc. simpl.
  split; [done|]. unfold Py.slice.
  destruct prefix as [|p prefix]; [done|]. simpl.
  replace (prefix ++ [a1; u1; a2; u2]) with ((prefix ++ [a1]) ++ [u1; a2; u2])
    by (by rewrite <- app_assoc).
  rewrite !drop_0. apply take_app_length'. rewrite !length_app. simpl. lia.
Qed.

Lemma to_summarize_nil_or_long messages :
  to_summarize_of messages = [] \/ to_summarize_of messages <> [].
Proof. destruct (to_summarize_of messages); [left|right]; done. Qed.

Lemma tool_use_content_of_assistant to_summarize a :
  last to_summarize = Some a -> is_assistant a = true ->
  tool_use_content_of to_summarize = List.filter has_toolUse (get_content a).
Proof. intros H Ha. unfold tool_use_content_of. by rewrite H, Ha. Qed.

Lemma summary_message_of_content summary_text tool_use_content :
  summary_message_of summary_text tool_use_content
  = {| role := "assistant";
       content := Some (text_item ("[CONVERSATION SUMMARY: " +:+ summary_text +:+ "]")
                        :: tool_use_content) |}.
Proof. unfold summary_message_of. by destruct tool_use_content. Qed.

(** The paths of [summarize_conversation]. *)
Lemma summarize_conversation_short messages client :
  length messages <= KEEP_LAST_TURNS * 2 + 1 ->
  summarize_conversation messages client = messages.
Proof.
  intros H. unfold summarize_conversation.
  apply Nat.leb_le in H. rewrite H. by rewrite orb_true_r.
Qed.

Lemma summarize_conversation_no_middle messages client :
  to_summarize_of messages = [] ->
  summarize_conversation messages client = messages.
Proof.
  intros H. unfold summarize_conversation.
  destruct (_ || _); [done|]. destruct messages as [|first_message rest]; [done|].
  rewrite H. done.
Qed.

Lemma summarize_conversation_long messages client :
  KEEP_LAST_TURNS * 2 + 1 < length messages ->
  to_summarize_of messages <> [] ->
  summarize_conversation messages client
  = match converse client SUMMARY_MODEL_ID (summary_request (to_summarize_of messages)) with
    | inr resp =>
        if bool_decide (tool_pairing (candidate_result messages resp))
        then candidate_result messages resp else messages
    | inl e => messages
    end.
Proof.
  intros Hlen Hmid. unfold summarize_conversation.
  apply Nat.leb_gt in Hlen. rewrite Hlen.
  destruct messages as [|first_message rest]; [done|].
  rewrite bool_decide_eq_false_2 by done. simpl orb. cbv iota.
  rewrite (bool_decide_eq_false_2 _ Hmid).
  destruct (converse _ _ _) as [e|resp]; [done|].
  unfold candidate_result, tool_pairing.
  rewrite bool_decide_not. by destruct (bool_decide _).
Qed.

Lemma summarize_conversation_cases messages client :
  summarize_conversation messages client = messages
  \/ exists resp,
       KEEP_LAST_TURNS * 2 + 1 < length messages
       /\ to_summarize_of messages <> []
       /\ converse client SUMMARY_MODEL_ID (summary_request (to_summarize_of messages))
          = inr resp
       /\ tool_pairing (candidate_result messages resp)
       /\ summarize_conversation messages client = candidate_result messages resp.
Proof.
  destruct (Nat.le_gt_cases (length messages) (KEEP_LAST_TURNS * 2 + 1)) as [H|H].
  { left. by apply summarize_conversation_short. }
  destruct (to_summarize_nil_or_long messages) as [Hm|Hm].
  { left. by apply summarize_conversation_no_middle. }
  rewrite (summarize_conversation_long _ _ H Hm).
  destruct (converse _ _ _) as [e|resp] eqn:Hc; [by left|].
  destruct (bool_decide _) eqn:Hp; [|by left].
  right. exists resp. apply bool_decide_eq_true in Hp. done.
Qed.

Lemma candidate_result_head messages first_message resp :
  head messages = Some first_message ->
  candidate_result messages resp
  = first_message
    :: {| role := "assistant";
          content :=
            Some (text_item ("[CONVERSATION SUMMARY: " +:+ summary_text_from resp +:+ "]")
                  :: tool_use_content_of (to_summarize_of messages)) |}
    :: last_messages_of messages.
Proof.
  destruct messages as [|m rest]; [done|]. intros [= ->].
  unfold candidate_result, summarized_result.
  by rewrite summary_message_of_content.
Qed.

(** C1: on a transcript that satisfies the tool-pairing invariant, the
    result of [summarize_conversation] satisfies it too, being either the
    reassembled list whose counters match or the input itself; the input is
    returned unchanged when the summarization call raises and when the
    counters of the reassembled list differ. *)
Theorem C1_summarize_keeps_pairing (messages : list Message) (client : BedrockClient) :
  tool_pairing messages ->
  tool_pairing (summarize_conversation messages client)
  /\ (tool_pairing (summarize_conversation messages client)
      \/ summarize_conversation messages client = messages)
  /\ (forall e,
        converse client SUMMARY_MODEL_ID (summary_request (to_summarize_of messages))
        = inl e ->
        summarize_conversation messages client = messages)
  /\ (forall resp,
        converse client SUMMARY_MODEL_ID (summary_request (to_summarize_of messages))
        = inr resp ->
        ~ tool_pairing (candidate_result messages resp) ->
        summarize_conversation messages client = messages).
Proof.
  intros Hinv.
  assert (Hp : tool_pairing (summarize_conversation messages client)).
  { destruct (summarize_conversation_cases messages client)
      as [->|(resp & _ & _ & _ & Hp & ->)]; done. }
  split; [done|]. split; [by left|]. split.
  - intros e He.
    destruct (summarize_conversation_cases messages client)
      as [H|(resp & _ & _ & Hc & _)]; [done|congruence].
  - intros resp Hr Hbad.
    destruct (summarize_conversation_cases messages client)
      as [H|(resp' & _ & _ & Hc & Hp' & _)]; [done|].
    assert (resp' = resp) as -> by congruence. done.
Qed.

Example summarize_seven_turns :
  summarize_conversation seven_turns (answering_client "shop opened")
  = [ {| role := "user"; content := Some [text_item "Search the price"] |};
      {| role := "assistant";
         content := Some [text_item "[CONVERSATION SUMMARY: shop opened]";
                          tool_request "t2" "screenshot"] |};
      {| role := "user"; content := Some [tool_answer "t2"; text_item "Current page: shop"] |};
      {| role := "assistant"; content := Some [tool_request "t3" "click"] |};
      {| role := "user"; content := Some [tool_answer "t3"; text_item "Current page: item"] |} ].
Proof. vm_compute. reflexivity. Qed.

Example summarize_seven_turns_failing :
  summarize_conversation seven_turns failing_client = seven_turns.
Proof. vm_compute. reflexivity. Qed.

Lemma C1_summarize_keeps_pairing_witness :
  tool_pairing (summarize_conversation seven_turns (answering_client "shop opened"))
  /\ summarize_conversation seven_turns failing_client = seven_turns.
Proof.
  split.
  - apply (C1_summarize_keeps_pairing seven_turns (answering_client "shop opened")).
    reflexivity.
  - destruct (C1_summarize_keeps_pairing seven_turns failing_client) as (_ & _ & H & _);
      [reflexivity|].
    apply (H (Py.Exception "ThrottlingException")). reflexivity.
Defined.

(** C5, as stated, fails: on seven alternating turns the summarized result
    keeps three messages after the summary turn (user, assistant, user),
    not two complete pairs. *)
Lemma C5_tail_is_not_two_pairs :
  let result := summarize_conversation seven_turns (answering_client "shop opened") in
  result <> seven_turns
  /\ length result = 5
  /\ ~ spec_summarized_shape KEEP_LAST_TURNS seven_turns result.
Proof.
  rewrite summarize_seven_turns. cbv zeta.
  split; [discriminate|]. split; [reflexivity|].
  intros (first_message & summary_message & tail & _ & _ & _ & Hlen & H).
  apply (f_equal length) in H. simpl in H. rewrite Hlen in H. discriminate.
Qed.

(** C5, amended: the transcript is returned unchanged when it has at most
    [2 * KEEP_LAST_TURNS + 1] messages and when the middle span is empty.
    Otherwise it splits as first message, middle span, tail, where the tail
    starts at a user message that directly follows an assistant message (the
    last message of the middle span) and holds, that boundary included,
    [KEEP_LAST_TURNS] such places; and the successful result (the model
    answered, the counters match) is the first message, one synthesized
    assistant turn, and that tail, verbatim. On a transcript that ends with
    assistant, user, assistant, user, the tail is the last three messages. *)
Theorem C5_summarized_shape (messages : list Message) (client : BedrockClient) :
  (length messages <= KEEP_LAST_TURNS * 2 + 1 ->
   summarize_conversation messages client = messages)
  /\ (to_summarize_of messages = [] ->
      summarize_conversation messages client = messages)
  /\ (KEEP_LAST_TURNS * 2 + 1 < length messages ->
      to_summarize_of messages <> [] ->
      exists first_message middle tail u a,
        messages = first_message :: middle ++ tail
        /\ middle = to_summarize_of messages
        /\ head tail = Some u /\ is_user u = true
        /\ last middle = Some a /\ is_assistant a = true
        /\ turn_pairs (a :: tail) = KEEP_LAST_TURNS
        /\ forall resp,
             converse client SUMMARY_MODEL_ID (summary_request middle) = inr resp ->
             tool_pairing (candidate_result messages resp) ->
             exists summary_message,
               role summary_message = "assistant"
               /\ summarize_conversation messages client
                  = first_message :: summary_message :: tail)
  /\ (forall first_message middle a1 u1 a2 u2 resp,
        messages = first_message :: middle ++ [a1; u1; a2; u2] ->
        middle <> [] ->
        is_assistant a1 = true -> is_user u1 = true ->
        is_assistant a2 = true -> is_user u2 = true ->
        converse client SUMMARY_MODEL_ID (summary_request (middle ++ [a1])) = inr resp ->
        tool_pairing (candidate_result messages resp) ->
        exists summary_message,
          role summary_message = "assistant"
          /\ summarize_conversation messages client
             = [first_message; summary_message; u1; a2; u2]).
Proof.
  split; [apply summarize_conversation_short|].
  split; [apply summarize_conversation_no_middle|].
  assert (Hshape :
            KEEP_LAST_TURNS * 2 + 1 < length messages ->
            to_summarize_of messages <> [] ->
            exists first_message middle tail u a,
              messages = first_message :: middle ++ tail
              /\ middle = to_summarize_of messages
              /\ head tail = Some u /\ is_user u = true
              /\ last middle = Some a /\ is_assistant a = true
              /\ turn_pairs (a :: tail) = KEEP_LAST_TURNS
              /\ forall resp,
                   converse client SUMMARY_MODEL_ID (summary_request middle)
                   = inr resp ->
                   tool_pairing (candidate_result messages resp) ->
                   exists summary_message,
                     role summary_message = "assistant"
                     /\ summarize_conversation messages client
                        = first_message :: summary_message :: tail).
  { intros Hlen Hmid.
    destruct (to_summarize_split messages Hmid)
      as (first_message & u & a & Hm & Hu & Hu' & Ha & Ha' & Hn).
    exists first_message, (to_summarize_of messages), (last_messages_of messages), u, a.
    repeat split; try done.
    intros resp Hc Hp.
    rewrite (summarize_conversation_long _ _ Hlen Hmid), Hc.
    rewrite (bool_decide_eq_true_2 _ Hp).
    assert (Hh : head messages = Some first_message) by (by rewrite Hm).
    rewrite (candidate_result_head _ _ _ Hh).
    eexists. split; [|reflexivity]. done. }
  split; [exact Hshape|].
  intros first_message middle a1 u1 a2 u2 resp Hm Hne Ha1 Hu1 Ha2 Hu2 Hc Hp.
  destruct (last_messages_alternating (first_message :: middle) a1 u1 a2 u2
              Ha1 Hu1 Ha2 Hu2) as [Hlast Hmid].
  simpl in Hlast, Hmid. rewrite drop_0 in Hmid. rewrite <- Hm in Hlast, Hmid.
  destruct Hshape as (f & mid & tail & u & a & Hm' & -> & _ & _ & _ & _ & _ & H).
  { rewrite Hm. simpl. rewrite length_app. simpl.
    destruct middle; [done|]. simpl. unfold KEEP_LAST_TURNS. lia. }
  { rewrite Hmid. by destruct middle. }
  rewrite Hmid in H, Hm'.
  assert (f = first_message /\ tail = [u1; a2; u2]) as [-> ->].
  { rewrite Hm in Hm'. injection Hm' as -> Hm'.
    rewrite <- app_assoc in Hm'. apply app_inv_head in Hm'. simpl in Hm'.
    by injection Hm' as <-. }
  by apply (H resp).
Qed.

Lemma C5_summarized_shape_witness :
  exists summary_message,
    role summary_message = "assistant"
    /\ summarize_conversation seven_turns (answering_client "shop opened")
       = {| role := "user"; content := Some [text_item "Search the price"] |}
         :: summary_message :: skipn 4 seven_turns.
Proof.
  destruct (C5_summarized_shape seven_turns (answering_client "shop opened"))
    as (_ & _ & H & _).
  destruct H as (first_message & middle & tail & u & a & Hm & Hmid & _ & _ & _ & _ & _ & H).
  { vm_compute. lia. }
  { vm_compute. discriminate. }
  subst middle.
  assert (first_message = {| role := "user"; content := Some [text_item "Search the price"] |}
          /\ tail = skipn 4 seven_turns) as [-> ->].
  { vm_compute in Hm. simplify_eq. split; reflexivity. }
  apply (H {| output_message :=
                Some {| role := "assistant"; content := Some [text_item "shop opened"] |};
              stopReason := Some "end_turn";
              inputTokens := Some 120%Z |}); reflexivity.
Defined.

(** C6: the last turn of the span that is summarized is an assistant turn,
    and in the successful result (the model answered and the counters
    match; in particular whenever the result differs from the input) the
    content of the synthesized summary turn is the summary text item
    followed by the toolUse items of that turn, verbatim and in order; the
    tail that holds their toolResults follows unchanged. *)
Theorem C6_tool_use_carried_forward (messages : list Message) (client : BedrockClient) :
  (forall resp,
     KEEP_LAST_TURNS * 2 + 1 < length messages ->
     to_summarize_of messages <> [] ->
     converse client SUMMARY_MODEL_ID (summary_request (to_summarize_of messages))
     = inr resp ->
     tool_pairing (candidate_result messages resp) ->
     exists first_message tail a,
       messages = first_message :: to_summarize_of messages ++ tail
       /\ last (to_summarize_of messages) = Some a /\ is_assistant a = true
       /\ summarize_conversation messages client
          = first_message
            :: {| role := "assistant";
                  content :=
                    Some (text_item ("[CONVERSATION SUMMARY: "
                                     +:+ summary_text_from resp +:+ "]")
                          :: List.filter has_toolUse (get_content a)) |}
            :: tail)
  /\ (summarize_conversation messages client <> messages ->
      exists first_message middle tail a summary_text,
        messages = first_message :: middle ++ tail
        /\ last middle = Some a /\ is_assistant a = true
        /\ summarize_conversation messages client
           = first_message
             :: {| role := "assistant";
                   content :=
                     Some (text_item ("[CONVERSATION SUMMARY: " +:+ summary_text +:+ "]")
                           :: List.filter has_toolUse (get_content a)) |}
             :: tail).
Proof.
  assert (Hshape : forall resp,
            KEEP_LAST_TURNS * 2 + 1 < length messages ->
            to_summarize_of messages <> [] ->
            converse client SUMMARY_MODEL_ID (summary_request (to_summarize_of messages))
            = inr resp ->
            tool_pairing (candidate_result messages resp) ->
            exists first_message tail a,
              messages = first_message :: to_summarize_of messages ++ tail
              /\ last (to_summarize_of messages) = Some a /\ is_assistant a = true
              /\ summarize_conversation messages client
                 = first_message
                   :: {| role := "assistant";
                         content :=
                           Some (text_item ("[CONVERSATION SUMMARY: "
                                            +:+ summary_text_from resp +:+ "]")
                                 :: List.filter has_toolUse (get_content a)) |}
                   :: tail).
  { intros resp Hlen Hmid Hc Hp.
    destruct (to_summarize_split messages Hmid)
      as (first_message & u & a & Hm & Hu & Hu' & Ha & Ha' & Hn).
    exists first_message, (last_messages_of messages), a.
    split; [done|]. split; [done|]. split; [done|].
    assert (Hh : head messages = Some first_message) by (by rewrite Hm).
    rewrite (summarize_conversation_long _ _ Hlen Hmid), Hc.
    rewrite (bool_decide_eq_true_2 _ Hp), (candidate_result_head _ _ _ Hh).
    by rewrite (tool_use_content_of_assistant _ _ Ha Ha'). }
  split; [exact Hshape|].
  intros Hne.
  destruct (summarize_conversation_cases messages client)
    as [H|(resp & Hlen & Hmid & Hc & Hp & Hr)]; [done|].
  destruct (Hshape resp Hlen Hmid Hc Hp) as (first_message & tail & a & H).
  by exists first_message, (to_summarize_of messages), tail, a, (summary_text_from resp).
Qed.

Lemma C6_tool_use_carried_forward_witness :
  exists first_message middle tail a summary_text,
    seven_turns = first_message :: middle ++ tail
    /\ last middle = Some a /\ is_assistant a = true
    /\ summarize_conversation seven_turns (answering_client "shop opened")
       = first_message
         :: {| role := "assistant";
               content :=
                 Some (text_item ("[CONVERSATION SUMMARY: " +:+ summary_text +:+ "]")
                       :: List.filter has_toolUse (get_content a)) |}
         :: tail.
Proof.
  destruct (C6_tool_use_carried_forward seven_turns (answering_client "shop opened"))
    as [_ H].
  apply H. rewrite summarize_seven_turns. discriminate.
Defined.

(** ** Tool dispatch over the MCP session *)

Section DispatchProperties.

Context {W : Type}.
Variable b64decode : string -> Py.exn + string.
Variable json_loads : string -> Py.exn + Py.value.
Variable str_value : Py.value -> string.
Variable session : ClientSession W.

(** [process_tool_request] returns in every state, and what it returns is
    a tool result with the id it was given. *)
Lemma process_tool_request_returns tool_name tool_id tool_input (st : ClientState W) :
  exists bedrock_content st',
    process_tool_request b64decode session tool_name tool_id tool_input st
    = (inr (toolResult_item
              {| tr_toolUseId := tool_id; tr_content := bedrock_content |}), st').
Proof.
  unfold process_tool_request, try_except, bind.
  destruct (session_call_tool session tool_name tool_input st) as [[e|result] st1].
  - by eexists _, _.
  - destruct (convert_content b64decode (ctr_content result) [] st1)
      as [[e|bedrock_content] st2]; by eexists _, _.
Qed.

(** When the call through the session raises, the content is the single
    error item. *)
Lemma process_tool_request_call_raises tool_name tool_id tool_input
    (st : ClientState W) e w' :
  call_tool session tool_name tool_input (world st) = (inl e, w') ->
  process_tool_request b64decode session tool_name tool_id tool_input st
  = (inr (toolResult_item
            {| tr_toolUseId := tool_id; tr_content := error_content e |}),
     mkClientState w' (artifact_uris st)).
Proof.
  intros H. unfold process_tool_request, try_except, bind, session_call_tool.
  by rewrite H.
Qed.

(** So does a failure while the returned content is converted. *)
Lemma process_tool_request_convert_raises tool_name tool_id tool_input
    (st : ClientState W) result w' e st' :
  call_tool session tool_name tool_input (world st) = (inr result, w') ->
  convert_content b64decode (ctr_content result) []
    (mkClientState w' (artifact_uris st)) = (inl e, st') ->
  process_tool_request b64decode session tool_name tool_id tool_input st
  = (inr (toolResult_item
            {| tr_toolUseId := tool_id; tr_content := error_content e |}), st').
Proof.
  intros H Hc. unfold process_tool_request, try_except, bind, session_call_tool.
  rewrite H. by rewrite Hc.
Qed.

(** A result that holds text items only is converted item by item. *)
Lemma convert_content_texts texts bedrock_content (st : ClientState W) :
  convert_content b64decode (TextContent <$> texts) bedrock_content st
  = (inr (bedrock_content ++ text_content texts), st).
Proof.
  revert bedrock_content. induction texts as [|t texts IH]; intros bedrock_content.
  - simpl. by rewrite app_nil_r.
  - rewrite fmap_cons. simpl. rewrite IH. unfold text_content. simpl.
    by rewrite <- app_assoc.
Qed.

(** C4, amended: for every tool name, request id and argument object, and
    in every state, [process_tool_request] does not raise: it returns a
    toolResult item carrying the id of the request. When the call through
    the session raises, or the conversion of what it returned does, the
    content of the result is the single structured item [{error: message}].
    When the session returns a result, the content is the conversion of
    its items whether or not the result is flagged [isError], which is not
    read: a failure reported by a returned result that holds texts comes
    back as the items [{text: ...}]. *)
Theorem C4_dispatch_never_raises tool_name tool_id tool_input (st : ClientState W) :
  (exists bedrock_content st',
     process_tool_request b64decode session tool_name tool_id tool_input st
     = (inr (toolResult_item
               {| tr_toolUseId := tool_id; tr_content := bedrock_content |}), st'))
  /\ (forall e w',
        call_tool session tool_name tool_input (world st) = (inl e, w') ->
        (process_tool_request b64decode session tool_name tool_id tool_input st).1
        = inr (toolResult_item
                 {| tr_toolUseId := tool_id;
                    tr_content :=
                      [TRJson (Py.VDict [("error", Py.VStr (Py.str_exn e))])] |}))
  /\ (forall result w' e st',
        call_tool session tool_name tool_input (world st) = (inr result, w') ->
        convert_content b64decode (ctr_content result) []
          (mkClientState w' (artifact_uris st)) = (inl e, st') ->
        (process_tool_request b64decode session tool_name tool_id tool_input st).1
        = inr (toolResult_item
                 {| tr_toolUseId := tool_id;
                    tr_content :=
                      [TRJson (Py.VDict [("error", Py.VStr (Py.str_exn e))])] |}))
  /\ (forall texts flag w',
        call_tool session tool_name tool_input (world st)
        = (inr {| ctr_content := TextContent <$> texts; isError := flag |}, w') ->
        (process_tool_request b64decode session tool_name tool_id tool_input st).1
        = inr (toolResult_item
                 {| tr_toolUseId := tool_id; tr_content := text_content texts |})).
Proof.
  split; [apply process_tool_request_returns|]. split; [|split].
  - intros e w' H. by rewrite (process_tool_request_call_raises _ _ _ _ _ _ H).
  - intros result w' e st' H Hc.
    by rewrite (process_tool_request_convert_raises _ _ _ _ _ _ _ _ H Hc).
  - intros texts flag w' H.
    unfold process_tool_request, try_except, bind, session_call_tool.
    rewrite H. simpl. by rewrite convert_content_texts.
Qed.

(** The loop of [run_client] answers the requests one by one, in order. *)
Lemma client_dispatch_answers items tool_content (st : ClientState W) results st' :
  dispatch_tool_uses b64decode json_loads session items tool_content st
  = (inr results, st') ->
  exists new_results,
    results = tool_content ++ new_results
    /\ Forall2 answers (omap toolUse items) new_results.
Proof.
  revert tool_content st.
  induction items as [|content rest IH]; intros tool_content st; simpl.
  - intros [= <- <-]. exists []. by rewrite app_nil_r.
  - destruct (toolUse content) as [tool|]; [|apply IH].
    unfold bind at 1.
    destruct (match default (Py.VDict []) (tu_input tool) with
              | Py.VStr s => lift_result (json_loads s)
              | tool_input => ret tool_input
              end st) as [[e|tool_input] st1]; [discriminate|].
    unfold bind at 1.
    destruct (process_tool_request_returns (tu_name tool) (tu_toolUseId tool)
                tool_input st1) as (bedrock_content & st2 & ->).
    intros H. apply IH in H as (new_results & -> & HF).
    exists (toolResult_item
              {| tr_toolUseId := tu_toolUseId tool; tr_content := bedrock_content |}
            :: new_results).
    split; [by rewrite <- app_assoc|].
    constructor; [by exists bedrock_content|done].
Qed.

(** The user turn [run_client] builds: one toolResult per toolUse of the
    assistant turn, in order and with its id, then one text item. *)
Lemma run_client_tool_turn_shape output_message (st : ClientState W) m st' :
  run_client_tool_turn b64decode json_loads str_value session output_message st
  = (inr m, st') ->
  role m = "user"
  /\ exists results ambient,
       content m = Some (results ++ [text_item ambient])
       /\ Forall2 answers (omap toolUse (get_content output_message)) results.
Proof.
  unfold run_client_tool_turn. unfold bind at 1.
  destruct (dispatch_tool_uses _ _ _ _ _ st) as [[e|tool_content] st1] eqn:Hd;
    [discriminate|].
  apply client_dispatch_answers in Hd as (results & -> & HF).
  unfold bind at 1.
  destruct (process_tool_request_returns "get_page_info" (Some "page_info")
              (Py.VDict []) st1) as (bedrock_content & st2 & ->).
  unfold bind. simpl.
  destruct bedrock_content as [|c ?]; [discriminate|].
  intros [= <- <-]. split; [done|]. by eexists _, _.
Qed.

(** It is built whenever the string inputs parse and the page-info tool,
    when it returns, returns a text first. *)
Lemma client_dispatch_returns items tool_content (st : ClientState W) :
  Forall (fun content =>
            forall tool s,
              toolUse content = Some tool -> tu_input tool = Some (Py.VStr s) ->
              exists v, json_loads s = inr v) items ->
  exists results st',
    dispatch_tool_uses b64decode json_loads session items tool_content st
    = (inr results, st').
Proof.
  intros HF. revert tool_content st.
  induction HF as [|content rest Hc HF IH]; intros tool_content st; simpl.
  - by eexists _, _.
  - destruct (toolUse content) as [tool|] eqn:Ht; [|apply IH].
    unfold bind at 1.
    assert (exists tool_input,
              match default (Py.VDict []) (tu_input tool) with
              | Py.VStr s => lift_result (json_loads s)
              | tool_input => ret tool_input
              end st = (inr tool_input, st)) as [tool_input ->].
    { destruct (tu_input tool) as [[| | |s| |]|] eqn:Hi; simpl; try by eexists.
      destruct (Hc tool s eq_refl Hi) as [v ->]. by eexists. }
    unfold bind at 1.
    destruct (process_tool_request_returns (tu_name tool) (tu_toolUseId tool)
                tool_input st) as (bedrock_content & st2 & ->).
    apply IH.
Qed.

Lemma convert_content_text_first text rest acc (st : ClientState W) :
  match convert_content b64decode (TextContent text :: rest) acc st with
  | (inr bedrock_content, _) =>
      exists more, bedrock_content
                   = acc ++ TRJson (Py.VDict [("text", Py.VStr text)]) :: more
  | (inl _, _) => True
  end.
Proof.
  simpl.
  assert (forall items acc' (st1 : ClientState W),
            match convert_content b64decode items acc' st1 with
            | (inr bedrock_content, _) => exists more, bedrock_content = acc' ++ more
            | (inl _, _) => True
            end) as Hgrow.
  { clear. induction items as [|item items IH]; intros acc' st1; simpl.
    - exists []. by rewrite app_nil_r.
    - destruct item as [t|data mime|resource|ty].
      + specialize (IH (acc' ++ [TRJson (Py.VDict [("text", Py.VStr t)])]) st1).
        destruct (convert_content _ _ _ _) as [[e|bc] st2]; [done|].
        destruct IH as [more ->]. rewrite <- app_assoc. by eexists.
      + unfold bind. destruct (b64decode data) as [e|image_data]; simpl; [done|].
        match goal with |- context [convert_content _ _ ?a ?s] =>
          specialize (IH a s) end.
        destruct (convert_content _ _ _ _) as [[e|bc] st2]; [done|].
        destruct IH as [more ->]. rewrite <- app_assoc. by eexists.
      + unfold bind. simpl.
        match goal with |- context [convert_content _ _ ?a ?s] =>
          specialize (IH a s) end.
        destruct (convert_content _ _ _ _) as [[e|bc] st2]; [done|].
        destruct IH as [more ->]. destruct resource; rewrite <- ?app_assoc; by eexists.
      + apply IH. }
  specialize (Hgrow rest (acc ++ [TRJson (Py.VDict [("text", Py.VStr text)])]) st).
  destruct (convert_content _ _ _ _) as [[e|bc] st2]; [done|].
  destruct Hgrow as [more ->]. rewrite <- app_assoc. by eexists.
Qed.

Lemma run_client_tool_turn_returns output_message (st : ClientState W) :
  Forall (fun content =>
            forall tool s,
              toolUse content = Some tool -> tu_input tool = Some (Py.VStr s) ->
              exists v, json_loads s = inr v) (get_content output_message) ->
  (forall w result w',
     call_tool session "get_page_info" (Py.VDict []) w = (inr result, w') ->
     exists text rest, ctr_content result = TextContent text :: rest) ->
  exists m st',
    run_client_tool_turn b64decode json_loads str_value session output_message st
    = (inr m, st').
Proof.
  intros Hin Hpage. unfold run_client_tool_turn. unfold bind at 1.
  destruct (client_dispatch_returns _ [] st Hin) as (results & st1 & ->).
  unfold bind at 1.
  assert (exists c more st2,
            process_tool_request b64decode session "get_page_info"
              (Some "page_info") (Py.VDict []) st1
            = (inr (toolResult_item
                      {| tr_toolUseId := Some "page_info";
                         tr_content := c :: more |}), st2))
    as (c & more & st2 & ->).
  { unfold process_tool_request, try_except, bind, session_call_tool.
    destruct (call_tool session "get_page_info" (Py.VDict []) (world st1))
      as [[e|result] w'] eqn:Hcall; [by eexists _, _, _|].
    destruct (Hpage _ _ _ Hcall) as (text & rest & ->).
    pose proof (convert_content_text_first text rest []
                  (mkClientState w' (artifact_uris st1))) as Hc.
    destruct (convert_content _ _ _ _) as [[e|bc] st2]; [by eexists _, _, _|].
    destruct Hc as [more ->]. by eexists _, _, _. }
  unfold bind. simpl. by eexists _, _.
Qed.

End DispatchProperties.

(** C4, as stated, fails: a session reports the tool it does not know by a
    result flagged [isError] that holds the message as a text; the call does
    not raise, and the toolResult that [process_tool_request] builds holds
    the message under the key text: no item [{error: message}]. *)
Lemma C4_unknown_tool_reported_as_text :
  call_tool reporting_session "unknown_tool" (Py.VDict []) tt
  = (inr {| ctr_content := [TextContent "Unknown tool: unknown_tool"];
            isError := true |}, tt)
  /\ (process_tool_request b64decode_ok reporting_session "unknown_tool" (Some "t9")
        (Py.VDict []) (mkClientState tt [])).1
     = inr (toolResult_item
              {| tr_toolUseId := Some "t9";
                 tr_content :=
                   [TRJson (Py.VDict [("text", Py.VStr "Unknown tool: unknown_tool")])] |})
  /\ forall message,
       (process_tool_request b64decode_ok reporting_session "unknown_tool" (Some "t9")
          (Py.VDict []) (mkClientState tt [])).1
       <> inr (toolResult_item
                 {| tr_toolUseId := Some "t9";
                    tr_content := [TRJson (Py.VDict [("error", Py.VStr message)])] |}).
Proof.
  split; [reflexivity|]. split; [reflexivity|]. intros message H.
  vm_compute in H. discriminate H.
Qed.

Lemma C4_dispatch_never_raises_witness :
  (process_tool_request b64decode_ok closed_session "navigate" (Some "t8")
     (Py.VDict [("url", Py.VStr "https://x")]) (mkClientState tt [])).1
  = inr (toolResult_item
           {| tr_toolUseId := Some "t8";
              tr_content :=
                [TRJson (Py.VDict [("error", Py.VStr "Connection closed")])] |})
  /\ (process_tool_request b64decode_ok reporting_session "unknown_tool" (Some "t9")
        (Py.VDict []) (mkClientState tt [])).1
     = inr (toolResult_item
              {| tr_toolUseId := Some "t9";
                 tr_content := text_content ["Unknown tool: unknown_tool"] |}).
Proof.
  split.
  - destruct (C4_dispatch_never_raises b64decode_ok closed_session "navigate"
                (Some "t8") (Py.VDict [("url", Py.VStr "https://x")])
                (mkClientState tt [])) as (_ & H & _).
    apply (H (Py.Exception "Connection closed") tt). reflexivity.
  - destruct (C4_dispatch_never_raises b64decode_ok reporting_session "unknown_tool"
                (Some "t9") (Py.VDict []) (mkClientState tt [])) as (_ & _ & _ & H).
    apply (H ["Unknown tool: unknown_tool"] true tt). reflexivity.
Defined.

(** ** The scroll tool *)

Section ScrollProperties.

Context {W : Type}.
Variable str_value : Py.value -> string.
Variable page : Page W.

Lemma server_scroll_invalid direction amount w :
  Py.lower direction <> "down" -> Py.lower direction <> "up" ->
  scroll page direction amount w = (inr (invalid_direction direction), w).
Proof.
  intros Hd Hu. unfold scroll.
  apply String.eqb_neq in Hd, Hu. by rewrite Hd, Hu.
Qed.

Lemma server_scroll_valid direction amount w :
  Py.lower direction = "down" \/ Py.lower direction = "up" ->
  evaluates page w ->
  exists w',
    scroll page direction amount w
    = (inr (Py.VDict [("scrolled", Py.VBool true);
                      ("direction", Py.VStr direction);
                      ("amount", Py.VInt amount)]), w').
Proof.
  intros Hdir Hev. unfold scroll, bind.
  destruct (String.eqb_spec (Py.lower direction) "down") as [Hd|Hd].
  - destruct (Hev ("window.scrollBy(0, " +:+ Py.str_int amount +:+ ")")) as [w' ->].
    by exists w'.
  - destruct Hdir as [Hdir|Hdir]; [done|]. rewrite Hdir. simpl.
    destruct (Hev ("window.scrollBy(0, -" +:+ Py.str_int amount +:+ ")")) as [w' ->].
    by exists w'.
Qed.

Lemma tools_scroll_invalid direction amount w :
  Py.lower direction <> "down" -> Py.lower direction <> "up" ->
  TypeScrollTools.scroll str_value page (Py.VStr direction) amount w
  = (inr (invalid_direction direction), w).
Proof.
  intros Hd Hu. unfold TypeScrollTools.scroll.
  apply String.eqb_neq in Hd, Hu. by rewrite Hd, Hu.
Qed.

Lemma tools_scroll_valid direction amount w :
  Py.lower direction = "down" \/ Py.lower direction = "up" ->
  evaluates page w ->
  exists w',
    TypeScrollTools.scroll str_value page (Py.VStr direction) amount w
    = (inr (Py.VDict [("scrolled", Py.VBool true);
                      ("direction", Py.VStr direction);
                      ("amount", amount)]), w').
Proof.
  intros Hdir Hev. unfold TypeScrollTools.scroll, bind.
  destruct (String.eqb_spec (Py.lower direction) "down") as [Hd|Hd].
  - destruct (Hev ("window.scrollBy(0, " +:+ TypeScrollTools.fmt str_value amount
                   +:+ ")")) as [w' ->].
    by exists w'.
  - destruct Hdir as [Hdir|Hdir]; [done|]. rewrite Hdir. simpl.
    destruct (Hev ("window.scrollBy(0, -" +:+ TypeScrollTools.fmt str_value amount
                   +:+ ")")) as [w' ->].
    by exists w'.
Qed.

(** When the page raises on the script, so does [scroll]: nothing in the
    function catches it. *)
Lemma server_scroll_propagates direction amount w e w' :
  Py.lower direction = "down" ->
  evaluate page ("window.scrollBy(0, " +:+ Py.str_int amount +:+ ")") w = (inl e, w') ->
  scroll page direction amount w = (inl e, w').
Proof.
  intros Hd He. unfold scroll, bind. rewrite Hd. simpl. by rewrite He.
Qed.

Lemma server_scroll_runs direction amount w :
  Py.lower direction = "down" \/ Py.lower direction = "up" ->
  scrolls_or_propagates page (scroll page direction amount)
    (Py.VDict [("scrolled", Py.VBool true);
               ("direction", Py.VStr direction);
               ("amount", Py.VInt amount)]) w.
Proof.
  intros Hdir. unfold scrolls_or_propagates, scroll, bind.
  destruct (String.eqb_spec (Py.lower direction) "down") as [Hd|Hd].
  - exists ("window.scrollBy(0, " +:+ Py.str_int amount +:+ ")").
    destruct (evaluate page _ w) as [[e|[]] w']; reflexivity.
  - destruct Hdir as [Hdir|Hdir]; [done|]. rewrite Hdir. simpl.
    exists ("window.scrollBy(0, -" +:+ Py.str_int amount +:+ ")").
    destruct (evaluate page _ w) as [[e|[]] w']; reflexivity.
Qed.

Lemma tools_scroll_runs direction amount w :
  Py.lower direction = "down" \/ Py.lower direction = "up" ->
  scrolls_or_propagates page
    (TypeScrollTools.scroll str_value page (Py.VStr direction) amount)
    (Py.VDict [("scrolled", Py.VBool true);
               ("direction", Py.VStr direction);
               ("amount", amount)]) w.
Proof.
  intros Hdir. unfold scrolls_or_propagates, TypeScrollTools.scroll, bind.
  destruct (String.eqb_spec (Py.lower direction) "down") as [Hd|Hd].
  - exists ("window.scrollBy(0, " +:+ TypeScrollTools.fmt str_value amount +:+ ")").
    destruct (evaluate page _ w) as [[e|[]] w']; reflexivity.
  - destruct Hdir as [Hdir|Hdir]; [done|]. rewrite Hdir. simpl.
    exists ("window.scrollBy(0, -" +:+ TypeScrollTools.fmt str_value amount +:+ ")").
    destruct (evaluate page _ w) as [[e|[]] w']; reflexivity.
Qed.

(** C8: both scroll functions (the MCP tool and the one of
    08-type-scroll-tools.py), for every amount: a direction string that is
    neither "down" nor "up" once lower-cased gives
    [{scrolled: False, error: ...}] without raising and without touching
    the page; a direction that is "down" or "up" once lower-cased runs one
    script on the page and gives [{scrolled: True, direction, amount}],
    with the direction as passed, as soon as the page returns from it (the
    only other outcome is the exception of the page). *)
Theorem C8_scroll (direction : string) (w : W) :
  (Py.lower direction <> "down" -> Py.lower direction <> "up" ->
   (forall amount,
      scroll page direction amount w
      = (inr (Py.VDict [("scrolled", Py.VBool false);
                        ("error", Py.VStr ("Invalid direction: " +:+ direction))]), w))
   /\ (forall amount,
         TypeScrollTools.scroll str_value page (Py.VStr direction) amount w
         = (inr (Py.VDict [("scrolled", Py.VBool false);
                           ("error", Py.VStr ("Invalid direction: " +:+ direction))]), w)))
  /\ (Py.lower direction = "down" \/ Py.lower direction = "up" ->
      (forall amount,
         scrolls_or_propagates page (scroll page direction amount)
           (Py.VDict [("scrolled", Py.VBool true);
                      ("direction", Py.VStr direction);
                      ("amount", Py.VInt amount)]) w)
      /\ (forall amount,
            scrolls_or_propagates page
              (TypeScrollTools.scroll str_value page (Py.VStr direction) amount)
              (Py.VDict [("scrolled", Py.VBool true);
                         ("direction", Py.VStr direction);
                         ("amount", amount)]) w)
      /\ (evaluates page w ->
          (forall amount, exists w',
             scroll page direction amount w
             = (inr (Py.VDict [("scrolled", Py.VBool true);
                               ("direction", Py.VStr direction);
                               ("amount", Py.VInt amount)]), w'))
          /\ (forall amount, exists w',
                TypeScrollTools.scroll str_value page (Py.VStr direction) amount w
                = (inr (Py.VDict [("scrolled", Py.VBool true);
                                  ("direction", Py.VStr direction);
                                  ("amount", amount)]), w')))).
Proof.
  split.
  - intros Hd Hu. split; intros amount.
    + by apply server_scroll_invalid.
    + by apply tools_scroll_invalid.
  - intros Hdir. split; [|split].
    + intros amount. by apply server_scroll_runs.
    + intros amount. by apply tools_scroll_runs.
    + intros Hev. split; intros amount.
      * by apply server_scroll_valid.
      * by apply tools_scroll_valid.
Qed.

End ScrollProperties.

Example scroll_sideways :
  scroll recording_page "sideways" 300 []
  = (inr (Py.VDict [("scrolled", Py.VBool false);
                    ("error", Py.VStr "Invalid direction: sideways")]), []).
Proof. reflexivity. Qed.

Example scroll_Up :
  scroll recording_page "Up" 300 []
  = (inr (Py.VDict [("scrolled", Py.VBool true);
                    ("direction", Py.VStr "Up");
                    ("amount", Py.VInt 300)]),
     ["window.scrollBy(0, -300)"]).
Proof. reflexivity. Qed.

Lemma C8_scroll_witness :
  (forall amount,
     scroll recording_page "sideways" amount []
     = (inr (Py.VDict [("scrolled", Py.VBool false);
                       ("error", Py.VStr "Invalid direction: sideways")]), []))
  /\ (forall amount, exists w',
        scroll recording_page "DOWN" amount []
        = (inr (Py.VDict [("scrolled", Py.VBool true);
                          ("direction", Py.VStr "DOWN");
                          ("amount", Py.VInt amount)]), w')).
Proof.
  split.
  - apply (C8_scroll str_value_int recording_page "sideways" []); discriminate.
  - destruct (C8_scroll str_value_int recording_page "DOWN" []) as [_ H].
    destruct H as (_ & _ & H); [left; reflexivity|].
    apply H. intros script. eexists. reflexivity.
Defined.

(** ** The write_file tool and the artifact tracker *)

Lemma string_length_app (s1 s2 : string) :
  String.length (s1 +:+ s2) = String.length s1 + String.length s2.
Proof. induction s1 as [|c s1 IH]; simpl; [done|]. by rewrite IH. Qed.

Lemma substring_whole (s : string) : String.substring 0 (String.length s) s = s.
Proof. induction s as [|c s IH]; simpl; [done|]. by rewrite IH. Qed.

Lemma substring_skip_app (s1 s2 : string) n m :
  String.substring (String.length s1 + n) m (s1 +:+ s2) = String.substring n m s2.
Proof. induction s1 as [|c s1 IH]; simpl; done. Qed.

(** Only the end of a string decides [endswith]. *)
Lemma endswith_app (stem s suffix : string) :
  String.length suffix <= String.length s ->
  Py.endswith (stem +:+ s) suffix = Py.endswith s suffix.
Proof.
  intros Hle. unfold Py.endswith. rewrite string_length_app.
  replace (String.length stem + String.length s - String.length suffix)
    with (String.length stem + (String.length s - String.length suffix)) by lia.
  rewrite substring_skip_app. f_equal.
  destruct (Nat.leb_spec (String.length suffix) (String.length s)); [|lia].
  apply Nat.leb_le. lia.
Qed.

Lemma endswith_suffix (stem suffix : string) :
  Py.endswith (stem +:+ suffix) suffix = true.
Proof.
  rewrite endswith_app by done. unfold Py.endswith.
  rewrite Nat.leb_refl, Nat.sub_diag, substring_whole. simpl.
  apply String.eqb_refl.
Qed.

Lemma substring_split (s : string) n :
  n <= String.length s ->
  s = String.substring 0 n s +:+ String.substring n (String.length s - n) s.
Proof.
  revert n. induction s as [|c s IH]; intros [|n] Hn; simpl in *; try lia.
  - done.
  - by rewrite substring_whole.
  - change (String c s
            = String c (String.substring 0 n s
                        +:+ String.substring n (String.length s - n) s)).
    f_equal. apply IH. lia.
Qed.

Lemma endswith_inv (s suffix : string) :
  Py.endswith s suffix = true -> exists stem, s = stem +:+ suffix.
Proof.
  unfold Py.endswith. intros H. apply andb_true_iff in H as [Hle Heq].
  apply Nat.leb_le in Hle. apply String.eqb_eq in Heq.
  exists (String.substring 0 (String.length s - String.length suffix) s).
  assert (Hs := substring_split s (String.length s - String.length suffix)
                  ltac:(lia)).
  replace (String.length s - (String.length s - String.length suffix))
    with (String.length suffix) in Hs by lia.
  by rewrite Heq in Hs.
Qed.

(** The MIME type by extension. *)
Lemma mime_type_of_spec :
  (forall stem, mime_type_of (stem +:+ ".md") = "text/markdown")
  /\ (forall stem, mime_type_of (stem +:+ ".html") = "text/html")
  /\ (forall stem, mime_type_of (stem +:+ ".json") = "application/json")
  /\ (forall filename,
        (forall stem, filename <> stem +:+ ".md") ->
        (forall stem, filename <> stem +:+ ".html") ->
        (forall stem, filename <> stem +:+ ".json") ->
        mime_type_of filename = "text/plain").
Proof.
  unfold mime_type_of. repeat split.
  - intros stem. by rewrite endswith_suffix.
  - intros stem. rewrite (endswith_app stem ".html" ".md") by (simpl; lia).
    by rewrite endswith_suffix.
  - intros stem. rewrite (endswith_app stem ".json" ".md") by (simpl; lia).
    rewrite (endswith_app stem ".json" ".html") by (simpl; lia).
    by rewrite endswith_suffix.
  - intros filename Hmd Hhtml Hjson.
    destruct (Py.endswith filename ".md") eqn:E1.
    { apply endswith_inv in E1 as [stem ->]. by destruct (Hmd stem). }
    destruct (Py.endswith filename ".html") eqn:E2.
    { apply endswith_inv in E2 as [stem ->]. by destruct (Hhtml stem). }
    destruct (Py.endswith filename ".json") eqn:E3.
    { apply endswith_inv in E3 as [stem ->]. by destruct (Hjson stem). }
    done.
Qed.

Example write_file_r_md :
  write_file "s1" directory_os "r.md" "# Title" []
  = (inr (OutContent
            (EmbeddedResource
               (TextResourceContents "artifact://s1/r.md" (Some "text/markdown")
                  "# Title"))),
     [("artefacts/s1/r.md", "# Title")]).
Proof. reflexivity. Qed.

(** C7, as stated, fails: with the empty filename the path names the
    directory of the session, the write raises, and [write_file] returns
    the dict [{written: False, error: ...}], not a resource reference. *)
Lemma C7_write_failure_gives_no_resource :
  write_file "s1" directory_os "" "# Title" []
  = (inr (OutValue
            (Py.VDict [("written", Py.VBool false);
                       ("error", Py.VStr "[Errno 21] Is a directory: 'artefacts/s1/'")])),
     [])
  /\ ~ exists resource,
         (write_file "s1" directory_os "" "# Title" []).1
         = inr (OutContent (EmbeddedResource resource)).
Proof. split; [reflexivity|]. intros [resource H]. discriminate. Qed.

Section WriteFileProperties.

Context {W WC : Type}.
Variable SESSION_ID : string.
Variable os : Os W.
Variable b64decode : string -> Py.exn + string.
Variable session : ClientSession WC.

Lemma write_file_written filename content w w' :
  write_text os ("artefacts/" +:+ SESSION_ID +:+ "/" +:+ filename) content w
  = (inr tt, w') ->
  write_file SESSION_ID os filename content w
  = (inr (OutContent
            (EmbeddedResource
               (TextResourceContents
                  ("artifact://" +:+ SESSION_ID +:+ "/" +:+ filename)
                  (Some (mime_type_of filename))
                  (String.substring 0 100 content)))), w').
Proof. intros H. unfold write_file, try_except, bind. by rewrite H. Qed.

Lemma write_file_failed filename content w e w' :
  write_text os ("artefacts/" +:+ SESSION_ID +:+ "/" +:+ filename) content w
  = (inl e, w') ->
  write_file SESSION_ID os filename content w
  = (inr (OutValue (Py.VDict [("written", Py.VBool false);
                              ("error", Py.VStr (Py.str_exn e))])), w').
Proof. intros H. unfold write_file, try_except, bind. by rewrite H. Qed.

(** The client appends the uri of an embedded resource it receives to
    [artifact_uris]. *)
Lemma process_tool_request_tracks tool_name tool_id tool_input
    (st : ClientState WC) resource is_error w' :
  call_tool session tool_name tool_input (world st)
  = (inr {| ctr_content := [EmbeddedResource resource]; isError := is_error |}, w') ->
  (process_tool_request b64decode session tool_name tool_id tool_input st).2
  = mkClientState w' (artifact_uris st ++ [resource_uri resource]).
Proof.
  intros H. unfold process_tool_request, try_except, bind, session_call_tool.
  rewrite H. simpl. unfold bind, track_artifact. by destruct resource.
Qed.

(** C7, amended: for every filename and content for which the file can be
    written, [write_file] returns a resource reference whose uri is
    [artifact://{SESSION_ID}/{filename}] and whose mimeType follows the
    end of the filename: .md gives text/markdown, .html text/html, .json
    application/json, anything else text/plain; when the write raises it
    returns [{written: False, error: message}] instead. The client
    registers the uri of a resource reference it receives from a tool call
    in the artifact tracker. *)
Theorem C7_write_file (filename content : string) (w : W) :
  (forall w',
     write_text os ("artefacts/" +:+ SESSION_ID +:+ "/" +:+ filename) content w
     = (inr tt, w') ->
     exists resource,
       write_file SESSION_ID os filename content w
       = (inr (OutContent (EmbeddedResource resource)), w')
       /\ resource_uri resource = "artifact://" +:+ SESSION_ID +:+ "/" +:+ filename
       /\ resource_mimeType resource = Some (mime_type_of filename)
       /\ forall tool_id tool_input (st : ClientState WC) wc',
            call_tool session "write_file" tool_input (world st)
            = (inr {| ctr_content := [EmbeddedResource resource]; isError := false |},
               wc') ->
            artifact_uris
              (process_tool_request b64decode session "write_file" tool_id
                 tool_input st).2
            = artifact_uris st
              ++ ["artifact://" +:+ SESSION_ID +:+ "/" +:+ filename])
  /\ (forall e w',
        write_text os ("artefacts/" +:+ SESSION_ID +:+ "/" +:+ filename) content w
        = (inl e, w') ->
        write_file SESSION_ID os filename content w
        = (inr (OutValue (Py.VDict [("written", Py.VBool false);
                                    ("error", Py.VStr (Py.str_exn e))])), w'))
  /\ ((forall stem, mime_type_of (stem +:+ ".md") = "text/markdown")
      /\ (forall stem, mime_type_of (stem +:+ ".html") = "text/html")
      /\ (forall stem, mime_type_of (stem +:+ ".json") = "application/json")
      /\ (forall name,
            (forall stem, name <> stem +:+ ".md") ->
            (forall stem, name <> stem +:+ ".html") ->
            (forall stem, name <> stem +:+ ".json") ->
            mime_type_of name = "text/plain")).
Proof.
  split; [|split].
  - intros w' Hw. eexists. split; [by apply write_file_written|].
    split; [done|]. split; [done|].
    intros tool_id tool_input st wc' Hcall.
    by rewrite (process_tool_request_tracks _ _ _ _ _ _ _ Hcall).
  - intros e w' Hw. by apply write_file_failed.
  - apply mime_type_of_spec.
Qed.

End WriteFileProperties.

Lemma C7_write_file_witness :
  exists resource,
    write_file "s1" directory_os "r.md" "# Title" []
    = (inr (OutContent (EmbeddedResource resource)),
       [("artefacts/s1/r.md", "# Title")])
    /\ resource_uri resource = "artifact://s1/r.md"
    /\ resource_mimeType resource = Some "text/markdown"
    /\ artifact_uris
         (process_tool_request b64decode_ok write_file_session "write_file" (Some "t1")
            (Py.VDict [("filename", Py.VStr "r.md"); ("content", Py.VStr "# Title")])
            (mkClientState [] [])).2
       = ["artifact://s1/r.md"].
Proof.
  destruct (C7_write_file "s1" directory_os b64decode_ok write_file_session
              "r.md" "# Title" []) as (H & _ & _).
  destruct (H [("artefacts/s1/r.md", "# Title")]) as (resource & Hw & Hu & Hm & Ht);
    [reflexivity|].
  exists resource. split; [done|]. split; [done|]. split; [done|].
  apply (Ht (Some "t1")
            (Py.VDict [("filename", Py.VStr "r.md"); ("content", Py.VStr "# Title")])
            (mkClientState [] []) [("artefacts/s1/r.md", "# Title")]).
  vm_compute in Hw. injection Hw as <-. reflexivity.
Defined.

(** ** The user turn of 08-type-scroll-tools.py *)

Section RunExampleProperties.

Context {W : Type}.
Variable SESSION_ID : string.
Variable json_loads : string -> Py.exn + Py.value.
Variable str_value : Py.value -> string.
Variable page : Page W.
Variable os : Os W.

Lemma get_page_info_returns w :
  exists t u w', TypeScrollTools.get_page_info page w = (inr (t, u), w').
Proof.
  unfold TypeScrollTools.get_page_info, try_except, bind.
  destruct (title page w) as [[e|t] w1]; [by eexists _, _, _|].
  destruct (url page w1) as [[e|u] w2]; by eexists _, _, _.
Qed.

Lemma unknown_tool_skipped tool rest tool_content w d :
  tu_name tool ∉ known_tools ->
  default (Py.VDict []) (tu_input tool) = Py.VDict d ->
  TypeScrollTools.dispatch_tool_uses SESSION_ID json_loads str_value page os
    (toolUse_item tool :: rest) tool_content w
  = TypeScrollTools.dispatch_tool_uses SESSION_ID json_loads str_value page os
      rest tool_content w.
Proof.
  intros Hname Hin. simpl. rewrite Hin. unfold bind at 1. simpl.
  unfold known_tools in Hname.
  repeat match goal with
         | |- context [String.eqb (tu_name tool) ?n] =>
             destruct (String.eqb_spec (tu_name tool) n) as [Heq|_];
             [exfalso; apply Hname; rewrite Heq; set_solver|]
         end.
  done.
Qed.

(** C3 on 08-type-scroll-tools.py: an assistant turn that requests a tool
    whose name is not one of the six the loop knows gets a user turn that
    holds the trailing text item only; no toolResult carries the id of the
    request. *)
Theorem C3_unknown_tool_left_unanswered (tool : ToolUse) (d : list (string * Py.value))
    (w : W) :
  tu_name tool ∉ known_tools ->
  default (Py.VDict []) (tu_input tool) = Py.VDict d ->
  exists t u w',
    TypeScrollTools.run_example_tool_turn SESSION_ID json_loads str_value page os
      {| role := "assistant"; content := Some [toolUse_item tool] |} w
    = (inr {| role := "user";
              content :=
                Some [text_item ("Current page: Title: '" +:+ t +:+ "', URL: '"
                                 +:+ u +:+ "'")] |}, w').
Proof.
  intros Hname Hin.
  assert (Hd : TypeScrollTools.dispatch_tool_uses SESSION_ID json_loads str_value
                 page os
                 (get_content {| role := "assistant";
                                 content := Some [toolUse_item tool] |}) [] w
               = (inr [], w)).
  { change (get_content _) with [toolUse_item tool].
    by rewrite (unknown_tool_skipped _ _ _ _ _ Hname Hin). }
  unfold TypeScrollTools.run_example_tool_turn, bind. rewrite Hd.
  destruct (get_page_info_returns w) as (t & u & w' & ->).
  by exists t, u, w'.
Qed.

End RunExampleProperties.

Lemma C3_unknown_tool_left_unanswered_witness :
  exists t u w',
    TypeScrollTools.run_example_tool_turn "s1" json_loads_none str_value_int
      recording_page quiet_os
      {| role := "assistant"; content := Some [toolUse_item write_file_request] |} []
    = (inr {| role := "user";
              content :=
                Some [text_item ("Current page: Title: '" +:+ t +:+ "', URL: '"
                                 +:+ u +:+ "'")] |}, w').
Proof.
  apply (C3_unknown_tool_left_unanswered "s1" json_loads_none str_value_int
           recording_page quiet_os write_file_request
           [("filename", Py.VStr "r.md"); ("content", Py.VStr "# Title")] []).
  - unfold known_tools. intros Hin.
    repeat (apply elem_of_cons in Hin as [Hin|Hin]; [discriminate|]).
    by apply elem_of_nil in Hin.
  - reflexivity.
Defined.

Example run_example_write_file_unanswered :
  TypeScrollTools.run_example_tool_turn "s1" json_loads_none str_value_int
    recording_page quiet_os
    {| role := "assistant"; content := Some [toolUse_item write_file_request] |} []
  = (inr {| role := "user";
            content :=
              Some [text_item "Current page: Title: 'Shop', URL: 'https://x'"] |}, []).
Proof. reflexivity. Qed.

(** A request for a tool the loop knows is answered, with its id. *)
Example run_example_scroll_answered :
  TypeScrollTools.run_example_tool_turn "s1" json_loads_none str_value_int
    recording_page quiet_os
    {| role := "assistant";
       content :=
         Some [toolUse_item
                 (mkToolUse (Some "t8") "scroll"
                    (Some (Py.VDict [("direction", Py.VStr "down")])))] |} []
  = (inr {| role := "user";
            content :=
              Some [toolResult_item
                      {| tr_toolUseId := Some "t8";
                         tr_content :=
                           [TRJson (Py.VDict [("scrolled", Py.VBool true);
                                              ("direction", Py.VStr "down");
                                              ("amount", Py.VInt 500)])] |};
                    text_item "Current page: Title: 'Shop', URL: 'https://x'"] |},
     ["window.scrollBy(0, 500)"]).
Proof. reflexivity. Qed.

(** The same unknown request through the loop of [run_client] gets its
    toolResult. *)
Example run_client_unknown_tool_answered :
  run_client_tool_turn b64decode_ok json_loads_none str_value_int one_tool_session
    {| role := "assistant";
       content := Some [toolUse_item (mkToolUse (Some "t7") "frobnicate" None)] |}
    (mkClientState tt [])
  = (inr {| role := "user";
            content :=
              Some [toolResult_item
                      {| tr_toolUseId := Some "t7";
                         tr_content :=
                           [TRJson (Py.VDict
                                      [("error", Py.VStr "Unknown tool: frobnicate")])] |};
                    text_item
                      "Current page: Current page: Title: 'Shop', URL: 'https://x'"] |},
     mkClientState tt []).
Proof. reflexivity. Qed.

(** ** The compaction functions over the object store *)

Module StoreProperties.

Import Store StoreSpec.

(** *** Objects of the caller and new objects

    [h0] is the store at the call. An object is new when [h0] has nothing
    at its location. The invariant of a run: every object of [h0] is still
    there, unchanged, and a new object refers to new objects only. *)

Section Frame.

Variable h0 : heap.

Local Abbreviation new := (StoreSpec.new h0).
Local Abbreviation inv := (StoreSpec.inv h0).
Local Abbreviation safe := (StoreSpec.safe h0).
Local Abbreviation memo_new := (StoreSpec.memo_new h0).

Lemma inv_start : inv h0.
Proof. split; [done|]. intros y o Hy Ho. unfold StoreSpec.new in Hy. congruence. Qed.

Lemma safe_ret {A} (a : A) (Q : A -> Prop) : Q a -> safe (ret a) Q.
Proof. intros HQ h Hinv. done. Qed.

Lemma safe_raise {A} e (Q : A -> Prop) : safe (raise e) Q.
Proof. intros h Hinv. done. Qed.

Lemma safe_bind {A B} (m : M heap A) (k : A -> M heap B) (P : A -> Prop)
    (Q : B -> Prop) :
  safe m P -> (forall a, P a -> safe (k a) Q) -> safe (bind m k) Q.
Proof.
  intros Hm Hk h Hinv. unfold bind.
  destruct (Hm h Hinv) as [Hinv' HP].
  destruct (m h) as [[e|a] h']; simpl in *; [done|].
  by apply Hk.
Qed.

Lemma safe_try {A} (body : M heap A) (handler : Py.exn -> M heap A) (Q : A -> Prop) :
  safe body Q -> (forall e, safe (handler e) Q) -> safe (try_except body handler) Q.
Proof.
  intros Hb Hh h Hinv. unfold try_except.
  destruct (Hb h Hinv) as [Hinv' HQ].
  destruct (body h) as [[e|a] h']; simpl in *; [|done].
  by apply Hh.
Qed.

Lemma safe_weaken {A} (m : M heap A) (P Q : A -> Prop) :
  safe m P -> (forall a, P a -> Q a) -> safe m Q.
Proof.
  intros Hm HPQ h Hinv. destruct (Hm h Hinv) as [Hinv' HP].
  split; [done|]. destruct (m h).1; auto.
Qed.

Lemma safe_lift {A} (r : Py.exn + A) : safe (lift_result r) (fun _ => True).
Proof. destruct r; [apply safe_raise|by apply safe_ret]. Qed.

Lemma safe_if {A} (b : bool) (m1 m2 : M heap A) (Q : A -> Prop) :
  safe m1 Q -> safe m2 Q -> safe (if b then m1 else m2) Q.
Proof. by destruct b. Qed.

(** The primitives. *)
Lemma safe_type_error {A} (Q : A -> Prop) : safe type_error Q.
Proof. apply safe_raise. Qed.

Lemma safe_alloc o : Forall new (refs o) -> safe (alloc o) new.
Proof.
  intros Hrefs h [Hsub Hclosed]. unfold alloc. simpl.
  assert (Hfresh : h !! fresh (dom h) = None).
  { apply not_elem_of_dom. apply is_fresh. }
  assert (Hnew : new (fresh (dom h))).
  { unfold StoreSpec.new. by eapply lookup_weaken_None. }
  split; [split|done].
  - by apply insert_subseteq_r.
  - intros y o' Hy. rewrite lookup_insert.
    case_decide as Heq; [by intros [= <-]|]. by apply Hclosed.
Qed.

Lemma safe_read l : safe (read l) (fun _ => True).
Proof.
  intros h Hinv. unfold read. destruct (h !! l); [done|]. by apply safe_type_error.
Qed.

Lemma safe_read_new l : new l -> safe (read l) (fun o => Forall new (refs o)).
Proof.
  intros Hl h Hinv. unfold read.
  destruct (h !! l) as [o|] eqn:Ho; [|by apply safe_type_error].
  split; [done|]. destruct Hinv as [_ Hclosed]. by eapply Hclosed.
Qed.

Lemma safe_write l o : new l -> Forall new (refs o) -> safe (write l o) (fun _ => True).
Proof.
  intros Hl Hrefs h [Hsub Hclosed]. unfold write. simpl.
  split; [split|done].
  - by apply insert_subseteq_r.
  - intros y o' Hy. rewrite lookup_insert.
    case_decide as Heq; [by intros [= <-]|]. by apply Hclosed.
Qed.

(** The typed reads. *)
Lemma safe_read_list l : safe (read_list l) (fun _ => True).
Proof.
  eapply safe_bind; [apply safe_read|]. intros [elems|r c|it] _;
    [by apply safe_ret|apply safe_type_error..].
Qed.

Lemma safe_read_list_new l : new l -> safe (read_list l) (Forall new).
Proof.
  intros Hl. eapply safe_bind; [by apply safe_read_new|].
  intros [elems|r c|it] Hrefs; [by apply safe_ret|apply safe_type_error..].
Qed.

Lemma safe_read_message l : safe (read_message l) (fun _ => True).
Proof.
  eapply safe_bind; [apply safe_read|]. intros [elems|r c|it] _;
    [apply safe_type_error|by apply safe_ret|apply safe_type_error].
Qed.

Lemma safe_read_message_new l :
  new l -> safe (read_message l) (fun rc => Forall new (option_list rc.2)).
Proof.
  intros Hl. eapply safe_bind; [by apply safe_read_new|].
  intros [elems|r c|it] Hrefs;
    [apply safe_type_error|by apply safe_ret|apply safe_type_error].
Qed.

Lemma safe_read_item l : safe (read_item l) (fun _ => True).
Proof.
  eapply safe_bind; [apply safe_read|]. intros [elems|r c|it] _;
    [apply safe_type_error..|by apply safe_ret].
Qed.

(** The writes: each one is to a new object and stores new references. *)
Lemma safe_list_append l x : new l -> new x -> safe (list_append l x) (fun _ => True).
Proof.
  intros Hl Hx. eapply safe_bind; [by apply safe_read_list_new|].
  intros elems Helems. apply safe_write; [done|].
  simpl. apply Forall_app. split; [done|]. by constructor.
Qed.

Lemma safe_list_insert0 l x : new l -> new x -> safe (list_insert0 l x) (fun _ => True).
Proof.
  intros Hl Hx. eapply safe_bind; [by apply safe_read_list_new|].
  intros elems Helems. apply safe_write; [done|]. by constructor.
Qed.

Lemma safe_list_extend l other :
  new l -> new other -> safe (list_extend l other) (fun _ => True).
Proof.
  intros Hl Ho. eapply safe_bind; [by apply safe_read_list_new|].
  intros xs Hxs. eapply safe_bind; [by apply safe_read_list_new|].
  intros elems Helems. apply safe_write; [done|].
  simpl. by apply Forall_app.
Qed.

Lemma safe_set_content l c : new l -> new c -> safe (set_content l c) (fun _ => True).
Proof.
  intros Hl Hc. eapply safe_bind; [apply safe_read_message|].
  intros rc _. apply safe_write; [done|]. simpl. by constructor.
Qed.

Lemma safe_mapM {A B} (f : A -> M heap B) (xs : list A) :
  (forall x, safe (f x) (fun _ => True)) -> safe (mapM f xs) (fun _ => True).
Proof.
  intros Hf. induction xs as [|x xs IH]; simpl; [by apply safe_ret|].
  eapply safe_bind; [apply Hf|]. intros y _.
  eapply safe_bind; [apply IH|]. intros ys _. by apply safe_ret.
Qed.

Lemma safe_load_message l : safe (load_message l) (fun _ => True).
Proof.
  eapply safe_bind; [apply safe_read_message|]. intros rc _.
  destruct rc.2 as [cl|]; [|by apply safe_ret].
  eapply safe_bind; [apply safe_read_list|]. intros item_locs _.
  eapply safe_bind; [apply safe_mapM; apply safe_read_item|]. intros items _.
  by apply safe_ret.
Qed.

Lemma safe_load_messages l : safe (load_messages l) (fun _ => True).
Proof.
  eapply safe_bind; [apply safe_read_list|]. intros message_locs _.
  apply safe_mapM. apply safe_load_message.
Qed.

(** *** The deep copy makes new objects only *)

Lemma memo_new_insert memo x y : memo_new memo -> new y -> memo_new (<[x := y]> memo).
Proof.
  intros Hm Hy x' y'. rewrite lookup_insert.
  case_decide; [by intros [= <-]|]. apply Hm.
Qed.

Lemma safe_copy_elems copy y elems memo :
  (forall a memo, memo_new memo ->
                  safe (copy a memo) (fun r => new r.1 /\ memo_new r.2)) ->
  new y -> memo_new memo ->
  safe (copy_elems copy y elems memo) memo_new.
Proof.
  intros Hcopy Hy. revert memo.
  induction elems as [|a rest IH]; intros memo Hmemo; simpl.
  - by apply safe_ret.
  - eapply safe_bind; [by apply Hcopy|]. intros r [Hr Hm].
    eapply safe_bind; [by apply safe_list_append|]. intros _ _. by apply IH.
Qed.

Lemma safe_deepcopy fuel x memo :
  memo_new memo ->
  safe (deepcopy fuel x memo) (fun r => new r.1 /\ memo_new r.2).
Proof.
  revert x memo. induction fuel as [|fuel IH]; intros x memo Hmemo; simpl.
  - destruct (memo !! x) as [y|] eqn:Hx; [|apply safe_raise].
    apply safe_ret. split; [by eapply Hmemo|done].
  - destruct (memo !! x) as [y|] eqn:Hx.
    { apply safe_ret. split; [by eapply Hmemo|done]. }
    eapply safe_bind; [apply safe_read|]. intros [elems|r c|it] _.
    + eapply safe_bind; [by apply safe_alloc|]. intros y Hy.
      eapply safe_bind.
      { apply safe_copy_elems; [apply IH|done|by apply memo_new_insert]. }
      intros memo' Hmemo'. by apply safe_ret.
    + eapply safe_bind; [by apply safe_alloc|]. intros y Hy.
      destruct c as [cl|].
      * eapply safe_bind; [apply IH; by apply memo_new_insert|].
        intros r' [Hr' Hm'].
        eapply safe_bind; [by apply safe_set_content|]. intros _ _.
        by apply safe_ret.
      * apply safe_ret. split; [done|]. by apply memo_new_insert.
    + eapply safe_bind; [by apply safe_alloc|]. intros y Hy.
      apply safe_ret. split; [done|]. by apply memo_new_insert.
Qed.

Lemma safe_deepcopy_messages recursion_limit messages :
  safe (deepcopy_messages recursion_limit messages) new.
Proof.
  eapply safe_bind; [by apply safe_deepcopy|]. intros r [Hr _]. by apply safe_ret.
Qed.

(** *** remove_media_except_last_turn writes to the copy only *)

Lemma safe_find_user_indices rev_locs i last_user_index second :
  safe (find_user_indices rev_locs i last_user_index second) (fun _ => True).
Proof.
  revert i last_user_index second.
  induction rev_locs as [|msg rest IH]; intros i last_user_index second; simpl.
  - by apply safe_ret.
  - eapply safe_bind; [apply safe_read_message|]. intros rc _.
    apply safe_if; [|apply IH].
    destruct last_user_index; [by apply safe_ret|apply IH].
Qed.

Lemma safe_strip_loop item_locs new_content removed_media :
  Forall new item_locs -> new new_content ->
  safe (strip_loop item_locs new_content removed_media) (fun _ => True).
Proof.
  intros Hitems Hnc. revert removed_media.
  induction Hitems as [|content_item rest Hi Hrest IH]; intros removed_media; simpl.
  - by apply safe_ret.
  - eapply safe_bind; [apply safe_read_item|]. intros it _.
    repeat apply safe_if; try apply IH.
    + eapply safe_bind; [by apply safe_list_append|]. intros _ _. apply IH.
    + eapply safe_bind; [by apply safe_list_append|]. intros _ _. apply IH.
Qed.

Lemma safe_strip_message message :
  new message -> safe (strip_message message) (fun _ => True).
Proof.
  intros Hm. eapply safe_bind; [by apply safe_read_message_new|].
  intros [r [cl|]] Hrc; simpl in *; [|by apply safe_ret].
  apply Forall_cons_1 in Hrc as [Hcl _].
  eapply safe_bind; [by apply safe_read_list_new|]. intros item_locs Hitems.
  eapply safe_bind; [by apply safe_alloc|]. intros new_content Hnc.
  eapply safe_bind; [by apply safe_strip_loop|]. intros removed_media _.
  eapply safe_bind; [apply safe_read_list|]. intros kept _.
  eapply safe_bind with (P := fun _ => True);
    [|intros _ _; by apply safe_set_content].
  apply safe_if; [|by apply safe_ret].
  eapply safe_bind; [by apply safe_alloc|]. intros placeholder Hp.
  by apply safe_list_append.
Qed.

Lemma safe_strip_all message_locs i len last_user_index :
  Forall new message_locs ->
  safe (strip_all message_locs i len last_user_index) (fun _ => True).
Proof.
  intros Hm. revert i.
  induction Hm as [|message rest Hmsg Hrest IH]; intros i; simpl.
  - by apply safe_ret.
  - eapply safe_bind with (P := fun _ => True); [|intros _ _; apply IH].
    apply safe_if; [by apply safe_ret|by apply safe_strip_message].
Qed.

Lemma safe_remove_media recursion_limit messages :
  safe (remove_media_except_last_turn recursion_limit messages)
    (fun r => r = messages \/ new r).
Proof.
  eapply safe_bind; [apply safe_read_list|]. intros message_locs _.
  apply safe_if; [apply safe_ret; by left|].
  eapply safe_bind; [apply safe_deepcopy_messages|]. intros processed Hp.
  eapply safe_bind; [by apply safe_read_list_new|]. intros processed_locs Hlocs.
  eapply safe_bind; [apply safe_find_user_indices|]. intros indices _.
  eapply safe_bind; [by apply safe_strip_all|]. intros _ _.
  apply safe_ret. by right.
Qed.

(** *** summarize_conversation writes to lists of its own only *)

Lemma safe_collect_last rev_locs last_messages message_count turn_count :
  Forall new rev_locs -> new last_messages ->
  safe (collect_last rev_locs last_messages message_count turn_count) (fun _ => True).
Proof.
  intros Hlocs Hl. revert message_count turn_count.
  induction Hlocs as [|msg rest Hmsg Hrest IH]; intros message_count turn_count; simpl.
  - by apply safe_ret.
  - eapply safe_bind; [by apply safe_list_insert0|]. intros _ _.
    eapply safe_bind; [apply safe_read_message|]. intros rc _.
    eapply safe_bind with (P := fun _ => True).
    { apply safe_if; [|by apply safe_ret].
      destruct rest as [|prev rest']; [by apply safe_ret|].
      eapply safe_bind; [apply safe_read_message|]. intros rp _. by apply safe_ret. }
    intros turn _. apply safe_if; [by apply safe_ret|apply IH].
Qed.

Lemma safe_collect_tool_use item_locs tool_use_content :
  Forall new item_locs -> new tool_use_content ->
  safe (collect_tool_use item_locs tool_use_content) (fun _ => True).
Proof.
  intros Hitems Ht.
  induction Hitems as [|content_item rest Hi Hrest IH]; simpl.
  - by apply safe_ret.
  - eapply safe_bind; [apply safe_read_item|]. intros it _.
    eapply safe_bind with (P := fun _ => True); [|intros _ _; apply IH].
    apply safe_if; [by apply safe_list_append|by apply safe_ret].
Qed.

Lemma Forall_slice {A} (P : A -> Prop) lo hi (l : list A) :
  Forall P l -> Forall P (Py.slice lo hi l).
Proof. intros H. unfold Py.slice. by apply Forall_take, Forall_drop. Qed.

Lemma Forall_last {A} (P : A -> Prop) (l : list A) x :
  Forall P l -> last l = Some x -> P x.
Proof.
  intros H Hl. apply last_Some in Hl as [l' ->].
  apply Forall_app in H as [_ H]. by apply Forall_cons_1 in H as [H _].
Qed.

Lemma safe_summarize recursion_limit messages client :
  safe (summarize_conversation recursion_limit messages client)
    (fun r => r = messages \/ new r).
Proof.
  eapply safe_bind; [apply safe_read_list|]. intros message_locs _.
  apply safe_if; [apply safe_ret; by left|].
  eapply safe_bind; [apply safe_deepcopy_messages|]. intros processed Hp.
  eapply safe_bind; [by apply safe_read_list_new|]. intros processed_locs Hlocs.
  destruct processed_locs as [|first_message rest_locs] eqn:Hpl; [apply safe_raise|].
  rewrite <- Hpl in *. assert (Hfirst : new first_message).
  { rewrite Hpl in Hlocs. by apply Forall_cons_1 in Hlocs as [H _]. }
  clear Hpl.
  eapply safe_bind; [by apply safe_alloc|]. intros last_messages Hlast.
  eapply safe_bind.
  { apply safe_collect_last; [|done]. by apply Forall_reverse. }
  intros counts _.
  eapply safe_bind.
  { apply safe_alloc. simpl. by apply Forall_slice. }
  intros to_summarize Hts.
  eapply safe_bind; [by apply safe_read_list_new|]. intros to_summarize_locs Htsl.
  apply safe_if; [apply safe_ret; by right|].
  eapply safe_bind; [by apply safe_alloc|]. intros tool_use_content Htuc.
  eapply safe_bind with (P := fun _ => True).
  { destruct (last to_summarize_locs) as [last_message|] eqn:Hl; [|by apply safe_ret].
    eapply safe_bind.
    { apply safe_read_message_new. by eapply Forall_last. }
    intros [r [cl|]] Hrc; simpl in *; (apply safe_if; [|by apply safe_ret]);
      [|by apply safe_ret].
    apply Forall_cons_1 in Hrc as [Hcl _].
    eapply safe_bind; [by apply safe_read_list_new|]. intros item_locs Hitems.
    by apply safe_collect_tool_use. }
  intros _ _.
  eapply safe_bind; [apply safe_mapM; apply safe_load_message|].
  intros to_summarize_values _.
  apply safe_try; [|intros e; apply safe_ret; by right].
  eapply safe_bind; [apply safe_lift|]. intros summary_response _.
  eapply safe_bind; [by apply safe_alloc|]. intros summary_item Hsi.
  eapply safe_bind; [apply safe_alloc; by repeat constructor|].
  intros summary_content Hsc.
  eapply safe_bind; [apply safe_read_list|]. intros requests _.
  eapply safe_bind with (P := fun _ => True).
  { apply safe_if; [by apply safe_ret|by apply safe_list_extend]. }
  intros _ _.
  eapply safe_bind; [apply safe_alloc; by repeat constructor|].
  intros summary_message Hsm.
  eapply safe_bind; [apply safe_alloc; by repeat constructor|].
  intros result Hres.
  eapply safe_bind; [by apply safe_list_extend|]. intros _ _.
  eapply safe_bind; [apply safe_load_messages|]. intros result_values _.
  apply safe_if; apply safe_ret; [by left|by right].
Qed.

End Frame.

(** *** Loading reads only, and reads the same from a larger store *)

Lemma reader_ret {A} (a : A) : reader (ret a).
Proof. intros h h' a' h1 Hsub [= <- <-]. done. Qed.

Lemma reader_type_error {A} : reader (@type_error A).
Proof. intros h h' a h1 Hsub H. discriminate. Qed.

Lemma reader_bind {A B} (m : M heap A) (k : A -> M heap B) :
  reader m -> (forall a, reader (k a)) -> reader (bind m k).
Proof.
  intros Hm Hk h h' b h1 Hsub. unfold bind.
  destruct (m h) as [[e|a] h2] eqn:Hmh; [discriminate|].
  destruct (Hm _ _ _ _ Hsub Hmh) as [-> ->]. by apply Hk.
Qed.

Lemma reader_read l : reader (read l).
Proof.
  intros h h' o h1 Hsub. unfold read.
  destruct (h !! l) as [o'|] eqn:Hl; [|discriminate].
  intros [= <- <-]. by rewrite (lookup_weaken _ _ _ _ Hl Hsub).
Qed.

Lemma reader_mapM {A B} (f : A -> M heap B) (xs : list A) :
  (forall x, reader (f x)) -> reader (mapM f xs).
Proof.
  intros Hf. induction xs as [|x xs IH]; simpl; [apply reader_ret|].
  apply reader_bind; [apply Hf|]. intros y.
  apply reader_bind; [apply IH|]. intros ys. apply reader_ret.
Qed.

Lemma reader_read_list l : reader (read_list l).
Proof.
  apply reader_bind; [apply reader_read|].
  intros [elems|r c|it]; [apply reader_ret|apply reader_type_error..].
Qed.

Lemma reader_read_message l : reader (read_message l).
Proof.
  apply reader_bind; [apply reader_read|].
  intros [elems|r c|it];
    [apply reader_type_error|apply reader_ret|apply reader_type_error].
Qed.

Lemma reader_read_item l : reader (read_item l).
Proof.
  apply reader_bind; [apply reader_read|].
  intros [elems|r c|it]; [apply reader_type_error..|apply reader_ret].
Qed.

Lemma reader_load_message l : reader (load_message l).
Proof.
  apply reader_bind; [apply reader_read_message|]. intros [r [cl|]]; simpl.
  - apply reader_bind; [apply reader_read_list|]. intros item_locs.
    apply reader_bind; [apply reader_mapM, reader_read_item|]. intros items.
    apply reader_ret.
  - apply reader_ret.
Qed.

Lemma reader_load_messages l : reader (load_messages l).
Proof.
  apply reader_bind; [apply reader_read_list|]. intros message_locs.
  apply reader_mapM, reader_load_message.
Qed.

(** C10: in every store and for every reference [messages], a call of
    [remove_media_except_last_turn] or of [summarize_conversation], whether
    it returns or raises, leaves every object that was in the store as it
    was: the list, its turns, their content lists and content items. The
    transcript read from [messages] is therefore the same after the call.
    What the call returns is [messages] itself or a new object, and new
    objects refer to new objects only: the lists and dicts the functions
    write to come from the deep copy or are lists of their own. *)
Theorem C10_compaction_leaves_input_unchanged (recursion_limit : nat)
    (client : BedrockClient) (messages : loc) (h : heap) :
  let stripped := remove_media_except_last_turn recursion_limit messages h in
  let summarized := summarize_conversation recursion_limit messages client h in
  (forall l o, h !! l = Some o ->
     stripped.2 !! l = Some o /\ summarized.2 !! l = Some o)
  /\ (forall transcript,
        load_messages messages h = (inr transcript, h) ->
        load_messages messages stripped.2 = (inr transcript, stripped.2)
        /\ load_messages messages summarized.2 = (inr transcript, summarized.2))
  /\ (forall r, stripped.1 = inr r \/ summarized.1 = inr r ->
        r = messages \/ h !! r = None)
  /\ (forall y o, h !! y = None ->
        stripped.2 !! y = Some o \/ summarized.2 !! y = Some o ->
        Forall (fun r => h !! r = None) (refs o)).
Proof.
  intros stripped summarized.
  destruct (safe_remove_media h recursion_limit messages h (inv_start h))
    as [[Hsub1 Hclosed1] Hr1].
  destruct (safe_summarize h recursion_limit messages client h (inv_start h))
    as [[Hsub2 Hclosed2] Hr2].
  fold stripped in Hsub1, Hclosed1, Hr1. fold summarized in Hsub2, Hclosed2, Hr2.
  split; [|split; [|split]].
  - intros l o Hl. split; by eapply lookup_weaken.
  - intros transcript Hload. split.
    + by apply (reader_load_messages messages h stripped.2 transcript h).
    + by apply (reader_load_messages messages h summarized.2 transcript h).
  - intros r [Hr|Hr].
    + rewrite Hr in Hr1. done.
    + rewrite Hr in Hr2. done.
  - intros y o Hy [Ho|Ho]; [by eapply Hclosed1|by eapply Hclosed2].
Qed.

(** The stripped copy holds the placeholder; the transcript read from the
    argument afterwards still holds the image. *)
Example remove_media_on_store :
  run_on image_transcript (remove_media_except_last_turn 8)
  = inr ([ {| role := "user"; content := Some [media_placeholder] |};
           {| role := "assistant"; content := Some [text_item "I see a shop."] |};
           {| role := "user"; content := Some [text_item "Current page: x"] |} ],
         image_transcript).
Proof. vm_compute. reflexivity. Qed.

Example remove_media_on_store_agrees :
  run_on image_transcript (remove_media_except_last_turn 8)
  = inr (remove_media_value image_transcript, image_transcript).
Proof. vm_compute. reflexivity. Qed.

Example summarize_on_store_agrees :
  run_on seven_turns
    (fun l => summarize_conversation 8 l (answering_client "shop opened"))
  = inr (summarize_value seven_turns (answering_client "shop opened"),
         seven_turns).
Proof. vm_compute. reflexivity. Qed.

Example summarize_on_store_failing :
  run_on seven_turns (fun l => summarize_conversation 8 l failing_client)
  = inr (seven_turns, seven_turns).
Proof. vm_compute. reflexivity. Qed.

Lemma C10_compaction_leaves_input_unchanged_witness :
  (load_messages image_messages
     (remove_media_except_last_turn 8 image_messages image_store).2).1
  = inr image_transcript
  /\ (load_messages seven_messages
        (summarize_conversation 8 seven_messages (answering_client "shop opened")
           seven_store).2).1
     = inr seven_turns.
Proof.
  split.
  - destruct (C10_compaction_leaves_input_unchanged 8 failing_client image_messages
                image_store) as (_ & H & _).
    destruct (H image_transcript) as [H1 _]; [vm_compute; reflexivity|].
    by rewrite H1.
  - destruct (C10_compaction_leaves_input_unchanged 8
                (answering_client "shop opened") seven_messages seven_store)
      as (_ & H & _).
    destruct (H seven_turns) as [_ H2]; [vm_compute; reflexivity|].
    by rewrite H2.
Defined.

End StoreProperties.

(* ===================================================================== *)
(** * Further properties *)
(* ===================================================================== *)

(** ** The empty-text filter, again *)

Lemma filter_filter {A} (p : A -> bool) (l : list A) :
  List.filter p (List.filter p l) = List.filter p l.
Proof.
  induction l as [|x l IH]; simpl; [done|].
  destruct (p x) eqn:E; simpl; rewrite ?E, IH; done.
Qed.

(** X1: filtering a message that has been filtered changes nothing. *)
Theorem X1_filter_empty_text_content_idempotent (message : Message) :
  filter_empty_text_content (filter_empty_text_content message)
  = filter_empty_text_content message.
Proof.
  unfold filter_empty_text_content.
  destruct (content message) as [items|] eqn:E; simpl.
  - rewrite !filter_loop_filter. simpl. by rewrite filter_filter.
  - by rewrite E.
Qed.

(** ** Media stripping: which messages are stripped *)

Lemma find_user_indices_found rev_msgs i x second :
  (find_user_indices rev_msgs i (Some x) second).1 = Some x.
Proof.
  revert i second. induction rev_msgs as [|m rest IH]; intros i second; simpl; [done|].
  destruct (is_user m); [done|]. apply IH.
Qed.

Lemma find_user_indices_no_user rev_msgs i second :
  no_user rev_msgs -> find_user_indices rev_msgs i None second = (None, second).
Proof.
  intros H. revert i. induction H as [|m rest Hm _ IH]; intros i; simpl; [done|].
  rewrite Hm. apply IH.
Qed.

Lemma find_user_indices_first r1 u r2 i second :
  no_user r1 -> is_user u = true ->
  (find_user_indices (r1 ++ u :: r2) i None second).1 = Some (i - length r1).
Proof.
  intros H Hu. revert i. induction H as [|m rest Hm _ IH]; intros i; simpl.
  - rewrite Hu, find_user_indices_found. f_equal. lia.
  - rewrite Hm, IH. f_equal. lia.
Qed.

Lemma no_user_reverse l : no_user l -> no_user (reverse l).
Proof. unfold no_user. rewrite !Forall_forall. intros H m Hm. apply H. set_solver. Qed.

(** The messages before index [n] are stripped, the others kept. *)
Lemma imap_strip_before (l1 l2 : list Message) (f : nat -> Message -> Message) :
  (forall i m, i < length l1 -> f i m = strip_message m) ->
  (forall i m, length l1 <= i -> i < length l1 + length l2 -> f i m = m) ->
  imap f (l1 ++ l2) = (strip_message <$> l1) ++ l2.
Proof.
  intros H1 H2. rewrite imap_app. f_equal.
  - rewrite <- (imap_const strip_message). apply imap_ext.
    intros i m Hi. apply H1. by eapply lookup_lt_Some.
  - rewrite <- (list_fmap_id l2) at 2. rewrite <- (imap_const id). apply imap_ext.
    intros i m Hi. simpl. apply H2; [lia|]. apply lookup_lt_Some in Hi. lia.
Qed.

Lemma remove_media_last_user (pre post : list Message) (u : Message) :
  is_user u = true -> no_user post ->
  remove_media_except_last_turn (pre ++ u :: post)
  = (strip_message <$> pre) ++ u :: post.
Proof.
  intros Hu Hpost. unfold remove_media_except_last_turn.
  destruct (length (pre ++ u :: post) <? 2)%nat eqn:Hlen.
  { apply Nat.ltb_lt in Hlen. rewrite length_app in Hlen. simpl in Hlen.
    destruct pre; [done|]. simpl in Hlen. lia. }
  destruct (find_user_indices _ _ _ _) as [last_user_index second] eqn:E.
  assert (last_user_index = Some (length pre)) as ->.
  { change last_user_index with (last_user_index, second).1. rewrite <- E.
    rewrite reverse_app, reverse_cons, <- app_assoc. simpl.
    rewrite find_user_indices_first; [|by apply no_user_reverse|done].
    f_equal. rewrite length_reverse, length_app. simpl. lia. }
  apply imap_strip_before.
  - intros i m Hi. unfold in_last_turn.
    destruct (Nat.leb_spec (length pre) i); [lia|].
    destruct (Nat.eqb_spec i (length (pre ++ u :: post) - 1)) as [Hl|]; [|done].
    rewrite length_app in Hl. simpl in Hl. lia.
  - intros i m Hi _. unfold in_last_turn.
    destruct (Nat.leb_spec (length pre) i); [done|lia].
Qed.

Lemma remove_media_without_user (pre : list Message) (m : Message) :
  no_user (pre ++ [m]) ->
  remove_media_except_last_turn (pre ++ [m]) = (strip_message <$> pre) ++ [m].
Proof.
  intros Hno. unfold remove_media_except_last_turn.
  destruct (length (pre ++ [m]) <? 2)%nat eqn:Hlen.
  { apply Nat.ltb_lt in Hlen. rewrite length_app in Hlen. simpl in Hlen.
    destruct pre; [done|]. simpl in Hlen. lia. }
  rewrite find_user_indices_no_user by (by apply no_user_reverse).
  apply imap_strip_before.
  - intros i m0 Hi. unfold in_last_turn. simpl.
    destruct (Nat.eqb_spec i (length (pre ++ [m]) - 1)) as [Hl|]; [|done].
    rewrite length_app in Hl. simpl in Hl. lia.
  - intros i m0 Hi Hi'. unfold in_last_turn. simpl. simpl in Hi'.
    destruct (Nat.eqb_spec i (length (pre ++ [m]) - 1)) as [|Hl]; [done|].
    rewrite length_app in Hl. simpl in Hl. lia.
Qed.

(** X2: media stripping strips the messages before the last user message
    and returns that message and everything after it as they are; without
    any user message, it strips all but the last message. *)
Theorem X2_remove_media_strips_before_last_user (pre post : list Message)
    (u : Message) :
  (is_user u = true -> no_user post ->
   remove_media_except_last_turn (pre ++ u :: post)
   = (strip_message <$> pre) ++ u :: post)
  /\ (no_user (pre ++ [u]) ->
      remove_media_except_last_turn (pre ++ [u]) = (strip_message <$> pre) ++ [u]).
Proof.
  split; [apply remove_media_last_user|apply remove_media_without_user].
Qed.

(** ** Media stripping: what a stripped message holds *)

Lemma strip_message_role message : role (strip_message message) = role message.
Proof.
  destruct (content message) as [items|] eqn:E.
  - by rewrite (strip_message_content _ _ E).
  - by rewrite (strip_message_no_content _ E).
Qed.

Lemma filter_Forall_not {A} (p : A -> bool) (l : list A) :
  Forall (fun x => p x = false) (List.filter (fun x => negb (p x)) l).
Proof.
  induction l as [|x l IH]; simpl; [done|].
  destruct (p x) eqn:E; simpl; [done|]. by constructor.
Qed.

Lemma existsb_false_Forall {A} (p : A -> bool) (l : list A) :
  existsb p l = false <-> Forall (fun x => p x = false) l.
Proof.
  induction l as [|x l IH]; simpl; [done|].
  rewrite orb_false_iff, Forall_cons. by rewrite IH.
Qed.

(** No item of a stripped message is a bare image or json item. *)
Lemma strip_message_no_media message :
  Forall (fun it => carries_media it = false) (get_content (strip_message message)).
Proof.
  unfold get_content. destruct (content message) as [items|] eqn:E.
  - rewrite (strip_message_content _ _ E). simpl.
    destruct (existsb carries_media items) eqn:Hm.
    + pose proof (filter_Forall_not carries_media items) as HF.
      destruct (List.filter _ items); [|done].
      by repeat constructor.
    + by apply existsb_false_Forall.
  - rewrite (strip_message_no_content _ E), E. done.
Qed.

(** A message without such an item is returned as it is. *)
Lemma strip_message_clean message :
  Forall (fun it => carries_media it = false) (get_content message) ->
  strip_message message = message.
Proof.
  unfold get_content. destruct (content message) as [items|] eqn:E; simpl.
  - intros H. apply existsb_false_Forall in H.
    rewrite (strip_message_content _ _ E), H. destruct message; simpl in *. by subst.
  - intros _. by apply strip_message_no_content.
Qed.

(** X3: after media stripping, no message before the last user message
    holds an item that has an image or json key and no text key. *)
Theorem X3_remove_media_leaves_no_media (pre post : list Message) (u m' : Message)
    (i : nat) :
  is_user u = true -> no_user post -> i < length pre ->
  remove_media_except_last_turn (pre ++ u :: post) !! i = Some m' ->
  Forall (fun it => carries_media it = false) (get_content m').
Proof.
  intros Hu Hpost Hi.
  rewrite (remove_media_last_user pre post u Hu Hpost).
  rewrite lookup_app_l by (by rewrite length_fmap).
  rewrite list_lookup_fmap. destruct (pre !! i) as [m|]; [|done].
  intros [= <-]. apply strip_message_no_media.
Qed.

(** ** Media stripping twice *)

Lemma last_user_split (l : list Message) :
  l = []
  \/ (exists pre u post, l = pre ++ u :: post /\ is_user u = true /\ no_user post)
  \/ (exists pre m, l = pre ++ [m] /\ no_user l).
Proof.
  unfold no_user.
  induction l as [|x l IH] using rev_ind; [by left|]. right.
  destruct (is_user x) eqn:Hx.
  - left. exists l, x, []. split; [done|]. split; [done|]. constructor.
  - destruct IH as [->|[(pre & u & post & -> & Hu & Hp)|(pre & m & -> & Hn)]].
    + right. exists [], x. split; [done|]. by repeat constructor.
    + left. exists pre, u, (post ++ [x]). rewrite <- app_assoc. split; [done|].
      split; [done|]. apply Forall_app. split; [done|]. by repeat constructor.
    + right. exists (pre ++ [m]), x. split; [done|].
      apply Forall_app. split; [done|]. by repeat constructor.
Qed.

Lemma strip_message_idempotent message :
  strip_message (strip_message message) = strip_message message.
Proof. apply strip_message_clean, strip_message_no_media. Qed.

Lemma no_user_strip l : no_user l -> no_user (strip_message <$> l).
Proof.
  unfold no_user. rewrite Forall_fmap. intros H.
  eapply Forall_impl; [exact H|]. intros m Hm. simpl.
  unfold is_user. by rewrite strip_message_role.
Qed.

(** X4: stripping a transcript that has been stripped changes nothing. *)
Theorem X4_remove_media_idempotent (messages : list Message) :
  remove_media_except_last_turn (remove_media_except_last_turn messages)
  = remove_media_except_last_turn messages.
Proof.
  destruct (last_user_split messages)
    as [->|[(pre & u & post & -> & Hu & Hp)|(pre & m & -> & Hn)]]; [done| |].
  - rewrite (remove_media_last_user _ _ _ Hu Hp).
    rewrite (remove_media_last_user _ _ _ Hu Hp).
    rewrite <- list_fmap_compose. f_equal. apply list_fmap_ext.
    intros i m _. simpl. apply strip_message_idempotent.
  - rewrite (remove_media_without_user _ _ Hn).
    apply Forall_app in Hn as [Hpre Hm].
    rewrite remove_media_without_user.
    + rewrite <- list_fmap_compose. f_equal. apply list_fmap_ext.
      intros i m0 _. simpl. apply strip_message_idempotent.
    + apply Forall_app. split; [by apply no_user_strip|done].
Qed.

(** ** Media stripping and the tool turns of the loop *)

Section ToolTurnStripping.

Context {W : Type}.
Variable b64decode : string -> Py.exn + string.
Variable json_loads : string -> Py.exn + Py.value.
Variable str_value : Py.value -> string.
Variable session : ClientSession W.

Lemma answers_no_media tools results :
  Forall2 answers tools results ->
  Forall (fun it => carries_media it = false) results.
Proof.
  induction 1 as [|tool r tools results [bc ->] _ IH]; constructor; done.
Qed.

Lemma tool_turn_no_media output_message (st : ClientState W) m st' :
  run_client_tool_turn b64decode json_loads str_value session output_message st
  = (inr m, st') ->
  Forall (fun it => carries_media it = false) (get_content m).
Proof.
  intros H. apply run_client_tool_turn_shape in H as (_ & results & ambient & Hc & HF).
  unfold get_content. rewrite Hc. simpl. apply Forall_app. split.
  - by eapply answers_no_media.
  - by repeat constructor.
Qed.

(** X5: the user turn the loop of [run_client] builds is never changed by
    media stripping: its items are toolResult items and one text item, and
    the images a tool returned sit inside the toolResult. *)
Theorem X5_tool_turn_not_stripped output_message (st : ClientState W) m st' :
  run_client_tool_turn b64decode json_loads str_value session output_message st
  = (inr m, st') ->
  strip_message m = m.
Proof. intros H. by eapply strip_message_clean, tool_turn_no_media. Qed.

End ToolTurnStripping.

(** ** The two counters of the final check *)

Lemma count_items_spec p items n :
  count_items p items n = n + length (List.filter p items).
Proof.
  revert n. induction items as [|it items IH]; intros n; simpl; [lia|].
  rewrite IH. destruct (p it); simpl; lia.
Qed.

Lemma count_tools_spec l a b :
  count_tools l a b = (a + sum_list (uses_of <$> l), b + sum_list (results_of <$> l)).
Proof.
  revert a b. induction l as [|m l IH]; intros a b.
  - simpl. f_equal; lia.
  - rewrite !fmap_cons. cbn [count_tools sum_list_with]. unfold id at 1 3.
    unfold uses_of at 1, results_of at 1.
    destruct (is_assistant m) eqn:Ha.
    + rewrite (assistant_not_user _ Ha), IH, count_items_spec. f_equal; lia.
    + destruct (is_user m); rewrite IH, ?count_items_spec; f_equal; lia.
Qed.

(** X6: the counter of tool requests is the number of toolUse items in
    the messages whose role is assistant, the counter of tool results the
    number of toolResult items in the messages whose role is user; both are
    additive over concatenation. *)
Theorem X6_tool_counters (l1 l2 : list Message) :
  tool_use_count l1 = sum_list (uses_of <$> l1)
  /\ tool_result_count l1 = sum_list (results_of <$> l1)
  /\ tool_use_count (l1 ++ l2) = tool_use_count l1 + tool_use_count l2
  /\ tool_result_count (l1 ++ l2) = tool_result_count l1 + tool_result_count l2.
Proof.
  unfold tool_use_count, tool_result_count. rewrite !count_tools_spec. simpl.
  rewrite !fmap_app, !sum_list_with_app. lia.
Qed.

Lemma tool_use_count_sum l : tool_use_count l = sum_list (uses_of <$> l).
Proof. unfold tool_use_count. by rewrite count_tools_spec. Qed.

Lemma tool_result_count_sum l : tool_result_count l = sum_list (results_of <$> l).
Proof. unfold tool_result_count. by rewrite count_tools_spec. Qed.

(** ** Media stripping keeps the tool pairing *)

Lemma filter_kept_filter (q : ContentItem -> bool) items :
  Forall (fun it => carries_media it = true -> q it = false) items ->
  List.filter q (List.filter (fun it => negb (carries_media it)) items)
  = List.filter q items.
Proof.
  induction 1 as [|it items Hit _ IH]; simpl; [done|].
  destruct (carries_media it) eqn:E; simpl.
  - by rewrite (Hit eq_refl).
  - by rewrite IH.
Qed.

Lemma strip_message_count (q : ContentItem -> bool) message :
  q media_placeholder = false ->
  Forall (fun it => carries_media it = true -> q it = false) (get_content message) ->
  List.filter q (get_content (strip_message message))
  = List.filter q (get_content message).
Proof.
  intros Hq. unfold get_content.
  destruct (content message) as [items|] eqn:E; simpl.
  - intros H. rewrite (strip_message_content _ _ E). simpl.
    destruct (existsb carries_media items); [|done].
    rewrite <- (filter_kept_filter q items H).
    destruct (List.filter (fun it => negb (carries_media it)) items); [|done].
    simpl. by rewrite Hq.
  - intros _. by rewrite (strip_message_no_content _ E), E.
Qed.

Lemma strip_message_counts message :
  media_apart message ->
  uses_of (strip_message message) = uses_of message
  /\ results_of (strip_message message) = results_of message.
Proof.
  intros H. unfold uses_of, results_of, is_assistant, is_user.
  rewrite !strip_message_role. split.
  - destruct (String.eqb _ _); [|done]. f_equal.
    apply strip_message_count; [done|].
    eapply Forall_impl; [exact H|]. simpl. intros it Hit Hm. by apply Hit.
  - destruct (String.eqb _ _); [|done]. f_equal.
    apply strip_message_count; [done|].
    eapply Forall_impl; [exact H|]. simpl. intros it Hit Hm. by apply Hit.
Qed.

Lemma remove_media_length messages :
  length (remove_media_except_last_turn messages) = length messages.
Proof.
  unfold remove_media_except_last_turn.
  destruct (length messages <? 2)%nat; [done|].
  destruct (find_user_indices _ _ _ _). apply length_imap.
Qed.

Lemma remove_media_pointwise (f : Message -> nat) messages :
  Forall (fun m => f (strip_message m) = f m) messages ->
  f <$> remove_media_except_last_turn messages = f <$> messages.
Proof.
  intros H. apply list_eq. intros i. rewrite !list_lookup_fmap.
  destruct (remove_media_except_last_turn messages !! i) as [m'|] eqn:E.
  - apply remove_media_lookup in E as (m & Hm & Hm'). rewrite Hm. simpl. f_equal.
    destruct Hm' as [->| ->]; [done|].
    by apply (proj1 (Forall_lookup _ _) H i m).
  - apply lookup_ge_None in E. rewrite remove_media_length in E.
    apply lookup_ge_None in E. by rewrite E.
Qed.

Lemma remove_media_counts messages :
  Forall media_apart messages ->
  tool_use_count (remove_media_except_last_turn messages) = tool_use_count messages
  /\ tool_result_count (remove_media_except_last_turn messages)
     = tool_result_count messages.
Proof.
  intros H. rewrite !tool_use_count_sum, !tool_result_count_sum.
  rewrite (remove_media_pointwise uses_of), (remove_media_pointwise results_of);
    [done|..];
    (eapply Forall_impl; [exact H|]); intros m Hm; by apply strip_message_counts.
Qed.

(** X7: on a transcript in which no bare image or json item is also a tool
    request or a tool result, media stripping leaves the two counters as
    they are, so that the transcript satisfies the tool pairing after
    stripping exactly when it did before. *)
Theorem X7_remove_media_keeps_pairing (messages : list Message) :
  Forall media_apart messages ->
  tool_use_count (remove_media_except_last_turn messages) = tool_use_count messages
  /\ tool_result_count (remove_media_except_last_turn messages)
     = tool_result_count messages
  /\ (tool_pairing (remove_media_except_last_turn messages) <-> tool_pairing messages).
Proof.
  intros H. destruct (remove_media_counts messages H) as [H1 H2].
  split; [done|]. split; [done|]. unfold tool_pairing. by rewrite H1, H2.
Qed.

(** ** Summarization: what stays *)

(** When the result is not the input, it is the first message, a summary
    turn and the collected tail, and the middle span was not empty. *)
Lemma summarize_conversation_compacts messages client :
  summarize_conversation messages client = messages
  \/ exists first_message summary_text u,
       messages = first_message :: to_summarize_of messages ++ last_messages_of messages
       /\ to_summarize_of messages <> []
       /\ head (last_messages_of messages) = Some u
       /\ tool_pairing (summarize_conversation messages client)
       /\ summarize_conversation messages client
          = first_message
            :: {| role := "assistant";
                  content :=
                    Some (text_item summary_text
                          :: tool_use_content_of (to_summarize_of messages)) |}
            :: last_messages_of messages.
Proof.
  destruct (summarize_conversation_cases messages client)
    as [H|(resp & Hlen & Hmid & Hc & Hp & ->)]; [by left|]. right.
  destruct (to_summarize_split messages Hmid)
    as (first_message & u & a & Hm & Hu & _ & _).
  assert (Hh : head messages = Some first_message) by (by rewrite Hm).
  rewrite (candidate_result_head _ _ _ Hh) in *. by eexists _, _, _.
Qed.

Lemma summarize_conversation_ends messages client :
  head (summarize_conversation messages client) = head messages
  /\ last (summarize_conversation messages client) = last messages
  /\ length (summarize_conversation messages client) <= length messages.
Proof.
  destruct (summarize_conversation_compacts messages client)
    as [->|(first_message & summary_text & u & Hm & Hmid & Hu & _ & ->)]; [done|].
  destruct (last_messages_of messages) as [|u' tail] eqn:Ht; [done|].
  destruct (to_summarize_of messages) as [|m mid] eqn:Hs; [done|].
  rewrite Hm. split; [done|]. split.
  - rewrite !last_cons_cons.
    change (first_message :: (m :: mid) ++ u' :: tail)
      with ((first_message :: m :: mid) ++ u' :: tail).
    by rewrite last_app_cons.
  - simpl. rewrite length_app. simpl. lia.
Qed.

(** X8: summarization keeps the first and the last message of the
    transcript and never returns a longer transcript. *)
Theorem X8_summarize_keeps_ends (messages : list Message) (client : BedrockClient) :
  head (summarize_conversation messages client) = head messages
  /\ last (summarize_conversation messages client) = last messages
  /\ length (summarize_conversation messages client) <= length messages.
Proof. apply summarize_conversation_ends. Qed.

Lemma user_not_assistant m : is_user m = true -> is_assistant m = false.
Proof.
  unfold is_assistant, is_user. intros H. apply String.eqb_eq in H. by rewrite H.
Qed.

Lemma uses_of_user m : is_user m = true -> uses_of m = 0.
Proof. intros H. unfold uses_of. by rewrite (user_not_assistant _ H). Qed.

Lemma results_of_assistant m : is_assistant m = true -> results_of m = 0.
Proof. intros H. unfold results_of. by rewrite (assistant_not_user _ H). Qed.

(** What the summary turn counts for. *)
Lemma uses_of_summary summary_text items :
  uses_of {| role := "assistant";
             content := Some (text_item summary_text :: List.filter has_toolUse items) |}
  = length (List.filter has_toolUse items).
Proof. unfold uses_of. simpl. by rewrite filter_filter. Qed.

(** X9: on a transcript of more than five messages that ends with
    assistant, user, assistant, user, in which each of these two user
    messages holds as many toolResult items as the assistant message before
    it holds toolUse items, and whose first message counts for as many
    requests as results, the summary is accepted whenever the model answers:
    the result is the first message, the summary turn with the toolUse items
    of the last summarized message, and the last three messages. *)
Theorem X9_summarize_alternating (first_message a1 u1 a2 u2 : Message)
    (mid : list Message) (client : BedrockClient) (resp : ConverseResponse) :
  mid <> [] ->
  is_assistant a1 = true -> is_user u1 = true ->
  is_assistant a2 = true -> is_user u2 = true ->
  uses_of first_message = results_of first_message ->
  uses_of a1 = results_of u1 -> uses_of a2 = results_of u2 ->
  converse client SUMMARY_MODEL_ID (summary_request (mid ++ [a1])) = inr resp ->
  summarize_conversation (first_message :: mid ++ [a1; u1; a2; u2]) client
  = [ first_message;
      {| role := "assistant";
         content :=
           Some (text_item ("[CONVERSATION SUMMARY: " +:+ summary_text_from resp +:+ "]")
                 :: List.filter has_toolUse (get_content a1)) |};
      u1; a2; u2 ].
Proof.
  intros Hmid Ha1 Hu1 Ha2 Hu2 Hfirst H1 H2 Hc.
  set (messages := first_message :: mid ++ [a1; u1; a2; u2]).
  destruct (last_messages_alternating (first_message :: mid) a1 u1 a2 u2
              Ha1 Hu1 Ha2 Hu2) as [Hlast Hsum].
  change ((first_message :: mid) ++ [a1; u1; a2; u2]) with messages in Hlast, Hsum.
  simpl in Hsum. rewrite drop_0 in Hsum.
  assert (Hne : to_summarize_of messages <> []).
  { rewrite Hsum. by destruct mid. }
  assert (Hlen : KEEP_LAST_TURNS * 2 + 1 < length messages).
  { subst messages. simpl. rewrite length_app. simpl.
    destruct mid; [done|]. simpl. lia. }
  rewrite (summarize_conversation_long _ _ Hlen Hne), Hsum, Hc.
  rewrite (candidate_result_head messages first_message resp eq_refl).
  rewrite Hlast, Hsum.
  assert (Ht : tool_use_content_of (mid ++ [a1])
               = List.filter has_toolUse (get_content a1)).
  { apply tool_use_content_of_assistant; [apply last_snoc|done]. }
  rewrite Ht.
  rewrite bool_decide_eq_true_2; [done|].
  unfold tool_pairing. rewrite tool_use_count_sum, tool_result_count_sum.
  cbn [fmap list_fmap sum_list_with]. unfold id.
  rewrite uses_of_summary, (uses_of_user _ Hu1), (uses_of_user _ Hu2).
  rewrite (results_of_assistant _ Ha2).
  assert (Hs0 : forall c, results_of {| role := "assistant"; content := c |} = 0)
    by done.
  rewrite Hs0.
  unfold uses_of in H1 at 1. rewrite Ha1 in H1. lia.
Qed.

(** ** Conversation management in the loop of [run_client] *)

Lemma remove_media_last messages :
  last (remove_media_except_last_turn messages) = last messages.
Proof.
  destruct (last_user_split messages)
    as [->|[(pre & u & post & -> & Hu & Hp)|(pre & m & -> & Hn)]]; [done| |].
  - rewrite (remove_media_last_user _ _ _ Hu Hp). by rewrite !last_app_cons.
  - rewrite (remove_media_without_user _ _ Hn). by rewrite !last_snoc.
Qed.

Lemma remove_media_head first_message rest :
  Forall (fun it => carries_media it = false) (get_content first_message) ->
  head (remove_media_except_last_turn (first_message :: rest)) = Some first_message.
Proof.
  intros Hc.
  destruct (remove_media_except_last_turn (first_message :: rest)) as [|m' l] eqn:E.
  { apply (f_equal length) in E. by rewrite remove_media_length in E. }
  assert (Hm : remove_media_except_last_turn (first_message :: rest) !! 0 = Some m')
    by (by rewrite E).
  apply remove_media_lookup in Hm as (m & [= <-] & [->| ->]); [done|].
  simpl. f_equal. by apply strip_message_clean.
Qed.

(** X10: conversation management never changes the last message of the
    transcript and never lengthens the transcript; it keeps the first
    message when that message holds no bare image or json item; and unless
    the previous response reports more than 5000 input tokens, it is media
    stripping alone, whatever the summarization model would answer. *)
Theorem X10_manage_context (messages : list Message) (response : ConverseResponse)
    (client : BedrockClient) :
  last (run_client_manage_context messages response client) = last messages
  /\ length (run_client_manage_context messages response client) <= length messages
  /\ (forall first_message,
        head messages = Some first_message ->
        Forall (fun it => carries_media it = false) (get_content first_message) ->
        head (run_client_manage_context messages response client)
        = Some first_message)
  /\ ((default 0 (inputTokens response) <= 5000)%Z ->
      run_client_manage_context messages response client
      = remove_media_except_last_turn messages).
Proof.
  unfold run_client_manage_context, SUMMARIZATION_TOKEN_THRESHOLD.
  assert (Hhead : forall first_message,
            head messages = Some first_message ->
            Forall (fun it => carries_media it = false) (get_content first_message) ->
            head (remove_media_except_last_turn messages) = Some first_message).
  { intros first_message Hh Hc. destruct messages as [|m rest]; [done|].
    injection Hh as ->. by apply remove_media_head. }
  destruct (Z.ltb_spec 5000 (default 0%Z (inputTokens response))) as [Hlt|Hle].
  - destruct (summarize_conversation_ends (remove_media_except_last_turn messages)
                client) as (Hh & Hl & Hn).
    rewrite Hl, Hh, remove_media_last. rewrite remove_media_length in Hn.
    split; [done|]. split; [done|]. split; [done|]. lia.
  - rewrite remove_media_last, remove_media_length. done.
Qed.

(** ** One pass of the loop keeps the tool pairing *)

Lemma media_apart_clean m :
  Forall (fun it => carries_media it = false) (get_content m) -> media_apart m.
Proof.
  unfold media_apart. intros H. eapply Forall_impl; [exact H|].
  simpl. intros it Hit. by rewrite Hit.
Qed.

Lemma remove_media_media_apart messages :
  Forall media_apart messages ->
  Forall media_apart (remove_media_except_last_turn messages).
Proof.
  intros H. apply Forall_lookup. intros i m' Hi.
  apply remove_media_lookup in Hi as (m & Hm & [->| ->]).
  - by apply (proj1 (Forall_lookup _ _) H i m).
  - apply media_apart_clean, strip_message_no_media.
Qed.

Lemma tool_use_content_of_items l :
  Forall (fun it => has_toolUse it = true
                    /\ exists a, a ∈ l /\ it ∈ get_content a)
         (tool_use_content_of l).
Proof.
  unfold tool_use_content_of. destruct (last l) as [a|] eqn:E; [|done].
  destruct (is_assistant a); [|done].
  assert (Ha : a ∈ l).
  { apply last_Some in E as [l' ->]. set_solver. }
  apply Forall_forall. intros it Hit.
  apply list_elem_of_In, filter_In in Hit as [Hin Ht].
  split; [done|]. exists a. split; [done|]. by apply list_elem_of_In.
Qed.

Lemma summarize_media_apart messages client :
  Forall media_apart messages ->
  Forall media_apart (summarize_conversation messages client).
Proof.
  intros H.
  destruct (summarize_conversation_compacts messages client)
    as [->|(first_message & summary_text & u & Hm & Hmid & Hu & _ & ->)]; [done|].
  rewrite Hm in H. apply Forall_cons in H as [Hfirst H].
  apply Forall_app in H as [Hsum Hlast].
  constructor; [done|]. constructor; [|done].
  apply media_apart_clean. unfold get_content. simpl. constructor; [done|].
  pose proof (tool_use_content_of_items (to_summarize_of messages)) as Hitems.
  eapply Forall_impl; [exact Hitems|]. simpl.
  intros it (Ht & a & Ha & Hit).
  destruct (carries_media it) eqn:Hc; [|done].
  apply (proj1 (Forall_forall _ _) Hsum) in Ha.
  apply (proj1 (Forall_forall _ _) Ha) in Hit; [|exact Hc].
  destruct Hit as [Hno _]. congruence.
Qed.

Lemma manage_context_invariant messages response client :
  tool_pairing messages -> Forall media_apart messages ->
  tool_pairing (run_client_manage_context messages response client)
  /\ Forall media_apart (run_client_manage_context messages response client).
Proof.
  intros Hp Ha. unfold run_client_manage_context.
  assert (Hp' : tool_pairing (remove_media_except_last_turn messages)).
  { unfold tool_pairing. destruct (remove_media_counts messages Ha) as [-> ->]. done. }
  assert (Ha' := remove_media_media_apart messages Ha).
  destruct (_ <? _)%Z; [|done]. split; [|by apply summarize_media_apart].
  destruct (summarize_conversation_compacts (remove_media_except_last_turn messages)
              client) as [->|(? & ? & ? & _ & _ & _ & H & _)]; done.
Qed.

Lemma filter_has_toolUse_length items :
  length (List.filter has_toolUse items) = length (omap toolUse items).
Proof.
  induction items as [|it items IH]; simpl; [done|].
  unfold has_toolUse at 1. destruct (toolUse it); simpl; by rewrite IH.
Qed.

Lemma filter_answers tools results :
  Forall2 answers tools results -> List.filter has_toolResult results = results.
Proof.
  induction 1 as [|tool r tools results [bc ->] _ IH]; simpl; [done|]. by rewrite IH.
Qed.

Section RunClientStepProperties.

Context {W : Type}.
Variable b64decode : string -> Py.exn + string.
Variable json_loads : string -> Py.exn + Py.value.
Variable str_value : Py.value -> string.
Variable session : ClientSession W.
Variable bedrock_client : BedrockClient.

(** The user turn answers the assistant turn: it counts for as many results
    as the assistant turn counts for requests. *)
Lemma tool_turn_counts output_message (st : ClientState W) m st' :
  is_assistant output_message = true ->
  run_client_tool_turn b64decode json_loads str_value session output_message st
  = (inr m, st') ->
  results_of m = uses_of output_message /\ uses_of m = 0
  /\ results_of output_message = 0.
Proof.
  intros Ha H.
  apply run_client_tool_turn_shape in H as (Hr & results & ambient & Hc & HF).
  assert (Hu : is_user m = true) by (unfold is_user; by rewrite Hr).
  split; [|split; [by apply uses_of_user|by apply results_of_assistant]].
  unfold results_of, uses_of, get_content. rewrite Hu, Ha, Hc. simpl.
  rewrite List.filter_app, (filter_answers _ _ HF). simpl. rewrite app_nil_r.
  rewrite filter_has_toolUse_length. symmetry. by eapply Forall2_length.
Qed.

(** X11: one pass of the loop of [run_client] keeps the tool pairing of
    the transcript. Let the transcript before the last assistant message
    satisfy the pairing, and let no bare image or json item in it or in the
    assistant message be a tool request or a tool result. Then the list
    passed to the next request (the transcript with the assistant message
    and the tool turn, after media stripping and summarization) satisfies
    the pairing, and none of its bare image or json items is a tool request
    or a tool result. *)
Theorem X11_run_client_step_keeps_pairing (pre : list Message)
    (response : ConverseResponse) (output_message : Message)
    (st : ClientState W) (result : list Message) (st' : ClientState W) :
  tool_pairing pre -> Forall media_apart pre ->
  is_assistant output_message = true -> media_apart output_message ->
  run_client_step b64decode json_loads str_value session bedrock_client
    (pre ++ [output_message]) response output_message st = (inr result, st') ->
  tool_pairing result /\ Forall media_apart result.
Proof.
  intros Hp Hpre Ha Hout. unfold run_client_step, bind.
  destruct (run_client_tool_turn _ _ _ _ _ st) as [[e|m] st1] eqn:Hturn; [done|].
  intros [= <- <-]. apply manage_context_invariant.
  - destruct (tool_turn_counts _ _ _ _ Ha Hturn) as (H1 & H2 & H3).
    unfold tool_pairing in *.
    rewrite tool_use_count_sum, tool_result_count_sum in *.
    rewrite !fmap_app, !sum_list_with_app. simpl. lia.
  - rewrite !Forall_app. split; [split; [done|by constructor]|].
    constructor; [|done]. eapply media_apart_clean, tool_turn_no_media. exact Hturn.
Qed.

End RunClientStepProperties.

(** ** What the summarization model is sent *)

Lemma has_key_fmap {A B} (f : A -> B) (x : option A) :
  bool_decide (is_Some (f <$> x)) = bool_decide (is_Some x).
Proof. by destruct x. Qed.

Lemma content_text_of_redact items content_text :
  content_text_of (redact <$> items) content_text = content_text_of items content_text.
Proof.
  revert content_text.
  induction items as [|it items IH]; intros content_text; [done|].
  rewrite fmap_cons. cbn [content_text_of]. rewrite IH. f_equal.
  unfold has_json, has_image, has_toolResult. cbn [redact text json image toolUse toolResult].
  rewrite !has_key_fmap. destruct (text it); [done|].
  destruct (bool_decide (is_Some (json it))); [done|].
  destruct (bool_decide (is_Some (image it))); [done|].
  by destruct (toolUse it).
Qed.

Lemma summarization_prompt_of_redact to_summarize prompt :
  summarization_prompt_of (redact_message <$> to_summarize) prompt
  = summarization_prompt_of to_summarize prompt.
Proof.
  revert prompt. induction to_summarize as [|m rest IH]; intros prompt; [done|].
  rewrite fmap_cons. cbn [summarization_prompt_of]. rewrite IH.
  assert (Hc : content_text_of (get_content (redact_message m)) ""
               = content_text_of (get_content m) "").
  { unfold get_content, redact_message. simpl.
    destruct (content m) as [items|]; [|done]. apply content_text_of_redact. }
  by rewrite Hc.
Qed.

(** X26: the request sent to the summarization model depends on the
    messages to summarize only through their roles, their texts, the keys of
    their items and the names of the tools requested: blanking the image
    bytes, the json values, the inputs and ids of the tool requests and the
    tool results leaves the request as it is. *)
Theorem X26_summary_request_redacted (to_summarize : list Message) :
  summary_request (redact_message <$> to_summarize) = summary_request to_summarize.
Proof. unfold summary_request. by rewrite summarization_prompt_of_redact. Qed.

(** ** Tool dispatch: the artifact tracker and the content of a result *)

Section TrackerProperties.

Context {W : Type}.
Variable b64decode : string -> Py.exn + string.
Variable json_loads : string -> Py.exn + Py.value.
Variable str_value : Py.value -> string.
Variable session : ClientSession W.

Lemma grows_ret {A} (a : A) : grows (W := W) (ret a).
Proof. intros st. done. Qed.

Lemma grows_raise {A} e : grows (W := W) (@raise _ A e).
Proof. intros st. done. Qed.

Lemma grows_lift_result {A} (r : Py.exn + A) : grows (W := W) (lift_result r).
Proof. destruct r; [apply grows_raise|apply grows_ret]. Qed.

Lemma grows_bind {A B} (m : M (ClientState W) A) (k : A -> M (ClientState W) B) :
  grows m -> (forall a, grows (k a)) -> grows (bind m k).
Proof.
  intros Hm Hk st. unfold bind. specialize (Hm st).
  destruct (m st) as [[e|a] st1]; [done|].
  etrans; [exact Hm|]. apply Hk.
Qed.

Lemma grows_try_except {A} (body : M (ClientState W) A) handler :
  grows body -> (forall e, grows (handler e)) -> grows (try_except body handler).
Proof.
  intros Hm Hk st. unfold try_except. specialize (Hm st).
  destruct (body st) as [[e|a] st1]; [|done].
  etrans; [exact Hm|]. apply Hk.
Qed.

Lemma grows_session_call_tool tool_name tool_input :
  grows (session_call_tool session tool_name tool_input).
Proof.
  intros st. unfold session_call_tool. by destruct (call_tool _ _ _ _).
Qed.

Lemma grows_track_artifact uri : grows (W := W) (track_artifact uri).
Proof. intros st. simpl. by apply prefix_app_r. Qed.

Lemma grows_convert_content items acc :
  grows (W := W) (convert_content b64decode items acc).
Proof.
  revert acc. induction items as [|item items IH]; intros acc; simpl.
  - apply grows_ret.
  - destruct item as [t|data mime|resource|ty]; try apply IH.
    + apply grows_bind; [apply grows_lift_result|]. intros image_data. apply IH.
    + apply grows_bind; [apply grows_track_artifact|]. intros _. apply IH.
Qed.

Lemma grows_process_tool_request tool_name tool_id tool_input :
  grows (process_tool_request b64decode session tool_name tool_id tool_input).
Proof.
  apply grows_try_except; [|intros e; apply grows_ret].
  apply grows_bind; [apply grows_session_call_tool|]. intros result.
  apply grows_bind; [apply grows_convert_content|]. intros bc. apply grows_ret.
Qed.

Lemma grows_dispatch_tool_uses items tool_content :
  grows (dispatch_tool_uses b64decode json_loads session items tool_content).
Proof.
  revert tool_content. induction items as [|content rest IH]; intros tool_content; simpl.
  - apply grows_ret.
  - destruct (toolUse content) as [tool|]; [|apply IH].
    apply grows_bind.
    { destruct (default _ _); try apply grows_ret. apply grows_lift_result. }
    intros tool_input.
    apply grows_bind; [apply grows_process_tool_request|]. intros r. apply IH.
Qed.

(** X12: a tool turn of [run_client] never removes a tracked artifact:
    whether the turn is built or the loop is left by an exception, the list
    [artifact_uris] afterwards starts with the list before. *)
Theorem X12_tool_turn_keeps_artifacts (output_message : Message) (st : ClientState W) :
  artifact_uris st
  `prefix_of`
  artifact_uris
    (run_client_tool_turn b64decode json_loads str_value session output_message st).2.
Proof.
  revert st. change (grows (run_client_tool_turn b64decode json_loads str_value
                              session output_message)).
  apply grows_bind; [apply grows_dispatch_tool_uses|]. intros tool_content.
  apply grows_bind; [apply grows_process_tool_request|]. intros r.
  apply grows_bind.
  { destruct (toolResult r) as [tr|]; [|apply grows_raise].
    destruct (tr_content tr); [apply grows_raise|apply grows_ret]. }
  intros c. apply grows_ret.
Qed.

(** The conversion of the content of a tool result whose images decode. *)
Lemma convert_content_spec items acc (st : ClientState W) :
  Forall (decodes b64decode) items ->
  convert_content b64decode items acc st
  = (inr (acc ++ flat_map (converted b64decode) items),
     mkClientState (world st) (artifact_uris st ++ resource_uris items)).
Proof.
  intros H. revert acc st.
  induction H as [|item items Hitem _ IH]; intros acc st; simpl.
  - rewrite !app_nil_r. unfold ret. destruct st as [w uris]. reflexivity.
  - destruct item as [t|data mime|resource|ty]; simpl.
    + rewrite IH. by rewrite <- app_assoc.
    + destruct Hitem as [image_data Hd]. unfold bind. rewrite Hd. simpl.
      rewrite IH. by rewrite <- !app_assoc.
    + unfold bind. simpl. rewrite IH. simpl.
      destruct resource; simpl; by rewrite <- !app_assoc.
    + apply IH.
Qed.

(** X13: when the call through the session returns a result whose images
    decode, the toolResult holds, for the items of the result in order, a
    json item for a text, a json item and an image item for an image, the
    uri (and the text, if any) for an embedded resource, and nothing for
    any other item; and the uris of the embedded resources, in order, are
    appended to [artifact_uris]. When the call raises, [artifact_uris] stays
    as it is. *)
Theorem X13_process_tool_request_converts tool_name tool_id tool_input
    (st : ClientState W) :
  (forall result w',
     call_tool session tool_name tool_input (world st) = (inr result, w') ->
     Forall (decodes b64decode) (ctr_content result) ->
     process_tool_request b64decode session tool_name tool_id tool_input st
     = (inr (toolResult_item
               {| tr_toolUseId := tool_id;
                  tr_content := flat_map (converted b64decode) (ctr_content result) |}),
        mkClientState w' (artifact_uris st ++ resource_uris (ctr_content result))))
  /\ (forall e w',
        call_tool session tool_name tool_input (world st) = (inl e, w') ->
        (process_tool_request b64decode session tool_name tool_id tool_input st).2
        = mkClientState w' (artifact_uris st)).
Proof.
  split.
  - intros result w' Hcall Hd.
    unfold process_tool_request, try_except, bind, session_call_tool.
    rewrite Hcall. by rewrite (convert_content_spec _ _ _ Hd).
  - intros e w' Hcall.
    by rewrite (process_tool_request_call_raises b64decode _ _ tool_id _ _ _ _ Hcall).
Qed.

(** X14: when the get_page_info tool answers with one text, the user turn
    ends with the text item "Current page: " followed by that text. *)
Theorem X14_ambient_text (output_message : Message) (st : ClientState W)
    (m : Message) (st' : ClientState W) :
  (forall w, exists text is_error w',
     call_tool session "get_page_info" (Py.VDict []) w
     = (inr {| ctr_content := [TextContent text]; isError := is_error |}, w')) ->
  run_client_tool_turn b64decode json_loads str_value session output_message st
  = (inr m, st') ->
  exists results w text is_error w',
    call_tool session "get_page_info" (Py.VDict []) w
    = (inr {| ctr_content := [TextContent text]; isError := is_error |}, w')
    /\ content m = Some (results ++ [text_item ("Current page: " +:+ text)]).
Proof.
  intros Hpage. unfold run_client_tool_turn. unfold bind at 1.
  destruct (dispatch_tool_uses _ _ _ _ _ st) as [[e|results] st1]; [done|].
  unfold bind at 1.
  destruct (Hpage (world st1)) as (text & is_error & w' & Hcall).
  unfold process_tool_request at 1, try_except, bind at 1, session_call_tool.
  rewrite Hcall. simpl. unfold bind. simpl.
  intros [= <- <-]. by exists results, (world st1), text, is_error, w'.
Qed.

(** X15: when the get_page_info tool answers with no content, the turn is
    not built: once the requests of the assistant turn have been run, the
    loop is left by the exception of [content[0]]. *)
Theorem X15_empty_page_info_raises (output_message : Message) (st : ClientState W) :
  inputs_parse json_loads (get_content output_message) ->
  (forall w, exists is_error w',
     call_tool session "get_page_info" (Py.VDict []) w
     = (inr {| ctr_content := []; isError := is_error |}, w')) ->
  exists st',
    run_client_tool_turn b64decode json_loads str_value session output_message st
    = (inl (Py.Exception "list index out of range"), st').
Proof.
  intros Hin Hpage. unfold run_client_tool_turn. unfold bind at 1.
  destruct (client_dispatch_returns b64decode json_loads session _ [] st Hin)
    as (results & st1 & ->).
  unfold bind at 1.
  destruct (Hpage (world st1)) as (is_error & w' & Hcall).
  unfold process_tool_request at 1, try_except, bind at 1, session_call_tool.
  rewrite Hcall. simpl. unfold bind. simpl. by eexists.
Qed.

End TrackerProperties.

(** ** The conversion of the tool list *)

Lemma dict_get_del_same key d : Py.dict_get key (dict_del key d) = None.
Proof.
  induction d as [|[k v] d IH]; simpl; [done|].
  destruct (String.eqb k key) eqn:E; [done|]. simpl. by rewrite E.
Qed.

Lemma dict_get_del_other key key' d :
  key <> key' -> Py.dict_get key (dict_del key' d) = Py.dict_get key d.
Proof.
  intros Hne. induction d as [|[k v] d IH]; simpl; [done|].
  destruct (String.eqb_spec k key') as [->|Hk]; simpl.
  - destruct (String.eqb_spec key' key) as [->|_]; done.
  - by rewrite IH.
Qed.

Lemma dict_get_set_same key v d : Py.dict_get key (dict_set key v d) = Some v.
Proof.
  induction d as [|[k v0] d IH]; simpl.
  - by rewrite String.eqb_refl.
  - destruct (String.eqb k key) eqn:E; simpl; by rewrite E.
Qed.

Lemma dict_get_set_other key key' v d :
  key <> key' -> Py.dict_get key (dict_set key' v d) = Py.dict_get key d.
Proof.
  intros Hne. induction d as [|[k v0] d IH]; simpl.
  - destruct (String.eqb_spec key' key) as [->|_]; done.
  - destruct (String.eqb_spec k key') as [->|Hk]; simpl.
    + destruct (String.eqb_spec key' key) as [->|_]; done.
    + by rewrite IH.
Qed.

(** What the filter does to a schema it accepts. *)
Lemma filter_ctx_spec schema json :
  filter_ctx schema = inr json ->
  same_but_ctx schema json /\ no_ctx json.
Proof.
  unfold filter_ctx. destruct schema as [| | | | |d]; try done.
  destruct (Py.dict_get "properties" d) as [[| | | | |properties]|] eqn:Hp; try done.
  destruct (Py.truthy _) eqn:Ht; intros [= <-].
  - split.
    + exists d, properties, (dict_set "properties" (Py.VDict (dict_del "ctx" properties)) d),
        (dict_del "ctx" properties).
      repeat split; try done.
      * apply dict_get_set_same.
      * intros key Hk. by apply dict_get_del_other.
      * intros key Hk. by apply dict_get_set_other.
    + eexists _, _. split; [done|]. split; [apply dict_get_set_same|].
      by rewrite dict_get_del_same.
  - split.
    + by exists d, properties, d, properties.
    + by exists d, properties.
Qed.

Lemma filter_ctx_returns tool :
  schema_ok tool
  <-> exists json, filter_ctx (default default_schema (tool_inputSchema tool)) = inr json.
Proof.
  split.
  - intros (d & properties & -> & Hp). unfold filter_ctx. rewrite Hp.
    destruct (Py.truthy _); by eexists.
  - intros [json H]. apply filter_ctx_spec in H as [(d & p & d' & p' & H) _].
    exists d, p. tauto.
Qed.

(** One tool specification per tool, in order. *)
Lemma convert_loop_spec tools bedrock_tools out :
  convert_loop tools bedrock_tools = inr out ->
  exists new,
    out = bedrock_tools ++ new
    /\ Forall2 (fun tool ts =>
                  ts_name ts = tool_name tool
                  /\ ts_description ts = description_of tool
                  /\ filter_ctx (default default_schema (tool_inputSchema tool))
                     = inr (ts_json ts)) tools new.
Proof.
  revert bedrock_tools.
  induction tools as [|tool rest IH]; intros bedrock_tools; simpl.
  - intros [= <-]. exists []. by rewrite app_nil_r.
  - destruct (filter_ctx _) as [e|json] eqn:Hf; [done|].
    intros H. apply IH in H as (new & -> & HF).
    eexists (_ :: new). rewrite <- app_assoc. split; [done|].
    constructor; [|done]. done.
Qed.

Lemma description_of_nonempty tool : description_of tool <> "".
Proof.
  unfold description_of, Py.truthy_str.
  destruct (tool_description tool) as [description|]; [|done].
  destruct (String.eqb_spec description ""); done.
Qed.

(** X16: when the conversion returns, it returns one specification per
    tool, in the order of the tools and under their names; a description is
    never empty: it is the description of the tool, or "Use the NAME tool"
    when the tool has none or an empty one. *)
Theorem X16_convert_keeps_tools (mcp_tools : list Tool) (out : list ToolSpec) :
  convert_to_bedrock_tools mcp_tools = inr out ->
  ts_name <$> out = tool_name <$> mcp_tools
  /\ Forall (fun ts => ts_description ts <> "") out
  /\ Forall2 (fun tool ts =>
                match tool_description tool with
                | Some description =>
                    description <> "" -> ts_description ts = description
                | None => True
                end
                /\ (tool_description tool = None \/ tool_description tool = Some "" ->
                    ts_description ts = "Use the " +:+ tool_name tool +:+ " tool"))
             mcp_tools out.
Proof.
  intros H. apply convert_loop_spec in H as (new & -> & HF). simpl.
  induction HF as [|tool ts tools new (Hn & Hd & _) _ (IH1 & IH2 & IH3)]; [done|].
  split; [|split].
  - rewrite !fmap_cons. by rewrite Hn, IH1.
  - constructor; [|done]. rewrite Hd. apply description_of_nonempty.
  - constructor; [|done]. rewrite Hd. unfold description_of, Py.truthy_str. split.
    + destruct (tool_description tool) as [description|]; [|done].
      intros Hne. by destruct (String.eqb_spec description "").
    + by intros [-> | ->].
Qed.

(** X17: in every specification returned, [properties.get('ctx')] is not
    truthy, and the schema is the schema of the tool up to the ['ctx']
    property: the other properties and the other keys of the schema are as
    they were; a schema without a truthy ['ctx'] property is returned as it
    is. *)
Theorem X17_convert_filters_ctx (mcp_tools : list Tool) (out : list ToolSpec) :
  convert_to_bedrock_tools mcp_tools = inr out ->
  Forall2 (fun tool ts =>
             let schema := default default_schema (tool_inputSchema tool) in
             no_ctx (ts_json ts) /\ same_but_ctx schema (ts_json ts)
             /\ (no_ctx schema -> ts_json ts = schema))
          mcp_tools out.
Proof.
  intros H. apply convert_loop_spec in H as (new & -> & HF). simpl.
  eapply Forall2_impl; [exact HF|]. simpl.
  intros tool ts (_ & _ & Hf).
  destruct (filter_ctx_spec _ _ Hf) as [Hs Hn]. split; [done|]. split; [done|].
  intros (d & properties & Hd & Hp & Ht). revert Hf.
  unfold filter_ctx. rewrite Hd, Hp, Ht. by intros [= <-].
Qed.

Lemma convert_loop_returns tools bedrock_tools :
  Forall schema_ok tools <-> exists out, convert_loop tools bedrock_tools = inr out.
Proof.
  revert bedrock_tools. induction tools as [|tool rest IH]; intros bedrock_tools; simpl.
  - split; [by eexists|done].
  - rewrite Forall_cons, filter_ctx_returns. split.
    + intros [[json ->] Hrest]. by apply IH.
    + intros [out H]. destruct (filter_ctx _) as [e|json]; [done|].
      split; [by eexists|]. apply (IH (bedrock_tools ++ [ {| ts_name := tool_name tool;
                                     ts_description := description_of tool;
                                     ts_json := json |} ])). by eexists.
Qed.

(** X18: the conversion returns exactly when the schema of every tool is
    a dict that holds a dict under ['properties'] (a tool without schema
    gets the default schema, which does); it raises the KeyError of
    ['properties'] at the first tool whose schema is a dict without that
    key. *)
Theorem X18_convert_raises (mcp_tools : list Tool) :
  (Forall schema_ok mcp_tools <-> exists out, convert_to_bedrock_tools mcp_tools = inr out)
  /\ (forall before tool after d,
        mcp_tools = before ++ tool :: after ->
        Forall schema_ok before ->
        tool_inputSchema tool = Some (Py.VDict d) ->
        Py.dict_get "properties" d = None ->
        convert_to_bedrock_tools mcp_tools = inl (Py.Exception "'properties'"))
  /\ (forall tool, tool_inputSchema tool = None -> schema_ok tool).
Proof.
  split; [apply convert_loop_returns|]. split.
  - intros before tool after d -> Hb Hs Hp. unfold convert_to_bedrock_tools.
    generalize (@nil ToolSpec) as acc.
    induction Hb as [|t before Ht _ IH]; intros acc; simpl.
    + rewrite Hs. simpl. by rewrite Hp.
    + apply filter_ctx_returns in Ht as [json ->]. apply IH.
  - intros tool H. unfold schema_ok. rewrite H.
    by exists [("type", Py.VStr "object"); ("properties", Py.VDict []);
               ("required", Py.VList [])], [].
Qed.

(** ** The server: typing, page information, artifacts *)

Section ServerProperties.

Context {W : Type}.
Variable SESSION_ID : string.
Variable json_loads : string -> Py.exn + Py.value.
Variable str_value : Py.value -> string.
Variable page : Page W.
Variable os : Os W.
Variable files : Files W.

(** X19: the tool [type] of the server and [type_text] of
    08-type-scroll-tools.py never raise, and both do the same. When the
    keyboard raises while typing, the result is
    [{typed: False, error: message}] and Enter is not pressed. When the text
    is typed and [submit] is not set, Enter is not pressed and the result
    says [submitted: False]. When [submit] is set, Enter is pressed after
    the text and the result says [submitted: True], or is
    [{typed: False, error: message}] when pressing Enter raises. *)
Theorem X19_type_never_raises (text : string) (submit : bool) (submit_value : Py.value)
    (w : W) :
  let typed submitted :=
    Py.VDict [("typed", Py.VBool true); ("text", Py.VStr text);
              ("submitted", Py.VBool submitted)] in
  let not_typed e :=
    Py.VDict [("typed", Py.VBool false); ("error", Py.VStr (Py.str_exn e))] in
  (exists v w', type page text submit w = (inr v, w'))
  /\ (exists v w',
        TypeScrollTools.type_text page (Py.VStr text) submit_value w = (inr v, w'))
  /\ (forall e w1,
        keyboard_type page (Py.VStr text) w = (inl e, w1) ->
        type page text submit w = (inr (not_typed e), w1)
        /\ TypeScrollTools.type_text page (Py.VStr text) submit_value w
           = (inr (not_typed e), w1))
  /\ (forall w1,
        keyboard_type page (Py.VStr text) w = (inr tt, w1) ->
        type page text false w = (inr (typed false), w1)
        /\ (Py.truthy submit_value = false ->
            TypeScrollTools.type_text page (Py.VStr text) submit_value w
            = (inr (typed false), w1)))
  /\ (forall w1 w2,
        keyboard_type page (Py.VStr text) w = (inr tt, w1) ->
        keyboard_press page "Enter" w1 = (inr tt, w2) ->
        type page text true w = (inr (typed true), w2)
        /\ (Py.truthy submit_value = true ->
            TypeScrollTools.type_text page (Py.VStr text) submit_value w
            = (inr (typed true), w2)))
  /\ (forall w1 e w2,
        keyboard_type page (Py.VStr text) w = (inr tt, w1) ->
        keyboard_press page "Enter" w1 = (inl e, w2) ->
        type page text true w = (inr (not_typed e), w2)
        /\ (Py.truthy submit_value = true ->
            TypeScrollTools.type_text page (Py.VStr text) submit_value w
            = (inr (not_typed e), w2))).
Proof.
  intros typed not_typed.
  unfold type, TypeScrollTools.type_text, try_except, bind.
  destruct (keyboard_type page (Py.VStr text) w) as [[e|[]] w1].
  - split; [by eexists _, _|]. split; [by eexists _, _|].
    split; [by intros ? ? [= <- <-]|]. by repeat split.
  - split.
    { destruct submit; [|by eexists _, _].
      destruct (keyboard_press page "Enter" w1) as [[e|[]] w2]; by eexists _, _. }
    split.
    { destruct (Py.truthy submit_value); [|by eexists _, _].
      destruct (keyboard_press page "Enter" w1) as [[e|[]] w2]; by eexists _, _. }
    split; [done|]. split; [|split].
    + intros ? [= <-]. split; [done|]. by intros ->.
    + intros ? w2 [= <-] Hp. split; [by rewrite Hp|].
      intros ->. simpl. by rewrite Hp.
    + intros ? e w2 [= <-] Hp. split; [by rewrite Hp|].
      intros ->. simpl. by rewrite Hp.
Qed.

(** X20: none of the three [get_page_info] raises. When the page gives
    its title and its url, the tool of the server returns the line
    "Current page: Title: '...', URL: '...'" and the functions of
    08-type-scroll-tools.py and 06-human-in-loop.py return the title and
    the url; when the title or the url raises, the tool of the server
    returns the line "Error getting page info: ..." with the message, and
    the two functions return "Unknown" for both. *)
Theorem X20_get_page_info_never_raises (w : W) :
  (exists line w',
     get_page_info page w = (inr line, w')
     /\ ((exists t u, line = "Current page: Title: '" +:+ t +:+ "', URL: '" +:+ u +:+ "'")
         \/ exists e, line = "Error getting page info: " +:+ Py.str_exn e))
  /\ (exists t u w', TypeScrollTools.get_page_info page w = (inr (t, u), w'))
  /\ (exists t u w', HumanInLoop.get_page_info page w = (inr (t, u), w'))
  /\ (forall t w1 u w2,
        title page w = (inr t, w1) -> url page w1 = (inr u, w2) ->
        get_page_info page w
        = (inr ("Current page: Title: '" +:+ t +:+ "', URL: '" +:+ u +:+ "'"), w2)
        /\ TypeScrollTools.get_page_info page w = (inr (t, u), w2)
        /\ HumanInLoop.get_page_info page w = (inr (t, u), w2))
  /\ (forall e w1,
        title page w = (inl e, w1) ->
        get_page_info page w = (inr ("Error getting page info: " +:+ Py.str_exn e), w1)
        /\ TypeScrollTools.get_page_info page w = (inr ("Unknown", "Unknown"), w1)
        /\ HumanInLoop.get_page_info page w = (inr ("Unknown", "Unknown"), w1))
  /\ (forall t w1 e w2,
        title page w = (inr t, w1) -> url page w1 = (inl e, w2) ->
        get_page_info page w = (inr ("Error getting page info: " +:+ Py.str_exn e), w2)
        /\ TypeScrollTools.get_page_info page w = (inr ("Unknown", "Unknown"), w2)
        /\ HumanInLoop.get_page_info page w = (inr ("Unknown", "Unknown"), w2)).
Proof.
  unfold get_page_info, TypeScrollTools.get_page_info, HumanInLoop.get_page_info,
    try_except, bind.
  destruct (title page w) as [[e|t] w1].
  - split; [eexists _, _; split; [done|right; by eexists]|].
    split; [by eexists _, _, _|]. split; [by eexists _, _, _|].
    split; [done|]. split; [|done]. by intros ? ? [= <- <-].
  - split.
    { destruct (url page w1) as [[e|u] w2]; eexists _, _; (split; [done|]).
      - right. by eexists.
      - left. by eexists _, _. }
    split; [destruct (url page w1) as [[e|u] w2]; by eexists _, _, _|].
    split; [destruct (url page w1) as [[e|u] w2]; by eexists _, _, _|].
    split; [|split; [done|]].
    + intros ? ? u w2 [= <- <-] Hu. by rewrite Hu.
    + intros ? ? e w2 [= <- <-] Hu. by rewrite Hu.
Qed.

(** X21: [get_artifact] never raises and returns one object, whose uri
    is [artifact://{session_id}/{filename}]; for a file that does not exist
    the object says so, with the type text/plain; when reading raises, the
    text is the error message, with the type text/plain. *)
Theorem X21_get_artifact (session_id filename : string) (w : W) :
  let uri := "artifact://" +:+ session_id +:+ "/" +:+ filename in
  let file_path := "artefacts/" +:+ session_id +:+ "/" +:+ filename in
  (exists c w',
     get_artifact files session_id filename w = (inr [c], w') /\ artifact_uri c = uri)
  /\ (forall w1,
        path_exists files file_path w = (inr false, w1) ->
        get_artifact files session_id filename w
        = (inr [PlainContents uri ("Error: Artifact not found: " +:+ filename)
                  "text/plain"], w1))
  /\ (forall w1 e w2,
        path_exists files file_path w = (inr true, w1) ->
        read_text files file_path w1 = (inl e, w2) ->
        get_artifact files session_id filename w
        = (inr [TextContents uri ("Error: " +:+ Py.str_exn e) "text/plain"], w2))
  /\ (forall w1 content w2,
        path_exists files file_path w = (inr true, w1) ->
        read_text files file_path w1 = (inr content, w2) ->
        get_artifact files session_id filename w
        = (inr [TextContents uri content (mime_type_of filename)], w2)).
Proof.
  intros uri file_path. unfold get_artifact, try_except, bind. fold uri file_path.
  destruct (path_exists files file_path w) as [[e0|[|]] w0]; simpl.
  - split; [by eexists _, _|]. by repeat split.
  - split.
    { destruct (read_text files file_path w0) as [[e1|content] w2]; by eexists _, _. }
    split; [done|]. split.
    + intros w1 e w2 [= <-] Hr. by rewrite Hr.
    + intros w1 content w2 [= <-] Hr. by rewrite Hr.
  - split; [by eexists _, _|]. split; [by intros w1 [= <-]|]. by split.
Qed.

(** X22: what [write_file] wrote, [get_artifact] returns: on a file system
    where the file written exists afterwards and reads as the content
    written, [get_artifact] for the session and the filename returns the whole
    content under the uri and with the MIME type of the resource reference
    [write_file] returned, whose own text is the first 100 characters of
    the content. *)
Theorem X22_write_then_get (filename content : string) (w w' : W) :
  let file_path := "artefacts/" +:+ SESSION_ID +:+ "/" +:+ filename in
  write_text os file_path content w = (inr tt, w') ->
  path_exists files file_path w' = (inr true, w') ->
  read_text files file_path w' = (inr content, w') ->
  exists uri mime_type,
    write_file SESSION_ID os filename content w
    = (inr (OutContent
              (EmbeddedResource
                 (TextResourceContents uri (Some mime_type)
                    (String.substring 0 100 content)))), w')
    /\ get_artifact files SESSION_ID filename w'
       = (inr [TextContents uri content mime_type], w').
Proof.
  intros file_path Hw He Hr. eexists _, _. split.
  - by apply write_file_written.
  - unfold get_artifact, try_except, bind. fold file_path. rewrite He. simpl.
    by rewrite Hr.
Qed.

Lemma artifact_lines_spec file_names artifact_list :
  artifact_lines SESSION_ID file_names artifact_list
  = artifact_list
    ++ ((fun file => "- " +:+ file +:+ ": artifact://" +:+ SESSION_ID +:+ "/" +:+ file)
        <$> file_names).
Proof.
  revert artifact_list.
  induction file_names as [|file rest IH]; intros artifact_list; simpl.
  - by rewrite app_nil_r.
  - rewrite IH. by rewrite <- app_assoc.
Qed.

(** X23: [list_artifacts] never raises and returns one object of type
    text/plain under the uri artifact://list. When the directory of the
    session exists and can be listed, the text is the line "Available
    artifacts:" followed by one line per file, in the order of the listing;
    the line of a file names the uri under which [write_file] hands the file
    out. *)
Theorem X23_list_artifacts (w : W) :
  let artifacts_dir := "artefacts/" +:+ SESSION_ID in
  (exists text w',
     list_artifacts SESSION_ID files w
     = (inr [PlainContents "artifact://list" text "text/plain"], w'))
  /\ (forall w1 file_names w2,
        path_exists files artifacts_dir w = (inr true, w1) ->
        listdir files artifacts_dir w1 = (inr file_names, w2) ->
        list_artifacts SESSION_ID files w
        = (inr [PlainContents "artifact://list"
                  (String.concat nl
                     ("Available artifacts:"
                      :: ((fun file =>
                             "- " +:+ file +:+ ": artifact://" +:+ SESSION_ID +:+ "/"
                             +:+ file) <$> file_names)))
                  "text/plain"], w2))
  /\ (forall w1,
        path_exists files artifacts_dir w = (inr false, w1) ->
        list_artifacts SESSION_ID files w
        = (inr [PlainContents "artifact://list" "No artifacts found for this session"
                  "text/plain"], w1)).
Proof.
  intros artifacts_dir. unfold list_artifacts, try_except, bind. fold artifacts_dir.
  destruct (path_exists files artifacts_dir w) as [[e0|[|]] w0]; simpl.
  - split; [by eexists _, _|]. by split.
  - split.
    { destruct (listdir files artifacts_dir w0) as [[e1|file_names] w2];
        by eexists _, _. }
    split; [|done].
    intros w1 file_names w2 [= <-] Hl. rewrite Hl. by rewrite artifact_lines_spec.
  - split; [by eexists _, _|]. split; [done|]. by intros w1 [= <-].
Qed.

End ServerProperties.

(** ** The tool loops of the scripts without a session *)

(** A sequence that returns: its first part returned, and the rest
    returned from there. *)
Lemma bind_returns {St A B} (m : M St A) (k : A -> M St B) s b s' :
  bind m k s = (inr b, s') ->
  exists a s1, m s = (inr a, s1) /\ k a s1 = (inr b, s').
Proof.
  unfold bind. destruct (m s) as [[e|a] s1]; [done|]. intros H. by exists a, s1.
Qed.

Lemma ret_returns {St A} (a b : A) (s s' : St) :
  ret a s = (inr b, s') -> b = a /\ s' = s.
Proof. by intros [= <- <-]. Qed.

Ltac returns H :=
  repeat (let a := fresh "a" in
          let s := fresh "s" in
          let Ha := fresh "Ha" in
          apply bind_returns in H as (a & s & Ha & H));
  try (apply ret_returns in H as [-> ->]).

Lemma json_result_answers tool result :
  answers tool (TypeScrollTools.json_result (tu_toolUseId tool) result).
Proof. by eexists. Qed.

Section RunExampleKnownTools.

Context {W : Type}.
Variable SESSION_ID : string.
Variable json_loads : string -> Py.exn + Py.value.
Variable str_value : Py.value -> string.
Variable page : Page W.
Variable os : Os W.

Lemma known_name tool name :
  tu_name tool = name -> bool_decide (name ∈ known_tools) = true -> known tool = true.
Proof. by intros <- H. Qed.

Lemma run_example_dispatch_answers (items tool_content : list ContentItem)
    (w : W) (results : list ContentItem) (w' : W) :
  TypeScrollTools.dispatch_tool_uses SESSION_ID json_loads str_value page os
    items tool_content w = (inr results, w') ->
  exists new_results,
    results = tool_content ++ new_results
    /\ Forall2 answers (List.filter known (omap toolUse items)) new_results.
Proof.
  revert tool_content w.
  induction items as [|content rest IH]; intros tool_content w; simpl.
  - intros [= <- <-]. exists []. by rewrite app_nil_r.
  - destruct (toolUse content) as [tool|]; [|apply IH]. simpl.
    intros H. apply bind_returns in H as (tool_input & w1 & _ & H).
    apply bind_returns in H as (tool_content1 & w2 & Hstep & H).
    apply IH in H as (new_results & -> & HF).
    assert (Hcase :
              (known tool = true
               /\ exists r, tool_content1 = tool_content ++ [r] /\ answers tool r)
              \/ (known tool = false /\ tool_content1 = tool_content)).
    { revert Hstep.
      destruct (String.eqb_spec (tu_name tool) "navigate") as [Hn|Hn1].
      { intros H. returns H. left. split; [by apply (known_name _ _ Hn)|].
        eexists. split; [done|]. apply json_result_answers. }
      destruct (String.eqb_spec (tu_name tool) "screenshot") as [Hn|Hn2].
      { intros H. returns H. left. split; [by apply (known_name _ _ Hn)|].
        eexists. split; [done|]. by eexists. }
      destruct (String.eqb_spec (tu_name tool) "click") as [Hn|Hn3].
      { intros H. returns H. left. split; [by apply (known_name _ _ Hn)|].
        eexists. split; [done|]. apply json_result_answers. }
      destruct (String.eqb_spec (tu_name tool) "scroll") as [Hn|Hn4].
      { intros H. returns H. left. split; [by apply (known_name _ _ Hn)|].
        eexists. split; [done|]. apply json_result_answers. }
      destruct (String.eqb_spec (tu_name tool) "type") as [Hn|Hn5].
      { intros H. returns H. left. split; [by apply (known_name _ _ Hn)|].
        eexists. split; [done|]. apply json_result_answers. }
      destruct (String.eqb_spec (tu_name tool) "ask_user") as [Hn|Hn6].
      { intros H. returns H. left. split; [by apply (known_name _ _ Hn)|].
        eexists. split; [done|]. apply json_result_answers. }
      intros [= <- <-]. right. split; [|done].
      unfold known, known_tools. apply bool_decide_eq_false. intros Hin.
      repeat (apply elem_of_cons in Hin as [Hin|Hin]; [done|]).
      by apply elem_of_nil in Hin. }
    destruct Hcase as [(-> & r & -> & Hr)|(-> & ->)].
    + exists (r :: new_results). rewrite <- app_assoc. split; [done|].
      by constructor.
    + by exists new_results.
Qed.

(** X24: the user turn that [run_example] of 08-type-scroll-tools.py
    builds answers exactly the requests whose tool name is one of the six
    the loop knows: it holds, in order, one toolResult for each such request,
    with the id of the request, then one text item; a request under any
    other name has no result in it. *)
Theorem X24_run_example_answers_known (output_message : Message) (w : W)
    (m : Message) (w' : W) :
  TypeScrollTools.run_example_tool_turn SESSION_ID json_loads str_value page os
    output_message w = (inr m, w') ->
  role m = "user"
  /\ exists results t u,
       content m
       = Some (results
               ++ [text_item ("Current page: Title: '" +:+ t +:+ "', URL: '"
                              +:+ u +:+ "'")])
       /\ Forall2 answers
            (List.filter known (omap toolUse (get_content output_message))) results.
Proof.
  unfold TypeScrollTools.run_example_tool_turn. intros H.
  apply bind_returns in H as (tool_content & w1 & Hd & H).
  apply bind_returns in H as ([t u] & w2 & _ & H).
  apply ret_returns in H as [-> ->]. split; [done|].
  apply run_example_dispatch_answers in Hd as (results & -> & HF).
  by exists results, t, u.
Qed.

End RunExampleKnownTools.

Section EarlierLoops.

Context {W : Type}.
Variable SESSION_ID : string.
Variable json_loads : string -> Py.exn + Py.value.
Variable page : Page W.
Variable os : Os W.

Lemma human_in_loop_dispatch_answers (items tool_content : list ContentItem)
    (w : W) (results : list ContentItem) (w' : W) :
  HumanInLoop.dispatch_tool_uses SESSION_ID json_loads page os items tool_content w
  = (inr results, w') ->
  exists new_results,
    results = tool_content ++ new_results
    /\ Forall2 answers (omap toolUse items) new_results.
Proof.
  revert tool_content w.
  induction items as [|content rest IH]; intros tool_content w; simpl.
  - intros [= <- <-]. exists []. by rewrite app_nil_r.
  - destruct (toolUse content) as [tool|]; [|apply IH]. simpl.
    intros H. apply bind_returns in H as (tool_input & w1 & _ & H).
    apply bind_returns in H as (result & w2 & _ & H).
    apply IH in H as (new_results & -> & HF).
    eexists (_ :: new_results). rewrite <- app_assoc. split; [done|].
    constructor; [apply json_result_answers|done].
Qed.

Lemma invoke_tool_dispatch_answers (items tool_content : list ContentItem)
    (w : W) (results : list ContentItem) (w' : W) :
  InvokeTool.dispatch_tool_uses json_loads os items tool_content w
  = (inr results, w') ->
  exists new_results,
    results = tool_content ++ new_results
    /\ Forall2 answers (omap toolUse items) new_results.
Proof.
  revert tool_content w.
  induction items as [|content rest IH]; intros tool_content w; simpl.
  - intros [= <- <-]. exists []. by rewrite app_nil_r.
  - destruct (toolUse content) as [tool|]; [|apply IH]. simpl.
    intros H. apply bind_returns in H as (tool_input & w1 & _ & H).
    apply bind_returns in H as (result & w2 & _ & H).
    apply IH in H as (new_results & -> & HF).
    eexists (_ :: new_results). rewrite <- app_assoc. split; [done|].
    constructor; [apply json_result_answers|done].
Qed.

Lemma loop_dispatch_answers (items tool_content results : list ContentItem) :
  Loop.dispatch_tool_uses json_loads items tool_content = inr results ->
  results
  = tool_content
    ++ ((fun tool =>
           TypeScrollTools.json_result (tu_toolUseId tool)
             (Py.VDict [("tool_executed", Py.VBool true)]))
        <$> omap toolUse items).
Proof.
  revert tool_content.
  induction items as [|content rest IH]; intros tool_content; simpl.
  - intros [= <-]. by rewrite app_nil_r.
  - destruct (toolUse content) as [tool|]; [|apply IH]. simpl.
    destruct (parse_tool_input json_loads tool) as [e|tool_input]; [done|].
    intros H. apply IH in H as ->. by rewrite <- app_assoc.
Qed.

(** X25: the loops of the three earlier scripts answer every request,
    whatever the name of the tool. When the user turn is built, it holds one
    toolResult per toolUse of the assistant turn, in order and with the id of
    the request: followed by one text item in 06-human-in-loop.py, and
    nothing else in 04-invoke-tool.py and 03-loop.py, where each result is
    [{tool_executed: True}]. *)
Theorem X25_earlier_loops_answer_all (output_message : Message) (w : W) :
  (forall m w',
     HumanInLoop.run_example_tool_turn SESSION_ID json_loads page os output_message w
     = (inr m, w') ->
     role m = "user"
     /\ exists results t u,
          content m
          = Some (results
                  ++ [text_item ("Current page: Title: '" +:+ t +:+ "', URL: '"
                                 +:+ u +:+ "'")])
          /\ Forall2 answers (omap toolUse (get_content output_message)) results)
  /\ (forall m w',
        InvokeTool.run_example_tool_turn json_loads os output_message w = (inr m, w') ->
        role m = "user"
        /\ exists results,
             content m = Some results
             /\ Forall2 answers (omap toolUse (get_content output_message)) results)
  /\ (forall m,
        Loop.run_example_tool_turn json_loads output_message = inr m ->
        m = {| role := "user";
               content :=
                 Some ((fun tool =>
                          TypeScrollTools.json_result (tu_toolUseId tool)
                            (Py.VDict [("tool_executed", Py.VBool true)]))
                       <$> omap toolUse (get_content output_message)) |}).
Proof.
  split; [|split].
  - intros m w'. unfold HumanInLoop.run_example_tool_turn. intros H.
    apply bind_returns in H as (tool_content & w1 & Hd & H).
    apply bind_returns in H as ([t u] & w2 & _ & H).
    apply ret_returns in H as [-> ->]. split; [done|].
    apply human_in_loop_dispatch_answers in Hd as (results & -> & HF).
    by exists results, t, u.
  - intros m w'. unfold InvokeTool.run_example_tool_turn. intros H.
    apply bind_returns in H as (tool_content & w1 & Hd & H).
    apply ret_returns in H as [-> ->]. split; [done|].
    apply invoke_tool_dispatch_answers in Hd as (results & -> & HF).
    by exists results.
  - intros m. unfold Loop.run_example_tool_turn.
    destruct (Loop.dispatch_tool_uses _ _ _) as [e|tool_content] eqn:Hd; [done|].
    intros [= <-]. by rewrite (loop_dispatch_answers _ _ _ Hd).
Qed.

End EarlierLoops.

(** ** The further properties at sample data *)

Lemma X2_remove_media_strips_before_last_user_witness :
  remove_media_except_last_turn image_transcript
  = [ {| role := "user"; content := Some [media_placeholder] |};
      {| role := "assistant"; content := Some [text_item "I see a shop."] |};
      {| role := "user"; content := Some [text_item "Current page: x"] |} ].
Proof.
  apply (proj1 (X2_remove_media_strips_before_last_user
                  [ {| role := "user";
                       content := Some [image_item (mkImage "png" "...")] |};
                    {| role := "assistant";
                       content := Some [text_item "I see a shop."] |} ]
                  []
                  {| role := "user"; content := Some [text_item "Current page: x"] |}));
    [reflexivity|constructor].
Defined.

Lemma X3_remove_media_leaves_no_media_witness :
  Forall (fun it => carries_media it = false)
    (get_content {| role := "user"; content := Some [media_placeholder] |}).
Proof.
  apply (X3_remove_media_leaves_no_media
           [ {| role := "user";
                content := Some [image_item (mkImage "png" "...")] |};
             {| role := "assistant";
                content := Some [text_item "I see a shop."] |} ]
           []
           {| role := "user"; content := Some [text_item "Current page: x"] |}
           {| role := "user"; content := Some [media_placeholder] |} 0);
    [reflexivity|constructor|simpl; lia|reflexivity].
Defined.

Lemma X5_tool_turn_not_stripped_witness :
  strip_message frobnicate_answer = frobnicate_answer.
Proof.
  apply (X5_tool_turn_not_stripped b64decode_ok json_loads_none str_value_int
           one_tool_session frobnicate_turn (mkClientState tt [])
           frobnicate_answer (mkClientState tt [])).
  reflexivity.
Defined.

(** Decides [media_apart] on a transcript that is written out. *)
Ltac solve_media_apart :=
  unfold media_apart; simpl;
  repeat (apply Forall_cons; split); try (by apply Forall_nil_2);
  first [ intros H; vm_compute in H; discriminate
        | intros _; split; reflexivity ].

Lemma media_turns_media_apart : Forall media_apart media_turns.
Proof. unfold media_turns, tool_request, tool_answer. solve_media_apart. Qed.

(** Stripping [media_turns] drops the image of the prompt and the json item
    beside the tool result. *)
Lemma media_turns_stripped :
  remove_media_except_last_turn media_turns
  = [ {| role := "user"; content := Some [text_item "What does this page sell?"] |};
      {| role := "assistant"; content := Some [tool_request "t1" "navigate"] |};
      {| role := "user"; content := Some [tool_answer "t1"] |};
      {| role := "assistant"; content := Some [text_item "It sells shoes."] |};
      {| role := "user"; content := Some [text_item "Thanks"] |} ].
Proof. reflexivity. Qed.

Lemma X7_remove_media_keeps_pairing_witness :
  tool_use_count (remove_media_except_last_turn media_turns) = tool_use_count media_turns
  /\ tool_result_count (remove_media_except_last_turn media_turns)
     = tool_result_count media_turns
  /\ (tool_pairing (remove_media_except_last_turn media_turns)
      <-> tool_pairing media_turns).
Proof.
  apply (X7_remove_media_keeps_pairing media_turns media_turns_media_apart).
Defined.

Lemma X9_summarize_alternating_witness :
  summarize_conversation seven_turns (answering_client "shop opened")
  = [ {| role := "user"; content := Some [text_item "Search the price"] |};
      {| role := "assistant";
         content :=
           Some [text_item "[CONVERSATION SUMMARY: shop opened]";
                 tool_request "t2" "screenshot"] |};
      {| role := "user"; content := Some [tool_answer "t2"; text_item "Current page: shop"] |};
      {| role := "assistant"; content := Some [tool_request "t3" "click"] |};
      {| role := "user"; content := Some [tool_answer "t3"; text_item "Current page: item"] |} ].
Proof.
  apply (X9_summarize_alternating
           {| role := "user"; content := Some [text_item "Search the price"] |}
           {| role := "assistant"; content := Some [tool_request "t2" "screenshot"] |}
           {| role := "user";
              content := Some [tool_answer "t2"; text_item "Current page: shop"] |}
           {| role := "assistant"; content := Some [tool_request "t3" "click"] |}
           {| role := "user";
              content := Some [tool_answer "t3"; text_item "Current page: item"] |}
           [ {| role := "assistant";
                content := Some [text_item "I will open the shop.";
                                 tool_request "t1" "navigate"] |};
             {| role := "user";
                content := Some [tool_answer "t1"; text_item "Current page: shop"] |} ]
           (answering_client "shop opened")
           {| output_message :=
                Some {| role := "assistant"; content := Some [text_item "shop opened"] |};
              stopReason := Some "end_turn";
              inputTokens := Some 120%Z |});
    try reflexivity.
  discriminate.
Defined.

Lemma X10_manage_context_witness :
  run_client_manage_context image_transcript frobnicate_response failing_client
  = remove_media_except_last_turn image_transcript.
Proof.
  apply (X10_manage_context image_transcript frobnicate_response failing_client).
  simpl. lia.
Defined.

Lemma X11_run_client_step_keeps_pairing_witness :
  tool_pairing [first_prompt; frobnicate_turn; frobnicate_answer]
  /\ Forall media_apart [first_prompt; frobnicate_turn; frobnicate_answer].
Proof.
  apply (X11_run_client_step_keeps_pairing b64decode_ok json_loads_none str_value_int
           one_tool_session failing_client [first_prompt] frobnicate_response
           frobnicate_turn (mkClientState tt [])
           [first_prompt; frobnicate_turn; frobnicate_answer] (mkClientState tt []));
    try reflexivity.
  - unfold first_prompt. solve_media_apart.
  - unfold frobnicate_turn. solve_media_apart.
Defined.

Lemma X13_process_tool_request_converts_witness :
  process_tool_request b64decode_ok write_file_session "write_file" (Some "t1")
    (Py.VDict [("filename", Py.VStr "r.md"); ("content", Py.VStr "# Title")])
    (mkClientState [] [])
  = (inr (toolResult_item
            {| tr_toolUseId := Some "t1";
               tr_content :=
                 [TRJson (Py.VDict [("resource", Py.VStr "artifact://s1/r.md")]);
                  TRJson (Py.VDict [("resource", Py.VStr "# Title")])] |}),
     mkClientState [("artefacts/s1/r.md", "# Title")] ["artifact://s1/r.md"]).
Proof.
  apply (proj1 (X13_process_tool_request_converts b64decode_ok write_file_session
                  "write_file" (Some "t1")
                  (Py.VDict [("filename", Py.VStr "r.md"); ("content", Py.VStr "# Title")])
                  (mkClientState [] []))
           {| ctr_content :=
                [EmbeddedResource
                   (TextResourceContents "artifact://s1/r.md" (Some "text/markdown")
                      "# Title")];
              isError := false |}
           [("artefacts/s1/r.md", "# Title")]);
    [reflexivity|by repeat constructor].
Defined.

Lemma X14_ambient_text_witness :
  exists results w text is_error w',
    call_tool one_tool_session "get_page_info" (Py.VDict []) w
    = (inr {| ctr_content := [TextContent text]; isError := is_error |}, w')
    /\ content frobnicate_answer
       = Some (results ++ [text_item ("Current page: " +:+ text)]).
Proof.
  apply (X14_ambient_text b64decode_ok json_loads_none str_value_int one_tool_session
           frobnicate_turn (mkClientState tt []) frobnicate_answer
           (mkClientState tt [])); [|reflexivity].
  intros w. by eexists _, _, _.
Defined.

Lemma X15_empty_page_info_raises_witness :
  exists st',
    run_client_tool_turn b64decode_ok json_loads_none str_value_int silent_session
      frobnicate_turn (mkClientState tt [])
    = (inl (Py.Exception "list index out of range"), st').
Proof.
  apply (X15_empty_page_info_raises b64decode_ok json_loads_none str_value_int
           silent_session frobnicate_turn (mkClientState tt [])).
  - repeat constructor. intros tool s [= <-]. discriminate.
  - intros w. by eexists _, _.
Defined.

Lemma X16_convert_keeps_tools_witness :
  ts_name <$> [ {| ts_name := "navigate";
                   ts_description := "Navigate to a specified URL";
                   ts_json :=
                     Py.VDict
                       [("type", Py.VStr "object");
                        ("properties",
                         Py.VDict [("url", Py.VDict [("type", Py.VStr "string")])]);
                        ("required", Py.VList [Py.VStr "url"; Py.VStr "ctx"])] |};
                {| ts_name := "screenshot";
                   ts_description := "Use the screenshot tool";
                   ts_json := default_schema |} ]
  = tool_name <$> sample_tools.
Proof.
  eapply (X16_convert_keeps_tools sample_tools). reflexivity.
Defined.

Lemma X17_convert_filters_ctx_witness :
  Forall2 (fun tool ts =>
             let schema := default default_schema (tool_inputSchema tool) in
             no_ctx (ts_json ts) /\ same_but_ctx schema (ts_json ts)
             /\ (no_ctx schema -> ts_json ts = schema))
    sample_tools
    [ {| ts_name := "navigate";
         ts_description := "Navigate to a specified URL";
         ts_json :=
           Py.VDict
             [("type", Py.VStr "object");
              ("properties",
               Py.VDict [("url", Py.VDict [("type", Py.VStr "string")])]);
              ("required", Py.VList [Py.VStr "url"; Py.VStr "ctx"])] |};
      {| ts_name := "screenshot";
         ts_description := "Use the screenshot tool";
         ts_json := default_schema |} ].
Proof.
  apply (X17_convert_filters_ctx sample_tools). reflexivity.
Defined.

Lemma schema_ok_sample_tools : Forall schema_ok sample_tools.
Proof.
  repeat constructor.
  - by eexists _, _.
  - by eexists _, _.
Qed.

Lemma X18_convert_raises_witness :
  convert_to_bedrock_tools (sample_tools ++ [bare_tool])
  = inl (Py.Exception "'properties'").
Proof.
  apply (proj1 (proj2 (X18_convert_raises (sample_tools ++ [bare_tool])))
           sample_tools bare_tool [] [("type", Py.VStr "object")]);
    [reflexivity|apply schema_ok_sample_tools|reflexivity|reflexivity].
Defined.

Lemma X19_type_never_raises_witness :
  type locked_page "abc" true []
  = (inr (Py.VDict [("typed", Py.VBool false); ("error", Py.VStr "Target closed")]), [])
  /\ TypeScrollTools.type_text typing_page (Py.VStr "abc") (Py.VBool false) []
     = (inr (Py.VDict [("typed", Py.VBool true); ("text", Py.VStr "abc");
                       ("submitted", Py.VBool false)]), ["abc"])
  /\ TypeScrollTools.type_text typing_page (Py.VStr "abc") (Py.VBool true) []
     = (inr (Py.VDict [("typed", Py.VBool true); ("text", Py.VStr "abc");
                       ("submitted", Py.VBool true)]), ["abc"; "Enter"]).
Proof.
  split; [|split].
  - destruct (X19_type_never_raises locked_page "abc" true (Py.VBool true) [])
      as (_ & _ & H & _).
    destruct (H (Py.Exception "Target closed") []) as [H1 _]; [reflexivity|].
    exact H1.
  - destruct (X19_type_never_raises typing_page "abc" false (Py.VBool false) [])
      as (_ & _ & _ & H & _).
    destruct (H ["abc"]) as [_ H2]; [reflexivity|]. apply H2. reflexivity.
  - destruct (X19_type_never_raises typing_page "abc" true (Py.VBool true) [])
      as (_ & _ & _ & _ & H & _).
    destruct (H ["abc"] ["abc"; "Enter"]) as [_ H2]; [reflexivity|reflexivity|].
    apply H2. reflexivity.
Defined.

Lemma X20_get_page_info_never_raises_witness :
  get_page_info locked_page []
  = (inr "Error getting page info: Target closed", [])
  /\ TypeScrollTools.get_page_info locked_page [] = (inr ("Unknown", "Unknown"), [])
  /\ TypeScrollTools.get_page_info typing_page [] = (inr ("Shop", "https://x"), [])
  /\ HumanInLoop.get_page_info typing_page [] = (inr ("Shop", "https://x"), []).
Proof.
  destruct (X20_get_page_info_never_raises locked_page [])
    as (_ & _ & _ & _ & Hl & _).
  destruct (Hl (Py.Exception "Target closed") []) as (H1 & H2 & _); [reflexivity|].
  destruct (X20_get_page_info_never_raises typing_page [])
    as (_ & _ & _ & Ht & _).
  destruct (Ht "Shop" [] "https://x" []) as (_ & H3 & H4); [reflexivity|reflexivity|].
  by repeat split.
Defined.

Lemma X21_get_artifact_witness :
  get_artifact directory_files "s1" "zz.md" [("artefacts/s1/r.md", "# Title")]
  = (inr [PlainContents "artifact://s1/zz.md" "Error: Artifact not found: zz.md"
            "text/plain"], [("artefacts/s1/r.md", "# Title")]).
Proof.
  apply (proj1 (proj2 (X21_get_artifact directory_files "s1" "zz.md"
                         [("artefacts/s1/r.md", "# Title")]))).
  reflexivity.
Defined.

Lemma X22_write_then_get_witness :
  exists uri mime_type,
    write_file "s1" directory_os "r.md" "# Title" []
    = (inr (OutContent
              (EmbeddedResource
                 (TextResourceContents uri (Some mime_type)
                    (String.substring 0 100 "# Title")))),
       [("artefacts/s1/r.md", "# Title")])
    /\ get_artifact directory_files "s1" "r.md" [("artefacts/s1/r.md", "# Title")]
       = (inr [TextContents uri "# Title" mime_type],
          [("artefacts/s1/r.md", "# Title")]).
Proof.
  apply (X22_write_then_get "s1" directory_os directory_files "r.md" "# Title" []
           [("artefacts/s1/r.md", "# Title")]); reflexivity.
Defined.

Lemma X23_list_artifacts_witness :
  list_artifacts "s1" directory_files
    [("artefacts/s1/r.md", "# Title"); ("artefacts/s1/a.json", "{}")]
  = (inr [PlainContents "artifact://list"
            (String.concat nl
               ["Available artifacts:"; "- r.md: artifact://s1/r.md";
                "- a.json: artifact://s1/a.json"])
            "text/plain"],
     [("artefacts/s1/r.md", "# Title"); ("artefacts/s1/a.json", "{}")]).
Proof.
  apply (proj1 (proj2 (X23_list_artifacts "s1" directory_files
                         [("artefacts/s1/r.md", "# Title");
                          ("artefacts/s1/a.json", "{}")]))
           [("artefacts/s1/r.md", "# Title"); ("artefacts/s1/a.json", "{}")]
           ["r.md"; "a.json"]); reflexivity.
Defined.

Lemma X24_run_example_answers_known_witness :
  exists results t u,
    Some [text_item "Current page: Title: 'Shop', URL: 'https://x'"]
    = Some (results
            ++ [text_item ("Current page: Title: '" +:+ t +:+ "', URL: '"
                           +:+ u +:+ "'")])
    /\ Forall2 answers
         (List.filter known
            (omap toolUse
               (get_content {| role := "assistant";
                               content := Some [toolUse_item write_file_request] |})))
         results.
Proof.
  apply (X24_run_example_answers_known "s1" json_loads_none str_value_int
           recording_page quiet_os
           {| role := "assistant"; content := Some [toolUse_item write_file_request] |} []
           {| role := "user";
              content :=
                Some [text_item "Current page: Title: 'Shop', URL: 'https://x'"] |} []).
  reflexivity.
Defined.

Lemma X25_earlier_loops_answer_all_witness :
  exists results t u,
    Some [TypeScrollTools.json_result (Some "t7") (Py.VDict []);
          text_item "Current page: Title: 'Shop', URL: 'https://x'"]
    = Some (results
            ++ [text_item ("Current page: Title: '" +:+ t +:+ "', URL: '"
                           +:+ u +:+ "'")])
    /\ Forall2 answers
         (omap toolUse
            (get_content {| role := "assistant";
                            content := Some [toolUse_item write_file_request] |}))
         results.
Proof.
  apply (proj1 (X25_earlier_loops_answer_all "s1" json_loads_none recording_page
                  quiet_os
                  {| role := "assistant";
                     content := Some [toolUse_item write_file_request] |} [])
           {| role := "user";
              content :=
                Some [TypeScrollTools.json_result (Some "t7") (Py.VDict []);
                      text_item "Current page: Title: 'Shop', URL: 'https://x'"] |} []).
  reflexivity.
Defined.

(** ** The functions over the object store compute the functions on values *)

Module StoreRefinement.

Import iris.proofmode.proofmode iris.base_logic.lib.gen_heap.
Import Store StoreSpec StoreLogic.

Section Rules.

Context `{!gen_heapGS loc obj Σ}.

Local Notation "l ↦{# q } o" := (pointsto l (DfracOwn q) o)
  (at level 20, q at level 50, format "l  ↦{# q }  o") : bi_scope.
Local Notation "l ↦ o" := (pointsto l (DfracOwn 1) o)
  (at level 20, format "l  ↦  o") : bi_scope.

Lemma wp_ret {A} (a : A) Φ : Φ a ⊢ wp (ret a) Φ.
Proof. iIntros "H" (σ) "Hσ". iModIntro. iExists a, σ. by iFrame. Qed.

Lemma wp_bind {A B} (m : M heap A) (k : A -> M heap B) Φ :
  wp m (fun a => wp (k a) Φ) ⊢ wp (bind m k) Φ.
Proof.
  iIntros "H" (σ) "Hσ". iMod ("H" with "Hσ") as (a σ1) "(%Hm & Hσ & H)".
  iMod ("H" with "Hσ") as (b σ2) "(%Hk & Hσ & H)".
  iModIntro. iExists b, σ2. iFrame. iPureIntro. rw /bind Hm. done.
Qed.

Lemma wp_wand {A} (m : M heap A) Φ Ψ :
  wp m Φ -∗ (∀ a, Φ a -∗ Ψ a) -∗ wp m Ψ.
Proof.
  iIntros "H HΦ" (σ) "Hσ". iMod ("H" with "Hσ") as (a σ1) "(%Hm & Hσ & H)".
  iModIntro. iExists a, σ1. iFrame. iSplit; [done|]. by iApply "HΦ".
Qed.

Lemma wp_try {A} (body : M heap A) handler Φ :
  wp body Φ ⊢ wp (try_except body handler) Φ.
Proof.
  iIntros "H" (σ) "Hσ". iMod ("H" with "Hσ") as (a σ1) "(%Hm & Hσ & H)".
  iModIntro. iExists a, σ1. iFrame. iPureIntro. by rw /try_except Hm.
Qed.

Lemma wp_alloc o Φ : (∀ l, l ↦ o -∗ Φ l) ⊢ wp (alloc o) Φ.
Proof.
  iIntros "H" (σ) "Hσ".
  assert (σ !! fresh (dom σ) = None) as Hfresh.
  { apply not_elem_of_dom, is_fresh. }
  iMod (gen_heap_alloc σ _ o Hfresh with "Hσ") as "(Hσ & Hl & _)".
  iModIntro. iExists _, _. iFrame. iSplit; [done|]. by iApply "H".
Qed.

Lemma wp_read l q o Φ : l ↦{#q} o -∗ (l ↦{#q} o -∗ Φ o) -∗ wp (read l) Φ.
Proof.
  iIntros "Hl H" (σ) "Hσ".
  iDestruct (gen_heap_valid with "Hσ Hl") as %Hl.
  iModIntro. iExists o, σ. iFrame. iSplit; [by rw /read Hl|]. by iApply "H".
Qed.

Lemma wp_write l o o' Φ : l ↦ o -∗ (l ↦ o' -∗ Φ tt) -∗ wp (write l o') Φ.
Proof.
  iIntros "Hl H" (σ) "Hσ".
  iMod (gen_heap_update with "Hσ Hl") as "[Hσ Hl]".
  iModIntro. iExists tt, _. iFrame. iSplit; [done|]. by iApply "H".
Qed.

Lemma wp_read_list l q elems Φ :
  l ↦{#q} OList elems -∗ (l ↦{#q} OList elems -∗ Φ elems) -∗ wp (read_list l) Φ.
Proof.
  iIntros "Hl H". iApply wp_bind. iApply (wp_read with "Hl"). iIntros "Hl".
  iApply wp_ret. by iApply "H".
Qed.

Lemma wp_read_message l q r c Φ :
  l ↦{#q} OMessage r c -∗ (l ↦{#q} OMessage r c -∗ Φ (r, c))
  -∗ wp (read_message l) Φ.
Proof.
  iIntros "Hl H". iApply wp_bind. iApply (wp_read with "Hl"). iIntros "Hl".
  iApply wp_ret. by iApply "H".
Qed.

Lemma wp_read_item l q it Φ :
  l ↦{#q} OItem it -∗ (l ↦{#q} OItem it -∗ Φ it) -∗ wp (read_item l) Φ.
Proof.
  iIntros "Hl H". iApply wp_bind. iApply (wp_read with "Hl"). iIntros "Hl".
  iApply wp_ret. by iApply "H".
Qed.

Lemma wp_list_append l elems x Φ :
  l ↦ OList elems -∗ (l ↦ OList (elems ++ [x]) -∗ Φ tt) -∗ wp (list_append l x) Φ.
Proof.
  iIntros "Hl H". iApply wp_bind. iApply (wp_read_list with "Hl"). iIntros "Hl".
  iApply (wp_write with "Hl"). done.
Qed.

Lemma wp_list_insert0 l elems x Φ :
  l ↦ OList elems -∗ (l ↦ OList (x :: elems) -∗ Φ tt) -∗ wp (list_insert0 l x) Φ.
Proof.
  iIntros "Hl H". iApply wp_bind. iApply (wp_read_list with "Hl"). iIntros "Hl".
  iApply (wp_write with "Hl"). done.
Qed.

Lemma wp_list_extend l elems other q xs Φ :
  l ↦ OList elems -∗ other ↦{#q} OList xs
  -∗ (l ↦ OList (elems ++ xs) -∗ other ↦{#q} OList xs -∗ Φ tt)
  -∗ wp (list_extend l other) Φ.
Proof.
  iIntros "Hl Ho H". iApply wp_bind. iApply (wp_read_list with "Ho"). iIntros "Ho".
  iApply wp_bind. iApply (wp_read_list with "Hl"). iIntros "Hl".
  iApply (wp_write with "Hl"). iIntros "Hl". iApply ("H" with "Hl Ho").
Qed.

Lemma wp_set_content l r c new_content Φ :
  l ↦ OMessage r c -∗ (l ↦ OMessage r (Some new_content) -∗ Φ tt)
  -∗ wp (set_content l new_content) Φ.
Proof.
  iIntros "Hl H". iApply wp_bind. iApply (wp_read_message with "Hl"). iIntros "Hl".
  iApply (wp_write with "Hl"). done.
Qed.

(** *** Loading reads the value an assertion describes *)

Lemma wp_mapM_read {V} (P : loc -> V -> iProp Σ) (load : loc -> M heap V)
    locs vals Φ :
  (forall a v Ψ, P a v -∗ (P a v -∗ Ψ v) -∗ wp (load a) Ψ) ->
  ([∗ list] a;v ∈ locs;vals, P a v)
  -∗ (([∗ list] a;v ∈ locs;vals, P a v) -∗ Φ vals)
  -∗ wp (mapM load locs) Φ.
Proof.
  intros Hload.
  iInduction locs as [|a locs] "IH" forall (vals Φ); iIntros "Hl H".
  - iDestruct (big_sepL2_nil_inv_l with "Hl") as %->. iApply wp_ret. by iApply "H".
  - iDestruct (big_sepL2_cons_inv_l with "Hl") as (v vals' ->) "[Ha Hl]".
    simpl. iApply wp_bind. iApply (Hload with "Ha"). iIntros "Ha".
    iApply wp_bind. iApply ("IH" with "Hl"). iIntros "Hl".
    iApply wp_ret. iApply "H". iFrame.
Qed.

Lemma wp_load_message q l m Φ :
  is_message q l m -∗ (is_message q l m -∗ Φ m) -∗ wp (load_message l) Φ.
Proof.
  iIntros "(%c & Hl & Hc) H". iApply wp_bind.
  iApply (wp_read_message with "Hl"). iIntros "Hl". simpl.
  destruct m as [r items]. destruct c as [cl|], items as [items|]; simpl; try done.
  - iDestruct "Hc" as (item_locs) "[Hcl Hitems]".
    iApply wp_bind. iApply (wp_read_list with "Hcl"). iIntros "Hcl".
    iApply wp_bind. iApply (wp_mapM_read (is_item q) with "Hitems").
    { iIntros (a v Ψ) "Ha H". iApply (wp_read_item with "Ha H"). }
    iIntros "Hitems".
    iApply wp_ret. iApply "H". iExists (Some cl). iFrame.
  - iApply wp_ret. iApply "H". iExists None. iFrame.
Qed.

Lemma wp_load_message_list q message_locs messages Φ :
  ([∗ list] ml;m ∈ message_locs;messages, is_message q ml m)
  -∗ (([∗ list] ml;m ∈ message_locs;messages, is_message q ml m) -∗ Φ messages)
  -∗ wp (mapM load_message message_locs) Φ.
Proof.
  iApply (wp_mapM_read (is_message q)).
  iIntros (a v Ψ) "Ha H". iApply (wp_load_message with "Ha H").
Qed.

Lemma wp_load_messages q l messages Φ :
  is_messages q l messages -∗ (is_messages q l messages -∗ Φ messages)
  -∗ wp (load_messages l) Φ.
Proof.
  iIntros "(%message_locs & Hl & Hm) H". iApply wp_bind.
  iApply (wp_read_list with "Hl"). iIntros "Hl".
  iApply (wp_load_message_list with "Hm"). iIntros "Hm".
  iApply "H". iExists message_locs. iFrame.
Qed.

(** *** Laying a transcript out gives objects that are all different *)

Lemma wp_mapM_alloc {A B} (f : A -> M heap B) (P : B -> A -> iProp Σ) xs Φ :
  (forall x Ψ, (∀ y, P y x -∗ Ψ y) -∗ wp (f x) Ψ) ->
  (∀ ys, ([∗ list] y;x ∈ ys;xs, P y x) -∗ Φ ys) -∗ wp (mapM f xs) Φ.
Proof.
  intros Hf. iInduction xs as [|x xs] "IH" forall (Φ); iIntros "H"; simpl.
  - iApply wp_ret. by iApply "H".
  - iApply wp_bind. iApply Hf. iIntros (y) "Hy".
    iApply wp_bind. iApply "IH". iIntros (ys) "Hys".
    iApply wp_ret. iApply "H". iFrame.
Qed.

Lemma wp_store_message m Φ :
  (∀ l, is_message 1 l m -∗ Φ l) -∗ wp (store_message m) Φ.
Proof.
  iIntros "H". unfold store_message. destruct m as [r [items|]]; simpl.
  - iApply wp_bind. iApply (wp_mapM_alloc _ (fun l it => is_item 1 l it)).
    { iIntros (x Ψ) "H". iApply wp_alloc. iIntros (l) "Hl". by iApply "H". }
    iIntros (item_locs) "Hitems".
    iApply wp_bind. iApply wp_alloc. iIntros (cl) "Hcl".
    iApply wp_alloc. iIntros (l) "Hl". iApply "H".
    iExists (Some cl). iFrame.
  - iApply wp_alloc. iIntros (l) "Hl". iApply "H". iExists None. by iFrame.
Qed.

Lemma wp_store_messages messages Φ :
  (∀ l, is_messages 1 l messages -∗ Φ l) -∗ wp (store_messages messages) Φ.
Proof.
  iIntros "H". iApply wp_bind.
  iApply (wp_mapM_alloc _ (fun l m => is_message 1 l m)).
  { iIntros (x Ψ) "H". by iApply wp_store_message. }
  iIntros (message_locs) "Hm". iApply wp_alloc. iIntros (l) "Hl".
  iApply "H". iExists message_locs. iFrame.
Qed.

(** *** copy.deepcopy of a transcript without shared objects *)

Lemma visited_fresh memo x o : x ↦ o -∗ visited memo -∗ ⌜memo !! x = None⌝.
Proof.
  iIntros "Hx Hm". destruct (memo !! x) as [y|] eqn:E; [|done].
  iDestruct (big_sepM_lookup with "Hm") as (o') "Hx'"; [exact E|].
  by iDestruct (pointsto_ne with "Hx Hx'") as %Hne.
Qed.

Lemma visited_insert memo x y o :
  memo !! x = None -> x ↦{#1/2} o -∗ visited memo -∗ visited (<[x := y]> memo).
Proof. iIntros (H) "Hx Hm". iApply big_sepM_insert; [done|]. iFrame. Qed.

Lemma wp_copy_elems {V} (P : Qp -> loc -> V -> iProp Σ) copy y elems vals
    copied memo Φ :
  copies P copy ->
  ([∗ list] a;v ∈ elems;vals, P 1%Qp a v)
  -∗ y ↦ OList copied -∗ visited memo
  -∗ (∀ new_elems memo',
        ([∗ list] a;v ∈ elems;vals, P (1/2)%Qp a v)
        -∗ ([∗ list] b;v ∈ new_elems;vals, P 1%Qp b v)
        -∗ y ↦ OList (copied ++ new_elems) -∗ visited memo' -∗ Φ memo')
  -∗ wp (copy_elems copy y elems memo) Φ.
Proof.
  intros Hcopy. iIntros "Hl Hy Hm H".
  iInduction elems as [|a elems] "IH" forall (vals copied memo Φ).
  - iDestruct (big_sepL2_nil_inv_l with "Hl") as %->. simpl. iApply wp_ret.
    iApply ("H" $! [] with "[] [] [Hy] Hm"); [done|done|by rw app_nil_r].
  - iDestruct (big_sepL2_cons_inv_l with "Hl") as (v vals' ->) "[Ha Hl]".
    simpl. iApply wp_bind. iApply (Hcopy with "Ha Hm"). iIntros (b memo') "Ha Hb Hm".
    iApply wp_bind. iApply (wp_list_append with "Hy"). iIntros "Hy". simpl.
    iApply ("IH" with "Hl Hy Hm"). iIntros (new_elems memo'') "Hl Hc Hy Hm".
    iApply ("H" $! (b :: new_elems) with "[Ha Hl] [Hb Hc] [Hy] Hm"); [iFrame..|].
    by rw -app_assoc.
Qed.

Lemma copies_item fuel : copies is_item (deepcopy (S fuel)).
Proof.
  iIntros (x it memo Ψ) "Hx Hm H". iDestruct (visited_fresh with "Hx Hm") as %Hx.
  simpl. rw Hx. iApply wp_bind. iApply (wp_read with "Hx"). iIntros "Hx".
  iApply wp_bind. iApply wp_alloc. iIntros (y) "Hy". iApply wp_ret.
  iDestruct "Hx" as "[Hx1 Hx2]".
  iApply ("H" with "Hx1 Hy"). by iApply (visited_insert with "Hx2 Hm").
Qed.

Lemma copies_list {V} (P : Qp -> loc -> V -> iProp Σ) fuel :
  copies P (deepcopy fuel) -> copies (is_list P) (deepcopy (S fuel)).
Proof.
  intros Hcopy. iIntros (x vals memo Ψ) "(%elems & Hx & Hl) Hm H".
  iDestruct (visited_fresh with "Hx Hm") as %Hx.
  simpl. rw Hx. iApply wp_bind. iApply (wp_read with "Hx"). iIntros "Hx".
  iApply wp_bind. iApply wp_alloc. iIntros (y) "Hy".
  iDestruct "Hx" as "[Hx1 Hx2]".
  iDestruct (visited_insert _ _ y with "Hx2 Hm") as "Hm"; [done|].
  iApply wp_bind. iApply (wp_copy_elems P with "Hl Hy Hm"); [done|].
  iIntros (new_elems memo') "Hl Hc Hy Hm". iApply wp_ret.
  iApply ("H" with "[Hx1 Hl] [Hy Hc] Hm").
  - iExists elems. iFrame.
  - iExists new_elems. iFrame.
Qed.

Lemma copies_message fuel :
  copies (is_list is_item) (deepcopy fuel) -> copies is_message (deepcopy (S fuel)).
Proof.
  intros Hcopy. iIntros (x m memo Ψ) "(%c & Hx & Hc) Hm H".
  iDestruct (visited_fresh with "Hx Hm") as %Hx.
  simpl. rw Hx. iApply wp_bind. iApply (wp_read with "Hx"). iIntros "Hx".
  iApply wp_bind. iApply wp_alloc. iIntros (y) "Hy".
  iDestruct "Hx" as "[Hx1 Hx2]".
  iDestruct (visited_insert _ _ y with "Hx2 Hm") as "Hm"; [done|].
  destruct c as [cl|], (content m) as [items|] eqn:E; simpl; try done.
  - iApply wp_bind. iApply (Hcopy with "Hc Hm"). iIntros (b memo') "Hc Hb Hm".
    iApply wp_bind. iApply (wp_set_content with "Hy"). iIntros "Hy". simpl.
    iApply wp_ret. iApply ("H" with "[Hx1 Hc] [Hy Hb] Hm").
    + iExists (Some cl). rw E. iFrame.
    + iExists (Some b). rw E. iFrame.
  - iApply wp_ret. iApply ("H" with "[Hx1] [Hy] Hm").
    + iExists None. rw E. by iFrame.
    + iExists None. rw E. by iFrame.
Qed.

Lemma copies_messages fuel : copies (is_list is_message) (deepcopy (4 + fuel)).
Proof. apply copies_list, copies_message, copies_list, copies_item. Qed.

Lemma wp_deepcopy_messages recursion_limit l messages Φ :
  4 <= recursion_limit ->
  is_messages 1 l messages
  -∗ (∀ r, is_messages (1/2) l messages -∗ is_messages 1 r messages -∗ Φ r)
  -∗ wp (deepcopy_messages recursion_limit l) Φ.
Proof.
  intros Hlimit. iIntros "Hl H". iApply wp_bind.
  replace recursion_limit with (4 + (recursion_limit - 4)) by lia.
  iApply (copies_messages with "Hl []"); [by iApply big_sepM_empty|].
  iIntros (b memo') "Hl Hb _". iApply wp_ret. iApply ("H" with "Hl Hb").
Qed.

(** *** remove_media_except_last_turn *)

Lemma wp_find_user_indices q rev_locs rev_msgs i last_user_index second Φ :
  ([∗ list] ml;m ∈ rev_locs;rev_msgs, is_message q ml m)
  -∗ (([∗ list] ml;m ∈ rev_locs;rev_msgs, is_message q ml m)
      -∗ Φ (find_user_indices_value rev_msgs i last_user_index second))
  -∗ wp (find_user_indices rev_locs i last_user_index second) Φ.
Proof.
  iInduction rev_locs as [|ml rev_locs] "IH"
    forall (rev_msgs i last_user_index second Φ); iIntros "Hl H".
  - iDestruct (big_sepL2_nil_inv_l with "Hl") as %->. iApply wp_ret. by iApply "H".
  - iDestruct (big_sepL2_cons_inv_l with "Hl") as (m rev_msgs' ->) "[Hm Hl]".
    iDestruct "Hm" as (c) "[Hml Hc]".
    simpl. iApply wp_bind. iApply (wp_read_message with "Hml"). iIntros "Hml".
    simpl. unfold is_user. destruct (String.eqb (role m) "user").
    + destruct last_user_index.
      * iApply wp_ret. iApply "H". iFrame.
      * iApply ("IH" with "Hl"). iIntros "Hl". iApply "H". iFrame.
    + iApply ("IH" with "Hl"). iIntros "Hl". iApply "H". iFrame.
Qed.

Lemma wp_strip_loop item_locs items new_content kept_locs kept removed_media Φ :
  ([∗ list] il;it ∈ item_locs;items, is_item 1 il it)
  -∗ new_content ↦ OList kept_locs
  -∗ ([∗ list] il;it ∈ kept_locs;kept, is_item 1 il it)
  -∗ (∀ locs', new_content ↦ OList locs'
        -∗ ([∗ list] il;it ∈ locs';(strip_loop_value items kept removed_media).1,
              is_item 1 il it)
        -∗ Φ (strip_loop_value items kept removed_media).2)
  -∗ wp (strip_loop item_locs new_content removed_media) Φ.
Proof.
  iInduction item_locs as [|il item_locs] "IH"
    forall (items kept_locs kept removed_media Φ); iIntros "Hl Hn Hk H".
  - iDestruct (big_sepL2_nil_inv_l with "Hl") as %->. iApply wp_ret.
    iApply ("H" with "Hn Hk").
  - iDestruct (big_sepL2_cons_inv_l with "Hl") as (it items' ->) "[Hit Hl]".
    simpl. iApply wp_bind. iApply (wp_read_item with "Hit"). iIntros "Hit".
    destruct (has_text it).
    + iApply wp_bind. iApply (wp_list_append with "Hn"). iIntros "Hn". simpl.
      iApply ("IH" with "Hl Hn [Hk Hit]"); [|done].
      iApply (big_sepL2_snoc with "[$Hk $Hit]").
    + destruct (has_image it || has_json it).
      * iApply ("IH" with "Hl Hn Hk"). done.
      * iApply wp_bind. iApply (wp_list_append with "Hn"). iIntros "Hn". simpl.
        iApply ("IH" with "Hl Hn [Hk Hit]"); [|done].
        iApply (big_sepL2_snoc with "[$Hk $Hit]").
Qed.

Lemma wp_strip_message l m Φ :
  is_message 1 l m -∗ (is_message 1 l (strip_message_value m) -∗ Φ tt)
  -∗ wp (strip_message l) Φ.
Proof.
  iIntros "(%c & Hl & Hc) H". iApply wp_bind.
  iApply (wp_read_message with "Hl"). iIntros "Hl". simpl.
  destruct m as [r items]. destruct c as [cl|], items as [items|]; simpl; try done.
  - iDestruct "Hc" as (item_locs) "[Hcl Hitems]".
    iApply wp_bind. iApply (wp_read_list with "Hcl"). iIntros "_".
    iApply wp_bind. iApply wp_alloc. iIntros (new_content) "Hn".
    iApply wp_bind.
    iApply (wp_strip_loop _ _ _ [] [] with "Hitems Hn []"); [done|].
    iIntros (locs') "Hn Hk".
    unfold strip_message_value. simpl.
    destruct (strip_loop_value items [] false) as [kept removed_media]. simpl.
    iDestruct (big_sepL2_length with "Hk") as %Hlen.
    iApply wp_bind. iApply (wp_read_list with "Hn"). iIntros "Hn".
    assert (bool_decide (locs' = []) = bool_decide (kept = [])) as ->.
    { destruct locs', kept; done. }
    destruct (removed_media && bool_decide (kept = [])).
    + iApply wp_bind. iApply wp_bind. iApply wp_alloc. iIntros (placeholder) "Hp".
      iApply (wp_list_append with "Hn"). iIntros "Hn". simpl.
      iApply (wp_set_content with "Hl"). iIntros "Hl". iApply "H".
      iExists (Some new_content). iFrame "Hl". iExists _. iFrame "Hn".
      iApply (big_sepL2_snoc with "[$Hk $Hp]").
    + iApply wp_bind. iApply wp_ret. simpl.
      iApply (wp_set_content with "Hl"). iIntros "Hl". iApply "H".
      iExists (Some new_content). iFrame "Hl". iExists _. iFrame.
  - iApply wp_ret. iApply "H". iExists None. by iFrame.
Qed.

Lemma wp_strip_all message_locs messages i len last_user_index Φ :
  ([∗ list] ml;m ∈ message_locs;messages, is_message 1 ml m)
  -∗ (([∗ list] ml;m ∈ message_locs;
         imap (fun j m => if in_last_turn last_user_index len (i + j) then m
                          else strip_message_value m) messages,
         is_message 1 ml m) -∗ Φ tt)
  -∗ wp (strip_all message_locs i len last_user_index) Φ.
Proof.
  iInduction message_locs as [|ml message_locs] "IH" forall (messages i Φ);
    iIntros "Hl H".
  - iDestruct (big_sepL2_nil_inv_l with "Hl") as %->. iApply wp_ret. by iApply "H".
  - iDestruct (big_sepL2_cons_inv_l with "Hl") as (m messages' ->) "[Hm Hl]".
    simpl. rw Nat.add_0_r. iApply wp_bind.
    iAssert (wp (if in_last_turn last_user_index len i then ret tt
                 else strip_message ml)
               (fun _ => is_message 1 ml
                           (if in_last_turn last_user_index len i then m
                            else strip_message_value m)))%I with "[Hm]" as "Hm".
    { destruct (in_last_turn last_user_index len i).
      - by iApply wp_ret.
      - iApply (wp_strip_message with "Hm"). by iIntros "Hm". }
    iApply (wp_wand with "Hm"). iIntros (_) "Hm".
    iApply ("IH" with "Hl"). iIntros "Hl". iApply "H". iFrame "Hm".
    erewrite imap_ext; [done|]. intros j x _. simpl. by replace (i + S j) with (i + 1 + j) by lia.
Qed.

(** What [remove_media_except_last_turn] leaves: a part of the transcript
    it was given, unchanged, and its result, which is the transcript itself
    or a new one. *)
Lemma wp_remove_media recursion_limit l messages Φ :
  4 <= recursion_limit ->
  is_messages 1 l messages
  -∗ (∀ r q, is_messages q l messages
             -∗ (⌜r = l /\ remove_media_value messages = messages⌝
                 ∨ is_messages 1 r (remove_media_value messages))
             -∗ Φ r)
  -∗ wp (remove_media_except_last_turn recursion_limit l) Φ.
Proof.
  intros Hlimit. iIntros "Hl H". unfold remove_media_except_last_turn.
  iDestruct "Hl" as (message_locs) "[Hl Hm]".
  iDestruct (big_sepL2_length with "Hm") as %Hlen.
  iApply wp_bind. iApply (wp_read_list with "Hl"). iIntros "Hl".
  unfold remove_media_value. rw Hlen.
  destruct (length messages <? 2)%nat.
  - iApply wp_ret. iApply ("H" with "[Hl Hm]"); [iExists message_locs; iFrame|].
    by iLeft.
  - iApply wp_bind. iApply (wp_deepcopy_messages with "[Hl Hm]"); [done| |].
    { iExists message_locs. iFrame. }
    iIntros (r) "Hl (%processed_locs & Hr & Hp)".
    iDestruct (big_sepL2_length with "Hp") as %Hlen'.
    iApply wp_bind. iApply (wp_read_list with "Hr"). iIntros "Hr".
    iApply wp_bind.
    iDestruct (big_sepL2_reverse_2 with "Hp") as "Hp".
    iApply (wp_find_user_indices with "Hp"). iIntros "Hp".
    iDestruct (big_sepL2_reverse_2 with "Hp") as "Hp".
    rw !reverse_involutive. rw Hlen'.
    destruct (find_user_indices_value _ _ _ _) as [last_user_index second].
    simpl. iApply wp_bind. iApply (wp_strip_all with "Hp"). iIntros "Hp".
    iApply wp_ret. iApply ("H" with "Hl"). iRight. iExists processed_locs.
    iFrame.
Qed.

(** *** summarize_conversation *)

Lemma wp_try_lift {A B} (r : Py.exn + A) (k : A -> M heap B) handler Φ :
  match r with
  | inr a => wp (k a) Φ
  | inl e => wp (handler e) Φ
  end ⊢ wp (try_except (let* a := lift_result r in k a) handler) Φ.
Proof.
  iIntros "H" (σ) "Hσ". destruct r as [e|a]; simpl.
  - iMod ("H" with "Hσ") as (b σ1) "(%Hm & Hσ & H)".
    iModIntro. iExists b, σ1. by iFrame.
  - iMod ("H" with "Hσ") as (b σ1) "(%Hm & Hσ & H)".
    iModIntro. iExists b, σ1. iFrame. iPureIntro.
    unfold try_except, bind, ret. by rw Hm.
Qed.

Lemma wp_collect_last q rev_locs rev_msgs last_messages last_locs last_msgs
    message_count turn_count Φ :
  ([∗ list] ml;m ∈ rev_locs;rev_msgs, is_message q ml m)
  -∗ last_messages ↦ OList last_locs
  -∗ (∀ k,
        ⌜(k <= length rev_msgs)%nat
         /\ (collect_last_value rev_msgs last_msgs message_count turn_count).1
            = (reverse (take k rev_msgs) ++ last_msgs, (message_count + k)%nat)⌝
        -∗ ([∗ list] ml;m ∈ rev_locs;rev_msgs, is_message q ml m)
        -∗ last_messages ↦ OList (reverse (take k rev_locs) ++ last_locs)
        -∗ Φ (message_count + k,
              (collect_last_value rev_msgs last_msgs message_count turn_count).2))
  -∗ wp (collect_last rev_locs last_messages message_count turn_count) Φ.
Proof.
  iInduction rev_locs as [|ml rev_locs] "IH"
    forall (rev_msgs last_locs last_msgs message_count turn_count Φ);
    iIntros "Hl Hn H".
  - iDestruct (big_sepL2_nil_inv_l with "Hl") as %->. iApply wp_ret.
    iSpecialize ("H" $! 0 with "[] [] [Hn]"); [|done|done|].
    { iPureIntro. simpl. split; [lia|]. by rw Nat.add_0_r. }
    by rw Nat.add_0_r.
  - iDestruct (big_sepL2_cons_inv_l with "Hl") as (m rev_msgs' ->) "[Hm Hl]".
    cbn -[Nat.leb]. iApply wp_bind. iApply (wp_list_insert0 with "Hn"). iIntros "Hn".
    iDestruct "Hm" as (c) "[Hml Hc]".
    iApply wp_bind. iApply (wp_read_message with "Hml"). iIntros "Hml".
    cbn -[Nat.leb]. iApply wp_bind.
    iApply (wp_wand _
              (fun turn =>
                 ⌜turn = is_user m && match rev_msgs' with
                                      | prev :: _ => is_assistant prev
                                      | [] => false
                                      end⌝
                 ∗ [∗ list] ml;m ∈ rev_locs;rev_msgs', is_message q ml m)%I
            with "[Hl]").
    { unfold is_user. destruct (String.eqb (role m) "user"); simpl.
      - destruct rev_locs as [|prev rest].
        + iDestruct (big_sepL2_nil_inv_l with "Hl") as %->. iApply wp_ret. by iSplit.
        + iDestruct (big_sepL2_cons_inv_l with "Hl")
            as (mp rest' ->) "[(%cp & Hp & Hcp) Hl]".
          iApply wp_bind. iApply (wp_read_message with "Hp"). iIntros "Hp".
          iApply wp_ret. iSplit; [done|]. iFrame.
      - iApply wp_ret. by iFrame. }
    iIntros (turn) "[-> Hl]".
    destruct (KEEP_LAST_TURNS <=? _)%nat eqn:Hk.
    + iApply wp_ret.
      iApply ("H" $! 1 with "[] [Hml Hc Hl] [Hn]"); [|iFrame..].
      iPureIntro. split; [simpl; lia|]. done.
    + iApply ("IH" with "Hl Hn"). iIntros (k [Hk1 Hk2]) "Hl Hn".
      replace (message_count + 1 + k) with (message_count + S k) by lia.
      iApply ("H" $! (S k) with "[] [Hml Hc Hl] [Hn]"); [|iFrame|].
      * iPureIntro. split; [simpl; lia|]. rw Hk2. simpl.
        rw reverse_cons -app_assoc. simpl. f_equal. lia.
      * simpl. by rw reverse_cons -app_assoc.
Qed.

Lemma wp_collect_tool_use q item_locs items tool_use_content tool_locs Φ :
  ([∗ list] il;it ∈ item_locs;items, is_item q il it)
  -∗ tool_use_content ↦ OList tool_locs
  -∗ (([∗ list] il;it ∈ item_locs;items, is_item q il it)
      -∗ tool_use_content
           ↦ OList (tool_locs ++ filter_locs has_toolUse item_locs items)
      -∗ Φ tt)
  -∗ wp (collect_tool_use item_locs tool_use_content) Φ.
Proof.
  iInduction item_locs as [|il item_locs] "IH" forall (items tool_locs Φ);
    iIntros "Hl Ht H".
  - iDestruct (big_sepL2_nil_inv_l with "Hl") as %->. iApply wp_ret.
    iApply ("H" with "[] [Ht]"); [done|]. by rw app_nil_r.
  - iDestruct (big_sepL2_cons_inv_l with "Hl") as (it items' ->) "[Hit Hl]".
    simpl. iApply wp_bind. iApply (wp_read_item with "Hit"). iIntros "Hit".
    destruct (has_toolUse it).
    + iApply wp_bind. iApply (wp_list_append with "Ht"). iIntros "Ht". simpl.
      iApply ("IH" with "Hl Ht"). iIntros "Hl Ht".
      iApply ("H" with "[Hit Hl]"); [iFrame|]. by rw -app_assoc.
    + iApply wp_bind. iApply wp_ret. simpl.
      iApply ("IH" with "Hl Ht"). iIntros "Hl Ht".
      iApply ("H" with "[Hit Hl]"); [iFrame|]. done.
Qed.

Lemma big_sepL2_filter_locs q p item_locs items :
  ([∗ list] il;it ∈ item_locs;items, is_item q il it)
  ⊢ [∗ list] il;it ∈ filter_locs p item_locs items;List.filter p items,
      is_item q il it.
Proof.
  iInduction item_locs as [|il item_locs] "IH" forall (items); iIntros "Hl".
  - by iDestruct (big_sepL2_nil_inv_l with "Hl") as %->.
  - iDestruct (big_sepL2_cons_inv_l with "Hl") as (it items' ->) "[Hit Hl]".
    simpl. destruct (p it); simpl.
    + iFrame "Hit". by iApply "IH".
    + by iApply "IH".
Qed.

(** Loading a list whose last message is read through what is known of
    it. *)
Lemma wp_load_snoc (R : iProp Σ) q init_locs init lm m Φ :
  ([∗ list] ml;m ∈ init_locs;init, is_message q ml m)
  -∗ (∀ Ψ, R -∗ (R -∗ Ψ m) -∗ wp (load_message lm) Ψ)
  -∗ R
  -∗ (([∗ list] ml;m ∈ init_locs;init, is_message q ml m) -∗ R -∗ Φ (init ++ [m]))
  -∗ wp (mapM load_message (init_locs ++ [lm])) Φ.
Proof.
  iInduction init_locs as [|ml init_locs] "IH" forall (init Φ);
    iIntros "Hl Hload R H".
  - iDestruct (big_sepL2_nil_inv_l with "Hl") as %->. simpl.
    iApply wp_bind. iApply ("Hload" with "R"). iIntros "R".
    iApply wp_bind. iApply wp_ret. iApply wp_ret. by iApply ("H" with "[] R").
  - iDestruct (big_sepL2_cons_inv_l with "Hl") as (m0 init' ->) "[Hm Hl]".
    simpl. iApply wp_bind. iApply (wp_load_message with "Hm"). iIntros "Hm".
    iApply wp_bind. iApply ("IH" with "Hl Hload R"). iIntros "Hl R".
    iApply wp_ret. iApply ("H" with "[Hm Hl] R"). iFrame.
Qed.

(** The requests of the last message to summarize are collected and the
    messages to summarize are loaded; the items collected are those the
    function on values collects. *)
Lemma wp_collect_and_load {B} init_locs init lm m tool_use_content
    (k : list Message -> M heap B) Φ :
  ([∗ list] ml;m ∈ (init_locs ++ [lm]);(init ++ [m]), is_message 1 ml m)
  -∗ tool_use_content ↦ OList []
  -∗ (∀ tool_locs,
        tool_use_content ↦ OList tool_locs
        -∗ (([∗ list] ml;m ∈ (init_locs ++ [lm]);(init ++ [m]), is_message 1 ml m)
            ∧ ([∗ list] il;it ∈ tool_locs;tool_use_content_of (init ++ [m]),
                 is_item 1 il it))
        -∗ wp (k (init ++ [m])) Φ)
  -∗ wp (match last (init_locs ++ [lm]) with
         | Some last_message_to_summarize =>
             let* rc := read_message last_message_to_summarize in
             if String.eqb rc.1 "assistant" then
               match rc.2 with
               | Some cl =>
                   let* item_locs := read_list cl in
                   collect_tool_use item_locs tool_use_content
               | None => ret tt
               end
             else ret tt
         | None => ret tt
         end ;;
         let* to_summarize_values := mapM load_message (init_locs ++ [lm]) in
         k to_summarize_values)%py Φ.
Proof.
  iIntros "Hts Ht H". rw last_snoc.
  iDestruct (big_sepL2_snoc with "Hts") as "[Hinit Hm]".
  unfold tool_use_content_of, is_assistant, get_content. rw last_snoc.
  destruct m as [r items]. simpl.
  iDestruct "Hm" as (c) "[Hlm Hc]". simpl.
  iApply wp_bind. iApply wp_bind. iApply (wp_read_message with "Hlm").
  iIntros "Hlm". simpl.
  destruct (String.eqb r "assistant"), c as [cl|], items as [items|];
    simpl; try (by iDestruct "Hc" as "[]").
  - iDestruct "Hc" as (item_locs) "[Hcl Hitems]".
    iApply wp_bind. iApply (wp_read_list with "Hcl"). iIntros "Hcl".
    iApply (wp_collect_tool_use with "Hitems Ht"). iIntros "Hitems Ht". simpl.
    iApply wp_bind.
    iApply (wp_load_snoc (lm ↦ OMessage r (Some cl) ∗ cl ↦ OList item_locs
                          ∗ [∗ list] il;it ∈ item_locs;items, is_item 1 il it)
              with "Hinit [] [$Hlm $Hcl $Hitems]").
    { iIntros (Ψ) "(Hlm & Hcl & Hitems) HΨ". iApply wp_bind.
      iApply (wp_read_message with "Hlm"). iIntros "Hlm". simpl.
      iApply wp_bind. iApply (wp_read_list with "Hcl"). iIntros "Hcl".
      iApply wp_bind. iApply (wp_mapM_read (is_item 1) with "Hitems").
      { iIntros (a v Ψ') "Ha H". iApply (wp_read_item with "Ha H"). }
      iIntros "Hitems". iApply wp_ret. iApply "HΨ". iFrame. }
    iIntros "Hinit (Hlm & Hcl & Hitems)". iApply ("H" with "Ht"). iSplit.
    + iApply big_sepL2_snoc. iFrame "Hinit". iExists (Some cl). iFrame.
    + by iApply big_sepL2_filter_locs.
  - iApply wp_ret. simpl. iApply wp_bind.
    iApply (wp_load_message_list 1 _ (init ++ [mkMessage r None])
              with "[Hinit Hlm]").
    { iApply big_sepL2_snoc. iFrame "Hinit". iExists None. by iFrame. }
    iIntros "Hts". iApply ("H" with "Ht"). iSplit; done.
  - iApply wp_ret. simpl. iApply wp_bind.
    iApply (wp_load_message_list 1 _ (init ++ [mkMessage r (Some items)])
              with "[Hinit Hlm Hc]").
    { iApply big_sepL2_snoc. iFrame "Hinit". iExists (Some cl). iFrame. }
    iIntros "Hts". iApply ("H" with "Ht"). iSplit; done.
  - iApply wp_ret. simpl. iApply wp_bind.
    iApply (wp_load_message_list 1 _ (init ++ [mkMessage r None])
              with "[Hinit Hlm]").
    { iApply big_sepL2_snoc. iFrame "Hinit". iExists None. by iFrame. }
    iIntros "Hts". iApply ("H" with "Ht"). iSplit; done.
Qed.

Lemma slice_split {A} n (l : list A) :
  Py.slice 1 n l <> [] -> l = take 1 l ++ Py.slice 1 n l ++ drop n l.
Proof.
  unfold Py.slice. intros H. destruct n as [|n]; [done|].
  replace (S n - 1) with n by lia.
  rw -{1}(take_drop 1 l). f_equal.
  rw -{1}(take_drop n (drop 1 l)). f_equal. by rw drop_drop.
Qed.

Lemma reverse_take_reverse {A} k (l : list A) :
  reverse (take k (reverse l)) = drop (length l - k) l.
Proof. by rw take_reverse reverse_involutive. Qed.

Lemma length_slice {A} lo hi (l : list A) :
  length (Py.slice lo hi l) = min (hi - lo) (length l - lo).
Proof. unfold Py.slice. by rw length_take length_drop. Qed.

Lemma slice_nil_length {A B} lo hi (l : list A) (l' : list B) :
  length l = length l' ->
  bool_decide (Py.slice lo hi l = []) = bool_decide (Py.slice lo hi l' = []).
Proof.
  intros H. apply bool_decide_ext.
  rw -!length_zero_iff_nil !length_slice H. done.
Qed.

Lemma summarize_value_unfold messages bedrock_client first_message rest :
  messages = first_message :: rest ->
  bool_decide (messages = [])
  || (length messages <=? KEEP_LAST_TURNS * 2 + 1)%nat = false ->
  summarize_value messages bedrock_client
  = if bool_decide (to_summarize_of messages = []) then messages
    else
      match converse bedrock_client SUMMARY_MODEL_ID
              (summary_request (to_summarize_of messages)) with
      | inr summary_response =>
          let result :=
            summarized_result first_message summary_response
              (tool_use_content_of (to_summarize_of messages))
              (last_messages_of messages) in
          if bool_decide (tool_use_count result ≠ tool_result_count result)
          then messages else result
      | inl e => messages
      end.
Proof. intros Hm Hg. unfold summarize_value. rw Hg. by rw {1}Hm. Qed.

Lemma wp_summarize recursion_limit l messages bedrock_client Φ :
  4 <= recursion_limit ->
  is_messages 1 l messages
  -∗ (∀ r q, is_messages q l messages
             -∗ (⌜r = l /\ summarize_value messages bedrock_client = messages⌝
                 ∨ is_messages 1 r (summarize_value messages bedrock_client))
             -∗ Φ r)
  -∗ wp (summarize_conversation recursion_limit l bedrock_client) Φ.
Proof.
  intros Hlimit. iIntros "Hl H". unfold summarize_conversation.
  iDestruct "Hl" as (message_locs) "[Hl Hm]".
  iDestruct (big_sepL2_length with "Hm") as %Hlen.
  iApply wp_bind. iApply (wp_read_list with "Hl"). iIntros "Hl".
  assert (bool_decide (message_locs = []) = bool_decide (messages = [])) as ->.
  { destruct message_locs, messages; done. }
  rw Hlen.
  destruct (bool_decide (messages = [])
            || (length messages <=? KEEP_LAST_TURNS * 2 + 1)%nat) eqn:Hguard.
  { iApply wp_ret. iApply ("H" with "[Hl Hm]"); [iExists message_locs; iFrame|].
    iLeft. iPureIntro. split; [done|]. unfold summarize_value. by rw Hguard. }
  assert (exists first_m rest_m, messages = first_m :: rest_m)
    as (first_m & rest_m & Hmsg).
  { destruct messages; [done|eauto]. }
  rw (summarize_value_unfold _ _ _ _ Hmsg Hguard).
  iApply wp_bind. iApply (wp_deepcopy_messages with "[Hl Hm]"); [done| |].
  { iExists message_locs. iFrame. }
  iIntros (r) "Hl (%processed_locs & Hr & Hp)".
  iDestruct (big_sepL2_length with "Hp") as %Hlen'.
  iApply wp_bind. iApply (wp_read_list with "Hr"). iIntros "Hr".
  destruct processed_locs as [|first rest_locs] eqn:Hpl.
  { rw Hmsg in Hlen'. done. }
  rw -Hpl.
  iApply wp_bind. iApply wp_alloc. iIntros (last_messages) "Hlast".
  iApply wp_bind.
  iDestruct (big_sepL2_reverse_2 with "Hp") as "Hp".
  iApply (wp_collect_last 1 _ _ _ [] [] 0 0 with "Hp Hlast").
  iIntros (k [Hk Hcl]) "Hp Hlast".
  iDestruct (big_sepL2_reverse_2 with "Hp") as "Hp".
  rw !reverse_involutive app_nil_r reverse_take_reverse.
  rw -Hpl in Hlen'. rw Hlen'. cbn [fst Nat.add].
  set (n := length messages - k).
  assert (to_summarize_of messages = Py.slice 1 n messages) as ->.
  { unfold to_summarize_of, message_count_of. by rw Hcl. }
  assert (last_messages_of messages = drop n messages) as ->.
  { unfold last_messages_of. rw Hcl. simpl.
    by rw app_nil_r reverse_take_reverse. }
  iApply wp_bind. iApply wp_alloc. iIntros (to_summarize) "Hto".
  iApply wp_bind. iApply (wp_read_list with "Hto"). iIntros "_".
  rw (slice_nil_length 1 n processed_locs messages Hlen').
  destruct (bool_decide (Py.slice 1 n messages = [])) eqn:Hempty.
  { iApply wp_ret. iApply ("H" with "Hl"). iRight. iExists processed_locs. iFrame. }
  apply bool_decide_eq_false in Hempty.
  assert (Py.slice 1 n processed_locs <> []) as Hempty'.
  { intros He. apply Hempty. apply length_zero_iff_nil.
    apply length_zero_iff_nil in He. by rw length_slice -Hlen' -length_slice. }
  pose proof (slice_split n messages Hempty) as Hsplit.
  pose proof (slice_split n processed_locs Hempty') as Hsplit'.
  assert (take 1 messages = [first_m]) as Ht1 by (by rw Hmsg).
  assert (take 1 processed_locs = [first]) as Ht1' by (by rw Hpl).
  rw Ht1 in Hsplit. rw Ht1' in Hsplit'.
  destruct (exists_last Hempty) as (init & m_last & Hts).
  destruct (exists_last Hempty') as (init_locs & lm & Hts').
  set (last_locs := drop n processed_locs) in *.
  set (last_msgs := drop n messages) in *.
  rw Hts Hts'. rw Hts in Hsplit. rw Hts' in Hsplit'.
  iEval (rw Hsplit Hsplit') in "Hp".
  iDestruct (big_sepL2_app_inv with "Hp") as "[Hfirst Hp]"; [by left|].
  iDestruct "Hfirst" as "[Hfirst _]".
  iDestruct (big_sepL2_app_inv with "Hp") as "[Hts Hlastm]".
  { right. unfold last_locs, last_msgs. by rw !length_drop Hlen'. }
  iApply wp_bind. iApply wp_alloc. iIntros (tool_use_content) "Htuc".
  iApply (wp_collect_and_load with "Hts Htuc"). iIntros (tool_locs) "Htuc Hand".
  iApply wp_try_lift.
  destruct (converse bedrock_client SUMMARY_MODEL_ID
              (summary_request (init ++ [m_last]))) as [e|summary_response].
  { iApply wp_ret. iDestruct "Hand" as "[Hts _]". iApply ("H" with "Hl").
    iRight. iExists processed_locs. iFrame "Hr". iEval (rw Hsplit Hsplit').
    iApply (big_sepL2_app with "[Hfirst]"); [by iFrame|].
    iApply (big_sepL2_app with "Hts Hlastm"). }
  iDestruct "Hand" as "[_ Htools]".
  set (tools := tool_use_content_of (init ++ [m_last])).
  iApply wp_bind. iApply wp_alloc. iIntros (summary_item) "Hsi".
  iApply wp_bind. iApply wp_alloc. iIntros (summary_content) "Hsc".
  iApply wp_bind. iApply (wp_read_list with "Htuc"). iIntros "Htuc".
  iApply wp_bind.
  iApply (wp_wand _ (fun _ => summary_content ↦ OList (summary_item :: tool_locs))%I
          with "[Hsc Htuc]").
  { destruct tool_locs as [|t tool_locs'].
    - rw bool_decide_eq_true_2; [|done]. by iApply wp_ret.
    - rw bool_decide_eq_false_2; [|done].
      iApply (wp_list_extend with "Hsc Htuc"). by iIntros "Hsc _". }
  iIntros (_) "Hsc".
  iApply wp_bind. iApply wp_alloc. iIntros (summary_message) "Hsm".
  iApply wp_bind. iApply wp_alloc. iIntros (result) "Hres".
  iApply wp_bind. iApply (wp_list_extend with "Hres Hlast"). iIntros "Hres _".
  iApply wp_bind.
  iApply (wp_load_messages 1 _
            (summarized_result first_m summary_response tools last_msgs)
          with "[-H Hl]").
  { iExists _. iFrame "Hres". unfold summarized_result.
    rw summary_message_of_content. simpl. iFrame "Hfirst Hlastm".
    iExists (Some summary_content). iFrame "Hsm". simpl.
    iExists _. iFrame "Hsc". simpl. iFrame. }
  iIntros "Hres".
  destruct (bool_decide (tool_use_count _ ≠ _)).
  - iApply wp_ret. iApply ("H" with "Hl"). by iLeft.
  - iApply wp_ret. iApply ("H" with "Hl"). by iRight.
Qed.

End Rules.

(** *** From the logic to the runs *)

Lemma wp_adequate {A} (m : M heap A) (φ : A -> Prop) :
  (forall (Hheap : gen_heapGS loc obj (gen_heapΣ loc obj)), ⊢ wp m (fun a => ⌜φ a⌝)) ->
  exists a σ, m ∅ = (inr a, σ) /\ φ a.
Proof.
  intros Hwp. apply (pure_soundness (PROP := iProp (gen_heapΣ loc obj))).
  apply uPred.bupd_soundness; [apply _|].
  iMod (gen_heap_init (∅ : heap)) as (Hheap) "(Hσ & _ & _)".
  iMod (Hwp Hheap $! ∅ with "Hσ") as (a σ) "(%Hm & _ & %Hφ)".
  iModIntro. iPureIntro. eauto.
Qed.

Lemma run_on_refines messages (f : loc -> M heap loc) (result : list Message) :
  (forall (Hheap : gen_heapGS loc obj (gen_heapΣ loc obj)) l Φ,
     is_messages 1 l messages
     -∗ (∀ r q, is_messages q l messages
                -∗ (⌜r = l /\ result = messages⌝ ∨ is_messages 1 r result)
                -∗ Φ r)
     -∗ wp (f l) Φ) ->
  run_on messages f = inr (result, messages).
Proof.
  intros Hf. unfold run_on.
  destruct (wp_adequate
              (let* l := store_messages messages in
               let* r := f l in
               let* result := load_messages r in
               let* input_after := load_messages l in
               ret (result, input_after))
              (fun p => p = (result, messages))) as (a & σ & Hm & ->).
  - intros Hheap. iApply wp_bind. iApply wp_store_messages. iIntros (l) "Hl".
    iApply wp_bind. iApply (Hf with "Hl"). iIntros (r q) "Hl [[-> ->]|Hr]".
    + iApply wp_bind. iApply (wp_load_messages with "Hl"). iIntros "Hl".
      iApply wp_bind. iApply (wp_load_messages with "Hl"). iIntros "Hl".
      by iApply wp_ret.
    + iApply wp_bind. iApply (wp_load_messages with "Hr"). iIntros "Hr".
      iApply wp_bind. iApply (wp_load_messages with "Hl"). iIntros "Hl".
      by iApply wp_ret.
  - by rw Hm.
Qed.

(** X27: on a transcript laid out in the store without shared objects, and
    with room for four levels of recursion, [remove_media_except_last_turn]
    over the store returns a list that holds what the function on values
    returns, and leaves the transcript it was given as it was. *)
Theorem X27_store_remove_media_refines (recursion_limit : nat)
    (messages : list Message) :
  4 <= recursion_limit ->
  run_on messages (remove_media_except_last_turn recursion_limit)
  = inr (remove_media_value messages, messages).
Proof.
  intros Hlimit. apply run_on_refines. intros Hheap l Φ.
  by apply wp_remove_media.
Qed.

(** X28: on a transcript laid out in the store without shared objects, and
    with room for four levels of recursion, [summarize_conversation] over
    the store returns a list that holds what the function on values
    returns, whatever the summarization model answers or raises, and
    leaves the transcript it was given as it was. *)
Theorem X28_store_summarize_refines (recursion_limit : nat)
    (messages : list Message) (bedrock_client : BedrockClient) :
  4 <= recursion_limit ->
  run_on messages
    (fun l => summarize_conversation recursion_limit l bedrock_client)
  = inr (summarize_value messages bedrock_client, messages).
Proof.
  intros Hlimit. apply run_on_refines. intros Hheap l Φ.
  by apply wp_summarize.
Qed.

Lemma X27_store_remove_media_refines_witness :
  run_on image_transcript (remove_media_except_last_turn 4)
  = inr (remove_media_value image_transcript, image_transcript).
Proof.
  apply (X27_store_remove_media_refines 4 image_transcript). lia.
Defined.

Lemma X28_store_summarize_refines_witness :
  run_on seven_turns
    (fun l => summarize_conversation 4 l (answering_client "done"))
  = inr (summarize_value seven_turns (answering_client "done"), seven_turns).
Proof.
  apply (X28_store_summarize_refines 4 seven_turns (answering_client "done")).
  lia.
Defined.

End StoreRefinement.
